(** * A sports-betting backend: the betting engine, the token check and the
      admin dashboard, embedded from the Python sources.

    Layout: Python values and containers ([Py]), the persisted entities
    ([User], [Event], [Bet], [Database]), the betting engine
    ([BettingService] and its methods), the token check of
    [auth_service.py] and [api/router.py], the dashboard of
    [admin/dashboard.py]; then the properties.

    Numbers: every amount, balance and odds value is a Python [float], that
    is an IEEE-754 binary64 number; they are modelled by Rocq's primitive
    floats, which are the same numbers with the same rounding
    (round-to-nearest-even).  Identifiers are Python integers ([Z]); a
    [datetime] is a count of microseconds ([Z]). *)

From Stdlib Require Import ZArith String List Floats Bool Lia.
From stdpp Require Import gmap strings list fin_maps.
Import ListNotations.

Set Warnings "-inexact-float".
Local Open Scope string_scope.
Local Open Scope Z_scope.

(** ** Python values *)

Module Py.

(** [a < b] on floats: false as soon as one side is NaN. *)
Definition lt (a b : float) : bool := PrimFloat.ltb a b.

(** [max(a, b)] of two arguments: the first one, unless the second is
    greater ([max] keeps its first argument when the comparison is false,
    so [max(nan, x)] is [nan]). *)
Definition max (a b : float) : float := if PrimFloat.ltb a b then b else a.

(** [sum(xs)]: repeated [+] from the integer [0], left to right (the
    definition of the language; CPython from 3.12 on compensates the
    rounding of a float sum of three or more terms, which can change the
    last bits). *)
Definition sum (xs : list float) : float := fold_left PrimFloat.add xs 0%float.

(** [x or 0.0] for [x] a float or [None]: [None] and zero are falsy. *)
Definition or_zero (x : option float) : float :=
  match x with
  | None => 0%float
  | Some v => if PrimFloat.eqb v 0%float then 0%float else v
  end.

(** A [dict] with string keys: the bindings in insertion order, no key
    twice. *)
Definition dict (V : Type) : Type := list (string * V).

Fixpoint get {V} (k : string) (d : dict V) : option V :=
  match d with
  | [] => None
  | (k', v) :: d' => if String.eqb k k' then Some v else get k d'
  end.

(** [k in d] *)
Definition mem {V} (k : string) (d : dict V) : bool :=
  match get k d with Some _ => true | None => false end.

(** [d[k] = v]: an existing key keeps its place, a new one goes last. *)
Fixpoint set {V} (k : string) (v : V) (d : dict V) : dict V :=
  match d with
  | [] => [(k, v)]
  | (k', v') :: d' =>
      if String.eqb k k' then (k', v) :: d' else (k', v') :: set k v d'
  end.

Definition keys {V} (d : dict V) : list string := map fst d.

(** The values a decoded JSON claim can be, [None] included. *)
Inductive value : Type :=
| VNone
| VBool (b : bool)
| VInt (n : Z)
| VStr (s : string).

Definition is_none (v : value) : bool :=
  match v with VNone => true | _ => false end.

(** [d.get(k)]: [None] when the key is missing. *)
Definition get_or_none (k : string) (d : dict value) : value :=
  match get k d with Some v => v | None => VNone end.

(** The exceptions the modelled code raises, each with its message.
    [ExpiredSignatureError] and [JWTClaimsError] are subclasses of
    [JWTError].  [IntegrityError] and [MissingGreenlet] are SQLAlchemy's;
    of their texts, to which SQLAlchemy appends the statement, its
    parameters and a link to its documentation on further lines, the
    message is the first line. *)
Inductive exn : Type :=
| Exception (msg : string)
| AttributeError (msg : string)
| NameError (msg : string)
| TypeError (msg : string)
| OverflowError (msg : string)
| HTTPException (status_code : Z) (detail : string)
    (headers : list (string * string))
| JWTError (msg : string)
| ExpiredSignatureError (msg : string)
| JWTClaimsError (msg : string)
| IntegrityError (msg : string)
| MissingGreenlet (msg : string).

(** [isinstance(e, JWTError)] *)
Definition is_JWTError (e : exn) : bool :=
  match e with
  | JWTError _ | ExpiredSignatureError _ | JWTClaimsError _ => true
  | _ => false
  end.

Inductive result (A : Type) : Type :=
| Return (a : A)
| Raise (e : exn).
Arguments Return {A} a.
Arguments Raise {A} e.

Definition is_return {A} (r : result A) : bool :=
  match r with Return _ => true | Raise _ => false end.

End Py.

(** A [datetime], in microseconds; [timedelta(seconds=n)]. *)
Abbreviation time := Z.
Definition timedelta_seconds (n : Z) : Z := n * 1000000.

(** ** Persisted entities *)

(** Modelled from the spec: [src/models/user.py] is not among the sources;
    the fields are those the spec's data model lists and the code reads
    ([create_user], the admin and profile endpoints).  The primary key is
    the key of the [users] table below; the server-assigned timestamps are
    left out. *)
Module User.
Record t : Type := mk {
  username : string;
  email : string;
  hashed_password : string;
  role : string;
  balance : float;
  total_deposited : float;
  is_active : bool
}.

Definition set_balance (u : t) (x : float) : t :=
  mk (username u) (email u) (hashed_password u) (role u) x
     (total_deposited u) (is_active u).
Definition set_total_deposited (u : t) (x : float) : t :=
  mk (username u) (email u) (hashed_password u) (role u) (balance u)
     x (is_active u).
End User.

(** [src/models/event.py]; [created_at] and [updated_at] are assigned by
    the database server and left out. *)
Module Event.
Record t : Type := mk {
  name : string;
  sport_type : string;
  description : string;
  start_time : time;
  is_active : bool;
  is_finished : bool;
  result : option string
}.
End Event.

(** [src/models/bet.py]; [placed_at] is assigned by the database server and
    left out.  [is_won] is [None] while the bet is pending. *)
Module Bet.
Record t : Type := mk {
  id : Z;
  user_id : Z;
  event_id : Z;
  amount : float;
  odds : float;
  predicted_outcome : string;
  is_won : option bool;
  payout : float;
  resolved_at : option time
}.
End Bet.

(** The three tables.  Users and events are keyed by their primary key; the
    bets are kept in row order, which is the order the queries return them
    in and the order the engine adds their amounts up in. *)
Record Database : Type := mkDatabase {
  users : gmap Z User.t;
  events : gmap Z Event.t;
  bets : list Bet.t
}.

(** [select(Bet).where(Bet.event_id == event_id)] *)
Definition select_bets (db : Database) (event_id : Z) : list Bet.t :=
  List.filter (fun b => Z.eqb (Bet.event_id b) event_id) (bets db).

(** ** What SQLite takes and gives back

    The tables are in an SQLite file ([src/models/database.py]), reached
    through Python's [sqlite3] driver. *)

Module Sqlite.

(** An integer bound to a statement must fit SQLite's INTEGER, 64 bits
    with sign; the driver raises [OverflowError] for any other. *)
Definition in_int64 (n : Z) : bool :=
  (- 2 ^ 63 <=? n) && (n <? 2 ^ 63).

Definition overflow : Py.exn :=
  Py.OverflowError "Python int too large to convert to SQLite INTEGER".

(** What a query by primary key raises when it finds no row: the
    exception [e] of the caller for a key SQLite can hold, the driver's
    own for a key beyond 64 bits (no row has such a key, and the driver
    raises before the query runs). *)
Definition no_row (key : Z) (e : Py.exn) : Py.exn :=
  if in_int64 key then e else overflow.

(** A NaN is bound as NULL. *)
Definition is_null (x : float) : bool := PrimFloat.is_nan x.

(** A NULL for a column declared [nullable=False] fails the statement and
    with it the [commit], which writes nothing. *)
Definition not_null_failed (column : string) : Py.exn :=
  Py.IntegrityError
    (String.append "(sqlite3.IntegrityError) NOT NULL constraint failed: " column).

(** The float a REAL column gives back for the float stored: the same,
    but for the negative zero, which is kept as the integer 0 and read as
    0.0. *)
Definition real (x : float) : float :=
  if PrimFloat.eqb x 0%float then 0%float else x.

End Sqlite.

(** ** The betting engine ([src/services/betting_service.py]) *)

Record BettingService : Type := mkBettingService {
  locked_users : gmap Z time;
  total_service_deposit : float;
  bookie_margin : float
}.

(** [BettingService.__init__] *)
Definition init_service : BettingService :=
  mkBettingService ∅ 0%float 0.05%float.

Definition set_locked_users (svc : BettingService) (l : gmap Z time)
  : BettingService :=
  mkBettingService l (total_service_deposit svc) (bookie_margin svc).
Definition set_total_service_deposit (svc : BettingService) (x : float)
  : BettingService :=
  mkBettingService (locked_users svc) x (bookie_margin svc).

(** *** Dynamic odds *)

Record Stat : Type := mkStat { count : Z; stat_amount : float }.

(** One turn of the loop of lines 64-69. *)
Definition add_bet_stat (outcome_stats : Py.dict Stat) (bet : Bet.t)
  : Py.dict Stat :=
  let outcome := Bet.predicted_outcome bet in
  let outcome_stats :=
    if negb (Py.mem outcome outcome_stats)
    then Py.set outcome (mkStat 0 0%float) outcome_stats
    else outcome_stats in
  match Py.get outcome outcome_stats with
  | Some s =>
      Py.set outcome
        (mkStat (count s + 1) (PrimFloat.add (stat_amount s) (Bet.amount bet)))
        outcome_stats
  | None => outcome_stats
  end.

Definition collect_stats (bets : list Bet.t) : Py.dict Stat :=
  fold_left add_bet_stat bets [].

(** The odds of one outcome, lines 76-86. *)
Definition outcome_odd (margin total_amount bet_amount : float) : float :=
  if Py.lt 0%float bet_amount then
    let base_odd := PrimFloat.div total_amount bet_amount in
    let adjusted_odd := PrimFloat.mul base_odd (PrimFloat.sub 1%float margin) in
    Py.max adjusted_odd 1.1%float
  else 2.0%float.

(** Lines 89-94. *)
Definition backfill (odds : Py.dict float) : Py.dict float :=
  let odds := if negb (Py.mem "team_a_won" odds)
              then Py.set "team_a_won" 2.0%float odds else odds in
  let odds := if negb (Py.mem "team_b_won" odds)
              then Py.set "team_b_won" 2.0%float odds else odds in
  let odds := if negb (Py.mem "draw" odds)
              then Py.set "draw" 3.0%float odds else odds in
  odds.

Definition odds_of_bets (margin : float) (bets : list Bet.t) : Py.dict float :=
  match bets with
  | [] => [("team_a_won", 2.0%float); ("team_b_won", 2.0%float);
           ("draw", 3.0%float)]
  | _ =>
      let outcome_stats := collect_stats bets in
      let total_amount := Py.sum (map (fun kv => stat_amount (snd kv)) outcome_stats) in
      let odds :=
        fold_left
          (fun odds outcome =>
             match Py.get outcome outcome_stats with
             | Some s =>
                 Py.set outcome (outcome_odd margin total_amount (stat_amount s)) odds
             | None => odds
             end)
          (Py.keys outcome_stats) [] in
      backfill odds
  end.

Definition calculate_odds_based_on_bets
    (svc : BettingService) (db : Database) (event_id : Z) : Py.dict float :=
  odds_of_bets (bookie_margin svc) (select_bets db event_id).

(** *** The withdrawal lock *)

Definition locked_msg : string :=
  "User is temporarily locked due to withdrawal action".

(** Lines 101-107 of [place_bet], and again 193-199 of [withdraw_money]:
    [now] is what [datetime.utcnow()] returns there.  An unexpired lock
    raises; an expired one is deleted from the map. *)
Definition check_lock (svc : BettingService) (now : time) (user_id : Z)
  : Py.result BettingService :=
  match locked_users svc !! user_id with
  | Some unlock_time =>
      if now <? unlock_time then Py.Raise (Py.Exception locked_msg)
      else Py.Return (set_locked_users svc (delete user_id (locked_users svc)))
  | None => Py.Return svc
  end.

(** *** Placing a bet *)

(** The row the session inserts at [commit], as [refresh] reads it back:
    the next primary key, the amount as the table keeps it, and the column
    defaults ([is_won] NULL, [payout] 0.0, [resolved_at] NULL).  The odds
    are 2.0, 3.0 or a [max(_, 1.1)], never a zero. *)
Definition new_bet (db : Database) (user_id event_id : Z) (amount odds : float)
    (predicted_outcome : string) : Bet.t :=
  Bet.mk (Z.of_nat (length (bets db)) + 1) user_id event_id (Sqlite.real amount)
         odds predicted_outcome None 0%float None.

(** [place_bet]: the value returned or the exception raised, the tables
    after the call and the engine after the call.  Nothing is written to
    the tables before the single [commit] at the end; the lock map and the
    deposit total are process memory: the deletion of an expired lock is
    kept whatever happens afterwards, and so is the addition to the
    deposit total when the [commit] fails.  The [commit] fails on a NaN
    for [bets.amount] or [bets.odds], which are declared
    [nullable=False], and then writes nothing.  The two floats written to
    the user's row are zeros of negative sign only when the row held one
    before, which no row read from a table does; what a NaN does there is
    decided by [src/models/user.py], which is not among the sources: the
    row keeps the float. *)
Definition place_bet (svc : BettingService) (db : Database) (now : time)
    (user_id event_id : Z) (amount : float) (predicted_outcome : string)
  : Py.result Bet.t * Database * BettingService :=
  match check_lock svc now user_id with
  | Py.Raise e => (Py.Raise e, db, svc)
  | Py.Return svc =>
    match users db !! user_id with
    | None =>
        (Py.Raise (Sqlite.no_row user_id (Py.Exception "User not found")), db, svc)
    | Some user =>
      if Py.lt (User.balance user) amount
      then (Py.Raise (Py.Exception "Insufficient balance"), db, svc)
      else
        match events db !! event_id with
        | None =>
            (Py.Raise (Sqlite.no_row event_id
                         (Py.Exception "Event is not active for betting")),
             db, svc)
        | Some event =>
          if negb (Event.is_active event) || Event.is_finished event
          then (Py.Raise (Py.Exception "Event is not active for betting"), db, svc)
          else
            let current_odds := calculate_odds_based_on_bets svc db event_id in
            match Py.get predicted_outcome current_odds with
            | None =>
                (Py.Raise (Py.Exception (String.append "Invalid outcome: " predicted_outcome)),
                 db, svc)
            | Some odd =>
                let bet := new_bet db user_id event_id amount odd predicted_outcome in
                let user := User.set_balance user
                              (PrimFloat.sub (User.balance user) amount) in
                let user := User.set_total_deposited user
                              (PrimFloat.add (User.total_deposited user) amount) in
                let svc := set_total_service_deposit svc
                             (PrimFloat.add (total_service_deposit svc) amount) in
                if Sqlite.is_null amount
                then (Py.Raise (Sqlite.not_null_failed "bets.amount"), db, svc)
                else if Sqlite.is_null odd
                then (Py.Raise (Sqlite.not_null_failed "bets.odds"), db, svc)
                else
                  (Py.Return bet,
                   mkDatabase (<[user_id := user]> (users db)) (events db)
                              (bets db ++ [bet])%list,
                   svc)
            end
        end
    end
  end.

(** *** Resolving an event *)

Definition no_user_msg : string :=
  "'NoneType' object has no attribute 'balance'".

(** The loop of lines 172-186 over the bets of the event, run on the
    session's copies of the rows: [bs] is the bets table from the current
    row on (rows of other events are not selected and stay as they are),
    [i] counts the bets processed so far and [clock i] is what
    [datetime.utcnow()] returns for the next one.  A winning bet whose
    [user] relationship is empty makes [bet.user.balance] raise; the
    in-memory deposit total keeps what the earlier turns subtracted. *)
Fixpoint resolve_bets (clock : nat -> time) (event_id : Z) (actual_result : string)
    (i : nat) (bs : list Bet.t) (us : gmap Z User.t) (deposit : float)
  : Py.result (list Bet.t * gmap Z User.t) * float :=
  match bs with
  | [] => (Py.Return ([], us), deposit)
  | bet :: rest =>
    if negb (Bet.event_id bet =? event_id)%Z then
      match resolve_bets clock event_id actual_result i rest us deposit with
      | (Py.Return (rest', us'), deposit') =>
          (Py.Return (bet :: rest', us'), deposit')
      | (Py.Raise e, deposit') => (Py.Raise e, deposit')
      end
    else if String.eqb (Bet.predicted_outcome bet) actual_result then
      let payout := PrimFloat.mul (Bet.amount bet) (Bet.odds bet) in
      match us !! Bet.user_id bet with
      | None => (Py.Raise (Py.AttributeError no_user_msg), deposit)
      | Some user =>
        let user := User.set_balance user (PrimFloat.add (User.balance user) payout) in
        let bet' := Bet.mk (Bet.id bet) (Bet.user_id bet) (Bet.event_id bet)
                      (Bet.amount bet) (Bet.odds bet) (Bet.predicted_outcome bet)
                      (Some true) payout (Some (clock i)) in
        match resolve_bets clock event_id actual_result (S i) rest
                (<[Bet.user_id bet := user]> us) (PrimFloat.sub deposit payout) with
        | (Py.Return (rest', us'), deposit') =>
            (Py.Return (bet' :: rest', us'), deposit')
        | (Py.Raise e, deposit') => (Py.Raise e, deposit')
        end
      end
    else
      let bet' := Bet.mk (Bet.id bet) (Bet.user_id bet) (Bet.event_id bet)
                    (Bet.amount bet) (Bet.odds bet) (Bet.predicted_outcome bet)
                    (Some false) 0%float (Some (clock i)) in
      match resolve_bets clock event_id actual_result (S i) rest us deposit with
      | (Py.Return (rest', us'), deposit') =>
          (Py.Return (bet' :: rest', us'), deposit')
      | (Py.Raise e, deposit') => (Py.Raise e, deposit')
      end
  end.

(** [resolve_event]: the tables change only at the final [commit]; an
    exception before it leaves them as they were. *)
Definition resolve_event (svc : BettingService) (db : Database)
    (clock : nat -> time) (event_id : Z) (actual_result : string)
  : Py.result unit * Database * BettingService :=
  match events db !! event_id with
  | None =>
      (Py.Raise (Sqlite.no_row event_id (Py.Exception "Event not found")), db, svc)
  | Some event =>
    let event := Event.mk (Event.name event) (Event.sport_type event)
                   (Event.description event) (Event.start_time event)
                   false true (Some actual_result) in
    match resolve_bets clock event_id actual_result 0 (bets db) (users db)
            (total_service_deposit svc) with
    | (Py.Return (bets', users'), deposit') =>
        (Py.Return tt,
         mkDatabase users' (<[event_id := event]> (events db)) bets',
         set_total_service_deposit svc deposit')
    | (Py.Raise e, deposit') =>
        (Py.Raise e, db, set_total_service_deposit svc deposit')
    end
  end.

(** *** Withdrawal, lock status, analytics *)

(** The dictionary [withdraw_money] returns. *)
Record Withdrawal : Type := mkWithdrawal { status : string; lock_duration : Z }.

(** [withdraw_money]: [t_check] is the clock reading of the lock check (line
    195, read only when the user has an entry), [t_lock] the reading the
    new lock is computed from (line 203).  No session is passed in: the
    method cannot reach the tables. *)
Definition withdraw_money (svc : BettingService) (t_check t_lock : time)
    (user_id : Z) (amount : float) : Py.result Withdrawal * BettingService :=
  match check_lock svc t_check user_id with
  | Py.Raise e => (Py.Raise e, svc)
  | Py.Return svc =>
      (Py.Return (mkWithdrawal "withdrawal_initiated" 30),
       set_locked_users svc
         (<[user_id := t_lock + timedelta_seconds 30]> (locked_users svc)))
  end.

Definition get_user_lock_status (svc : BettingService) (now : time) (user_id : Z)
  : bool * BettingService :=
  match locked_users svc !! user_id with
  | Some unlock_time =>
      if unlock_time <=? now
      then (false, set_locked_users svc (delete user_id (locked_users svc)))
      else (true, svc)
  | None => (false, svc)
  end.

Record Analytics : Type := mkAnalytics {
  a_bookie_margin : float;
  a_total_service_deposit : float;
  locked_users_count : Z;
  active_events_count : Z;
  total_bets_placed : Z;
  total_payouts : Z
}.

Definition get_admin_analytics (svc : BettingService) : Analytics :=
  mkAnalytics (bookie_margin svc) (total_service_deposit svc)
              (Z.of_nat (size (locked_users svc))) 0 0 0.

(** ** Deposits ([src/user/profile.py]) *)

(** Reading an attribute of a row after the [commit] of its session: the
    session factory of [src/models/database.py] leaves [expire_on_commit]
    at its default, so the row is expired and the attribute has to be
    loaded again, which an [AsyncSession] cannot do outside an awaited
    call. *)
Definition expired_attribute : Py.exn :=
  Py.MissingGreenlet
    (String.append "greenlet_spawn has not been called; can't call await_only() "
                   "here. Was IO attempted in an unexpected place?").

(** [deposit_funds]: the new balance, or the exception raised, and the
    table after the call.  The credit is committed; the [user.balance] of
    the [return] statement is then read off the expired row and raises. *)
Definition deposit_funds (db : Database) (user_id : Z) (amount : float)
  : Py.result float * Database :=
  if PrimFloat.leb amount 0%float
  then (Py.Raise (Py.HTTPException 400 "Amount must be positive" []), db)
  else
    match users db !! user_id with
    | None =>
        (Py.Raise (Sqlite.no_row user_id
                     (Py.HTTPException 404 "User not found" [])), db)
    | Some user =>
        let user := User.set_balance user
                      (PrimFloat.add (User.balance user) amount) in
        let user := User.set_total_deposited user
                      (PrimFloat.add (User.total_deposited user) amount) in
        (Py.Raise expired_attribute,
         mkDatabase (<[user_id := user]> (users db)) (events db) (bets db))
    end.

(** ** The process: the tables and the one engine instance *)

Record World : Type := mkWorld { db : Database; service : BettingService }.

(** The calls that write to the tables or to the engine, with the clock
    readings each of them makes. *)
Inductive call : Type :=
| PlaceBet (now : time) (user_id event_id : Z) (amount : float)
    (predicted_outcome : string)
| ResolveEvent (clock : nat -> time) (event_id : Z) (actual_result : string)
| WithdrawMoney (t_check t_lock : time) (user_id : Z) (amount : float)
| GetUserLockStatus (now : time) (user_id : Z)
| DepositFunds (user_id : Z) (amount : float).

(** The state a call leaves behind, whether it returned or raised. *)
Definition run (c : call) (w : World) : World :=
  match c with
  | PlaceBet now user_id event_id amount predicted_outcome =>
      let '(_, db', svc') :=
        place_bet (service w) (db w) now user_id event_id amount predicted_outcome in
      mkWorld db' svc'
  | ResolveEvent clock event_id actual_result =>
      let '(_, db', svc') :=
        resolve_event (service w) (db w) clock event_id actual_result in
      mkWorld db' svc'
  | WithdrawMoney t_check t_lock user_id amount =>
      mkWorld (db w) (snd (withdraw_money (service w) t_check t_lock user_id amount))
  | GetUserLockStatus now user_id =>
      mkWorld (db w) (snd (get_user_lock_status (service w) now user_id))
  | DepositFunds user_id amount =>
      mkWorld (snd (deposit_funds (db w) user_id amount)) (service w)
  end.

Definition run_all (cs : list call) (w : World) : World :=
  fold_left (fun w c => run c w) cs w.

(** ** The token check ([src/services/auth_service.py], [src/api/router.py]) *)

Definition SECRET_KEY : string := "your-secret-key-here-change-in-production".
Definition ALGORITHM : string := "HS256".

Section Auth.

(** [jose.jwt.decode] belongs to the python-jose package, not to the
    repository: it is a parameter here, with the clock it reads made
    explicit.  It returns the claims or raises. *)
Variable token : Type.
Variable jwt_decode :
  time -> token -> string -> list string -> Py.result (Py.dict Py.value).

(** [AuthService.get_current_user_role]: the role, or [None]; an exception
    that is not a [JWTError] is not caught. *)
Definition get_current_user_role (now : time) (tok : token) : Py.result Py.value :=
  match jwt_decode now tok SECRET_KEY [ALGORITHM] with
  | Py.Return payload =>
      let username := Py.get_or_none "sub" payload in
      let user_role := Py.get_or_none "role" payload in
      if Py.is_none username || Py.is_none user_role
      then Py.Return Py.VNone
      else Py.Return user_role
  | Py.Raise e => if Py.is_JWTError e then Py.Return Py.VNone else Py.Raise e
  end.

Definition unauthorized : Py.exn :=
  Py.HTTPException 401 "Could not validate credentials"
                   [("WWW-Authenticate", "Bearer")].

(** [get_current_user], from [credentials.credentials] on: the bearer
    scheme of the framework has already extracted the token when the body
    runs. *)
Definition get_current_user (now : time) (tok : token)
  : Py.result (Py.dict Py.value) :=
  match get_current_user_role now tok with
  | Py.Raise e => Py.Raise e
  | Py.Return user_role =>
      if Py.is_none user_role then Py.Raise unauthorized
      else Py.Return [("role", user_role)]
  end.

End Auth.

(** The dependency as a route gets it.  [security = HTTPBearer()] belongs
    to FastAPI: a parameter, called with the value of the request's
    [Authorization] header, if there is one; it returns the credentials or
    raises.  [Depends(security)] is resolved first, and the body of
    [get_current_user] runs only when it has returned. *)
Section Bearer.

Variable token : Type.
Variable security : option string -> Py.result token.
Variable jwt_decode :
  time -> token -> string -> list string -> Py.result (Py.dict Py.value).


End Bearer.

(** [int(v)] for a decoded claim [v]: the integer, a [ValueError] or a
    [TypeError]. *)
Inductive int_result : Type :=
| IntOk (n : Z)
| IntValueError
| IntTypeError.

(** [int(s)] for a string of ASCII characters: whitespace at both ends, a
    sign, decimal digits with single underscores between them; more than
    4300 digits are refused. *)
Module PyInt.

Definition is_space (c : Ascii.ascii) : bool :=
  let n := Ascii.nat_of_ascii c in
  Nat.eqb n 32 || (Nat.leb 9 n && Nat.leb n 13).

Definition digit (c : Ascii.ascii) : option Z :=
  let n := Ascii.nat_of_ascii c in
  if Nat.leb 48 n && Nat.leb n 57 then Some (Z.of_nat (n - 48)) else None.

Fixpoint lstrip (s : string) : string :=
  match s with
  | String c s' => if is_space c then lstrip s' else s
  | EmptyString => s
  end.

Fixpoint all_space (s : string) : bool :=
  match s with
  | String c s' => is_space c && all_space s'
  | EmptyString => true
  end.

(** The digits at the head of [s], an underscore only between two of
    them: their value after [acc], their number after [count], and what
    follows them. *)
Fixpoint scan (s : string) (acc : Z) (count : nat) : option (Z * nat * string) :=
  match s with
  | String c s' =>
      match digit c with
      | Some d => scan s' (10 * acc + d) (S count)
      | None =>
          if Nat.eqb (Ascii.nat_of_ascii c) 95
          then match s' with
               | String c' _ =>
                   match digit c' with
                   | Some _ => scan s' acc count
                   | None => None
                   end
               | EmptyString => None
               end
          else Some (acc, count, s)
      end
  | EmptyString => Some (acc, count, s)
  end.

Definition max_str_digits : nat := 4300.

Definition of_string (s : string) : option Z :=
  let s := lstrip s in
  let '(negative, s) :=
    match s with
    | String c s' =>
        if Nat.eqb (Ascii.nat_of_ascii c) 45 then (true, s')
        else if Nat.eqb (Ascii.nat_of_ascii c) 43 then (false, s')
        else (false, s)
    | EmptyString => (false, s)
    end in
  match s with
  | String c _ =>
      match digit c, scan s 0 0 with
      | Some _, Some (n, count, rest) =>
          if all_space rest && Nat.leb count max_str_digits
          then Some (if negative then - n else n)
          else None
      | _, _ => None
      end
  | EmptyString => None
  end.

End PyInt.

Definition py_int (v : Py.value) : int_result :=
  match v with
  | Py.VInt n => IntOk n
  | Py.VBool b => IntOk (if b then 1 else 0)
  | Py.VStr s =>
      match PyInt.of_string s with
      | Some n => IntOk n
      | None => IntValueError
      end
  | Py.VNone => IntTypeError
  end.

(** A reference model of what [jose.jwt.decode] does with an HS256 token,
    after the package's source: a token is either not a well-formed
    compact serialization, or a header algorithm, the key its signature was
    made with, and its claims.  The signature verifies when the keys agree;
    the registered claims are then validated in the package's order
    ([iat], [nbf], [exp], [aud], [sub], [jti], [at_hash]; no audience,
    issuer, subject or access token is passed by the caller), [nbf] and
    [exp] against the clock in whole seconds. *)
Inductive Jwt : Type :=
| Malformed (raw : string)
| Signed (alg : string) (signing_key : string) (claims : Py.dict Py.value).

(** [int(claims[name])] where the claim is present; only a [ValueError]
    is turned into a [JWTClaimsError]. *)
Definition int_claim (name msg : string) (claims : Py.dict Py.value)
  : Py.result (option Z) :=
  match Py.get name claims with
  | None => Py.Return None
  | Some v =>
      match py_int v with
      | IntOk n => Py.Return (Some n)
      | IntValueError => Py.Raise (Py.JWTClaimsError msg)
      | IntTypeError =>
          Py.Raise (Py.TypeError
                      (String.append "int() argument must be a string, a bytes-like "
                                     "object or a real number, not 'NoneType'"))
      end
  end.

(** A claim that has to be a string where it is present. *)
Definition str_claim (name msg : string) (claims : Py.dict Py.value)
  : Py.result unit :=
  match Py.get name claims with
  | None | Some (Py.VStr _) => Py.Return tt
  | Some _ => Py.Raise (Py.JWTClaimsError msg)
  end.

Definition validate_claims (now : time) (claims : Py.dict Py.value)
  : Py.result unit :=
  match int_claim "iat" "Issued At claim (iat) must be an integer." claims with
  | Py.Raise e => Py.Raise e
  | Py.Return _ =>
  match int_claim "nbf" "Not Before claim (nbf) must be an integer." claims with
  | Py.Raise e => Py.Raise e
  | Py.Return nbf =>
  if match nbf with Some nbf => now / 1000000 <? nbf | None => false end
  then Py.Raise (Py.JWTClaimsError "The token is not yet valid (nbf)")
  else
  match int_claim "exp" "Expiration Time claim (exp) must be an integer." claims with
  | Py.Raise e => Py.Raise e
  | Py.Return exp =>
  if match exp with Some exp => exp <? now / 1000000 | None => false end
  then Py.Raise (Py.ExpiredSignatureError "Signature has expired.")
  else
  match Py.get "aud" claims with
  | Some (Py.VStr _) => Py.Raise (Py.JWTClaimsError "Invalid audience")
  | Some _ => Py.Raise (Py.JWTClaimsError "Invalid claim format in token")
  | None =>
  match str_claim "sub" "Subject must be a string." claims with
  | Py.Raise e => Py.Raise e
  | Py.Return _ =>
  match str_claim "jti" "JWT ID must be a string." claims with
  | Py.Raise e => Py.Raise e
  | Py.Return _ =>
  match Py.get "at_hash" claims with
  | Some _ =>
      Py.Raise (Py.JWTClaimsError
                  "No access_token provided to compare against at_hash claim.")
  | None => Py.Return tt
  end end end end end end end.

Definition jose_decode (now : time) (tok : Jwt) (key : string)
    (algorithms : list string) : Py.result (Py.dict Py.value) :=
  match tok with
  | Malformed _ => Py.Raise (Py.JWTError "Not enough segments")
  | Signed alg signing_key claims =>
      if negb (existsb (String.eqb alg) algorithms)
      then Py.Raise (Py.JWTError "The specified alg value is not allowed")
      else if negb (String.eqb signing_key key)
      then Py.Raise (Py.JWTError "Signature verification failed.")
      else
        match validate_claims now claims with
        | Py.Raise e => Py.Raise e
        | Py.Return _ => Py.Return claims
        end
  end.

(** ** The admin dashboard ([src/admin/dashboard.py]) *)

(** The names the module binds: its imports ([from sqlalchemy import
    select, func] binds [select] and [func], not [sqlalchemy]), [router] and
    its functions. *)
Definition dashboard_globals : list string :=
  ["APIRouter"; "Depends"; "Dict"; "List"; "AsyncSession"; "select"; "func";
   "selectinload"; "joinedload"; "datetime"; "timedelta"; "AsyncSessionLocal";
   "User"; "Event"; "Bet"; "betting_service"; "router"; "get_db";
   "get_admin_dashboard"; "get_all_users"; "get_all_events"; "get_all_bets";
   "get_detailed_analytics"].

(** Looking a global name up; none of the names used is a builtin. *)
Definition load_global (globals : list string) (name : string) : Py.result unit :=
  if existsb (String.eqb name) globals then Py.Return tt
  else Py.Raise (Py.NameError
                   (String.append "name '" (String.append name "' is not defined"))).

(** The rows of a table in the order of their primary keys, the order in
    which SQLite walks the table. *)
Fixpoint insert_row {A : Type} (row : Z * A) (rows : list (Z * A))
  : list (Z * A) :=
  match rows with
  | [] => [row]
  | r :: rows' =>
      if fst row <=? fst r then row :: rows else r :: insert_row row rows'
  end.

Definition rows_in_order {A : Type} (m : gmap Z A) : list (Z * A) :=
  fold_right insert_row [] (map_to_list m).

(** [func.sum(column)] over the column in row order: NULL on an empty
    table, else the floats added up one after the other (recent releases
    of SQLite compensate the rounding of the additions, which can change
    the last bits). *)
Definition sql_sum (xs : list float) : option float :=
  match xs with
  | [] => None
  | _ => Some (fold_left PrimFloat.add xs 0%float)
  end.

Record BasicStats : Type := mkBasicStats {
  total_users : Z; total_events : Z; total_bets : Z
}.
Record FinancialStats : Type := mkFinancialStats {
  total_user_balances : float; total_deposited_by_users : float
}.
Record Dashboard : Type := mkDashboard {
  basic_stats : BasicStats;
  financial_stats : FinancialStats;
  service_analytics : Analytics
}.

(** What the body of [get_admin_dashboard] computes once its queries can be
    built. *)
Definition dashboard_summary (db : Database) (svc : BettingService) : Dashboard :=
  let user_rows := map snd (rows_in_order (users db)) in
  mkDashboard
    (mkBasicStats (Z.of_nat (size (users db))) (Z.of_nat (size (events db)))
                  (Z.of_nat (length (bets db))))
    (mkFinancialStats
       (Py.or_zero (sql_sum (map User.balance user_rows)))
       (Py.or_zero (sql_sum (map User.total_deposited user_rows))))
    (get_admin_analytics svc).

(** [get_admin_dashboard] in a module namespace [globals]: the first
    statement evaluates [sqlalchemy.select(...)], which starts by looking
    the name [sqlalchemy] up. *)
Definition get_admin_dashboard_in (globals : list string)
    (db : Database) (svc : BettingService) : Py.result Dashboard :=
  match load_global globals "sqlalchemy" with
  | Py.Raise e => Py.Raise e
  | Py.Return _ => Py.Return (dashboard_summary db svc)
  end.

Definition get_admin_dashboard (db : Database) (svc : BettingService)
  : Py.result Dashboard :=
  get_admin_dashboard_in dashboard_globals db svc.

(** ** The profile endpoints ([src/user/profile.py]) *)

Module Profile.

(** The dictionary [get_user_profile] returns ([created_at] left out with
    the column). *)
Record ProfileView : Type := mkProfileView {
  id : Z; username : string; email : string; role : string;
  balance : float; total_deposited : float; is_active : bool
}.

Definition not_found : Py.exn := Py.HTTPException 404 "User not found" [].

Definition get_user_profile (d : Database) (user_id : Z) : Py.result ProfileView :=
  match users d !! user_id with
  | None => Py.Raise (Sqlite.no_row user_id not_found)
  | Some user =>
      Py.Return (mkProfileView user_id (User.username user) (User.email user)
                   (User.role user) (User.balance user)
                   (User.total_deposited user) (User.is_active user))
  end.

(** One entry of [get_user_bets]: the bet without its [user_id]. *)
Record BetView : Type := mkBetView {
  bet_id : Z; event_id : Z; amount : float; odds : float;
  predicted_outcome : string; is_won : option bool; payout : float;
  resolved_at : option time
}.

Definition bet_view (b : Bet.t) : BetView :=
  mkBetView (Bet.id b) (Bet.event_id b) (Bet.amount b) (Bet.odds b)
            (Bet.predicted_outcome b) (Bet.is_won b) (Bet.payout b)
            (Bet.resolved_at b).

(** [get_user_bets]: no look at the users table. *)
Definition get_user_bets (d : Database) (user_id : Z) : list BetView :=
  map bet_view (List.filter (fun b => Z.eqb (Bet.user_id b) user_id) (bets d)).

(** [get_user_balance]: the [balance] column of the row, [None] without
    a row. *)
Definition get_user_balance (d : Database) (user_id : Z) : Py.result float :=
  match option_map User.balance (users d !! user_id) with
  | None => Py.Raise (Sqlite.no_row user_id not_found)
  | Some balance => Py.Return balance
  end.

(** [withdraw_funds]: [t_status] is the clock reading of
    [get_user_lock_status], [t_check] and [t_lock] those of
    [withdraw_money].  An exception of [withdraw_money] is not caught. *)
Definition withdraw_funds (svc : BettingService) (t_status t_check t_lock : time)
    (user_id : Z) (amount : float) : Py.result Withdrawal * BettingService :=
  if PrimFloat.leb amount 0%float
  then (Py.Raise (Py.HTTPException 400 "Amount must be positive" []), svc)
  else
    let (is_locked, svc) := get_user_lock_status svc t_status user_id in
    if is_locked
    then (Py.Raise (Py.HTTPException 423
                      "Account temporarily locked due to recent withdrawal" []),
          svc)
    else withdraw_money svc t_check t_lock user_id amount.

End Profile.

(** ** The routes of the public API ([src/api/router.py]) *)

Module Router.

(** [str(e)] for the exceptions the engine raises: the message. *)
Definition str (e : Py.exn) : string :=
  match e with
  | Py.Exception m | Py.AttributeError m | Py.NameError m
  | Py.TypeError m | Py.OverflowError m
  | Py.JWTError m | Py.ExpiredSignatureError m | Py.JWTClaimsError m
  | Py.IntegrityError m | Py.MissingGreenlet m => m
  | Py.HTTPException _ detail _ => detail
  end.

(** [current_user["role"] in allowed]; [get_current_user] always returns
    a dictionary with the key [role]. *)
Definition role_in (allowed : list string) (current_user : Py.dict Py.value) : bool :=
  match Py.get_or_none "role" current_user with
  | Py.VStr r => existsb (String.eqb r) allowed
  | _ => false
  end.

Definition not_authorized : Py.exn := Py.HTTPException 403 "Not authorized" [].
Definition admin_required : Py.exn :=
  Py.HTTPException 403 "Admin access required" [].

(** The response of the bet route. *)
Record BetPlaced : Type := mkBetPlaced { message : string; bet_id : Z; odds : float }.

Section Routes.

Variable token : Type.
Variable jwt_decode :
  time -> token -> string -> list string -> Py.result (Py.dict Py.value).

(** Each route runs its dependency [get_current_user] on the bearer token
    first ([now] is the clock of the decoding). *)

Definition get_user_profile (now : time) (tok : token)
  : Py.result (string * Py.dict Py.value) :=
  match get_current_user token jwt_decode now tok with
  | Py.Raise e => Py.Raise e
  | Py.Return current_user =>
      if negb (role_in ["user"; "admin"] current_user)
      then Py.Raise not_authorized
      else Py.Return ("User profile retrieved", current_user)
  end.

Definition get_user_balance (now : time) (tok : token) : Py.result float :=
  match get_current_user token jwt_decode now tok with
  | Py.Raise e => Py.Raise e
  | Py.Return current_user =>
      if negb (role_in ["user"; "admin"] current_user)
      then Py.Raise not_authorized
      else Py.Return 100.0%float
  end.

(** [withdraw_money]: the engine is called for [user_id = 1]. *)
Definition withdraw_money (svc : BettingService) (now : time) (tok : token)
    (t_check t_lock : time) (amount : float)
  : Py.result Withdrawal * BettingService :=
  match get_current_user token jwt_decode now tok with
  | Py.Raise e => (Py.Raise e, svc)
  | Py.Return current_user =>
      if negb (role_in ["user"; "admin"] current_user)
      then (Py.Raise not_authorized, svc)
      else
        let user_id := 1 in
        match withdraw_money svc t_check t_lock user_id amount with
        | (Py.Return result, svc) => (Py.Return result, svc)
        | (Py.Raise e, svc) => (Py.Raise (Py.HTTPException 400 (str e) []), svc)
        end
  end.

(** [place_bet]: the engine is called for [user_id = 1]. *)
Definition place_bet (svc : BettingService) (d : Database) (now : time)
    (tok : token) (t_engine : time) (event_id : Z) (amount : float)
    (outcome : string) : Py.result BetPlaced * Database * BettingService :=
  match get_current_user token jwt_decode now tok with
  | Py.Raise e => (Py.Raise e, d, svc)
  | Py.Return current_user =>
      if negb (role_in ["user"; "admin"] current_user)
      then (Py.Raise not_authorized, d, svc)
      else
        let user_id := 1 in
        match place_bet svc d t_engine user_id event_id amount outcome with
        | (Py.Return bet, d, svc) =>
            (Py.Return (mkBetPlaced "Bet placed successfully" (Bet.id bet)
                          (Bet.odds bet)), d, svc)
        | (Py.Raise e, d, svc) =>
            (Py.Raise (Py.HTTPException 400 (str e) []), d, svc)
        end
  end.

Definition get_admin_analytics (svc : BettingService) (now : time) (tok : token)
  : Py.result Analytics :=
  match get_current_user token jwt_decode now tok with
  | Py.Raise e => Py.Raise e
  | Py.Return current_user =>
      if negb (role_in ["admin"] current_user)
      then Py.Raise admin_required
      else Py.Return (get_admin_analytics svc)
  end.

End Routes.

End Router.

(** ** Issuing tokens and logging in ([src/services/auth_service.py],
       [src/api/router.py]) *)

(** A claim handed to [jwt.encode]: a JSON value or a [datetime]. *)
Inductive claim_value : Type :=
| Plain (v : Py.value)
| Datetime (t : time).

Definition timedelta_minutes (n : Z) : Z := n * 60 * 1000000.

(** [result.scalar_one_or_none()]; with several rows SQLAlchemy raises its
    [MultipleResultsFound]. *)
Definition scalar_one_or_none {A : Type} (rows : list A) : Py.result (option A) :=
  match rows with
  | [] => Py.Return None
  | [row] => Py.Return (Some row)
  | _ => Py.Raise (Py.Exception
                     "Multiple rows were found when one or none was required")
  end.

(** [select(User).filter(User.username == username)], with the keys. *)
Definition select_by_username (d : Database) (username : string)
  : list (Z * User.t) :=
  List.filter (fun row => String.eqb (User.username (snd row)) username)
              (map_to_list (users d)).

(** The dictionary [login] returns. *)
Record LoginResponse (token : Type) : Type := mkLoginResponse {
  access_token : token;
  token_type : string;
  login_user_id : Z;
  login_username : string;
  login_role : string
}.
Arguments mkLoginResponse {token}.
Arguments access_token {token}.
Arguments token_type {token}.
Arguments login_user_id {token}.
Arguments login_username {token}.
Arguments login_role {token}.

Section Issue.

(** [jose.jwt.encode] and passlib's [pwd_context.verify] are third-party
    code: parameters. *)
Variable token : Type.
Variable jwt_encode : Py.dict claim_value -> string -> string -> token.
Variable pwd_verify : string -> string -> bool.

Definition verify_password (plain_password hashed_password : string) : bool :=
  pwd_verify plain_password hashed_password.

(** [create_access_token]: [expires_delta] is a [timedelta] in
    microseconds or [None]; a zero [timedelta] is falsy. *)
Definition create_access_token (now : time) (data : Py.dict Py.value)
    (expires_delta : option Z) : token :=
  let to_encode := map (fun kv => (fst kv, Plain (snd kv))) data in
  let expire :=
    match expires_delta with
    | Some delta =>
        if negb (delta =? 0) then now + delta else now + timedelta_minutes 15
    | None => now + timedelta_minutes 15
    end in
  let to_encode := Py.set "exp" (Datetime expire) to_encode in
  jwt_encode to_encode SECRET_KEY ALGORITHM.

Definition authenticate_user (d : Database) (username password : string)
  : Py.result (option (Z * User.t)) :=
  match scalar_one_or_none (select_by_username d username) with
  | Py.Raise e => Py.Raise e
  | Py.Return None => Py.Return None
  | Py.Return (Some (id, user)) =>
      if negb (verify_password password (User.hashed_password user))
      then Py.Return None
      else Py.Return (Some (id, user))
  end.

(** The route [login]; [now] is the clock [create_access_token] reads. *)
Definition login (d : Database) (now : time) (username password : string)
  : Py.result (LoginResponse token) :=
  match authenticate_user d username password with
  | Py.Raise e => Py.Raise e
  | Py.Return None =>
      Py.Raise (Py.HTTPException 401 "Incorrect username or password" [])
  | Py.Return (Some (id, user)) =>
      if negb (User.is_active user)
      then Py.Raise (Py.HTTPException 400 "Inactive user" [])
      else
        let access_token :=
          create_access_token now
            [("sub", Py.VStr (User.username user));
             ("role", Py.VStr (User.role user))] None in
        Py.Return (mkLoginResponse access_token "bearer" id
                     (User.username user) (User.role user))
  end.

End Issue.

(** The reference model of [jose.jwt.encode], the counterpart of
    [jose_decode]: the token carries the algorithm, the key and the claims,
    a [datetime] claim as its whole seconds. *)
Definition jose_encode (claims : Py.dict claim_value) (key algorithm : string) : Jwt :=
  Signed algorithm key
    (map (fun kv =>
            (fst kv,
             match snd kv with
             | Plain v => v
             | Datetime t => Py.VInt (t / 1000000)
             end)) claims).

(** ** Random events ([create_random_events] of the engine,
       [generate_random_event] of [src/utils/helpers.py]) *)

(** [str.title()] on ASCII text: the first letter of every run of letters
    in upper case, the other letters in lower case. *)
Module PyStr.

Definition is_upper (c : Ascii.ascii) : bool :=
  Nat.leb 65 (Ascii.nat_of_ascii c) && Nat.leb (Ascii.nat_of_ascii c) 90.
Definition is_lower (c : Ascii.ascii) : bool :=
  Nat.leb 97 (Ascii.nat_of_ascii c) && Nat.leb (Ascii.nat_of_ascii c) 122.
Definition to_upper (c : Ascii.ascii) : Ascii.ascii :=
  if is_lower c then Ascii.ascii_of_nat (Ascii.nat_of_ascii c - 32) else c.
Definition to_lower (c : Ascii.ascii) : Ascii.ascii :=
  if is_upper c then Ascii.ascii_of_nat (Ascii.nat_of_ascii c + 32) else c.

Fixpoint title_from (in_word : bool) (s : string) : string :=
  match s with
  | EmptyString => EmptyString
  | String c s' =>
      if is_upper c || is_lower c
      then String (if in_word then to_lower c else to_upper c) (title_from true s')
      else String c (title_from false s')
  end.

Definition title (s : string) : string := title_from false s.

Fixpoint lower (s : string) : string :=
  match s with
  | EmptyString => EmptyString
  | String c s' => String (to_lower c) (lower s')
  end.

End PyStr.





(** [random.choice(xs)] when the generator draws [r]: any element of a
    non-empty list can come out. *)
Definition choice {A : Type} (r : nat) (xs : list A) (default : A) : A :=
  nth (r mod length xs) xs default.

(** [random.randint(a, a + n - 1)] when the generator draws [r]. *)
Definition randint_from (a : Z) (n : nat) (r : nat) : Z := a + Z.of_nat (r mod n).

Definition timedelta_hours (n : Z) : Z := n * 3600 * 1000000.

(** The four draws of one event. *)
Record Draws : Type := mkDraws {
  sport_draw : nat; team1_draw : nat; team2_draw : nat; hours_draw : nat
}.

Definition sports_types : list string :=
  ["football"; "basketball"; "tennis"; "hockey"; "volleyball"].

Definition teams : list string :=
  ["Team A"; "Team B"; "Team C"; "Team D"; "Team E"; "Team F";
   "Lions"; "Tigers"; "Bears"; "Eagles"; "Wolves"; "Sharks";
   "Dragons"; "Phoenix"; "Hawks"; "Falcons"; "Ravens"; "Owls"].

(** The body of the loop of [create_random_events]: the row built from the
    draws [r] when the clock reads [now]. *)
Definition random_event (now : time) (r : Draws) : Event.t :=
  let sport := choice (sport_draw r) sports_types "" in
  let team1 := choice (team1_draw r) teams "" in
  let team2 :=
    choice (team2_draw r)
           (List.filter (fun t => negb (String.eqb t team1)) teams) "" in
  Event.mk
    (String.append (PyStr.title sport)
       (String.append " Match: " (String.append team1 (String.append " vs " team2))))
    sport
    (String.append "Upcoming "
       (String.append sport
          (String.append " match between "
             (String.append team1 (String.append " and " team2)))))
    (now + timedelta_hours (randint_from 1 24 (hours_draw r)))
    true false None.

(** The key the database gives a new row: one more than the largest. *)
Definition next_id {A : Type} (m : gmap Z A) : Z :=
  1 + fold_right Z.max 0 (map fst (map_to_list m)).

Fixpoint add_events (clock : nat -> time) (draws : nat -> Draws)
    (n i : nat) (evs : gmap Z Event.t) : gmap Z Event.t :=
  match n with
  | O => evs
  | S n' =>
      add_events clock draws n' (S i)
        (<[next_id evs := random_event (clock i) (draws i)]> evs)
  end.

(** [create_random_events]: turn [i] of [range(count)] reads the clock as
    [clock i] and draws [draws i]; the rows are inserted at the commit. *)
Definition create_random_events (d : Database) (clock : nat -> time)
    (draws : nat -> Draws) (count : Z) : Database :=
  mkDatabase (users d) (add_events clock draws (Z.to_nat count) 0 (events d)) (bets d).

(** [helpers.generate_random_event]: its own roster of 24 teams, a start
    1 to 48 hours ahead, and the sport drawn only when none is given. *)
Definition helper_teams : list string :=
  ["Team A"; "Team B"; "Team C"; "Team D"; "Team E"; "Team F";
   "Lions"; "Tigers"; "Bears"; "Eagles"; "Wolves"; "Sharks";
   "Dragons"; "Phoenix"; "Hawks"; "Falcons"; "Ravens"; "Owls";
   "Giants"; "Warriors"; "Knights"; "Raiders"; "Pirates"; "Vikings"].

Inductive SportType : Type := FOOTBALL | BASKETBALL | TENNIS | HOCKEY | VOLLEYBALL.

Definition SportType_value (s : SportType) : string :=
  match s with
  | FOOTBALL => "football"
  | BASKETBALL => "basketball"
  | TENNIS => "tennis"
  | HOCKEY => "hockey"
  | VOLLEYBALL => "volleyball"
  end.

(** [list(SportType)]: the members in the order of their definition. *)
Definition SportType_members : list SportType :=
  [FOOTBALL; BASKETBALL; TENNIS; HOCKEY; VOLLEYBALL].

Record EventPayload : Type := mkEventPayload {
  ep_name : string; ep_sport_type : string; ep_description : string;
  ep_start_time : time; ep_is_active : bool; ep_is_finished : bool
}.

Definition generate_random_event (now : time) (r : Draws)
    (sport_type : option SportType) : EventPayload :=
  let sport_type :=
    match sport_type with
    | Some s => s
    | None => choice (sport_draw r) SportType_members FOOTBALL
    end in
  let sport := SportType_value sport_type in
  let team1 := choice (team1_draw r) helper_teams "" in
  let team2 :=
    choice (team2_draw r)
           (List.filter (fun t => negb (String.eqb t team1)) helper_teams) "" in
  mkEventPayload
    (String.append (PyStr.title sport)
       (String.append " Match: " (String.append team1 (String.append " vs " team2))))
    sport
    (String.append "Upcoming "
       (String.append sport
          (String.append " match between "
             (String.append team1 (String.append " and " team2)))))
    (now + timedelta_hours (randint_from 1 48 (hours_draw r)))
    true false.

(** ** Listing the bets ([get_all_bets] of [src/admin/dashboard.py]) *)

Module Dashboard.

Record BetRow : Type := mkBetRow {
  id : Z; user_id : Z; username : string; event_id : Z; event_name : string;
  amount : float; odds : float; predicted_outcome : string;
  is_won : option bool; payout : float; resolved_at : option time
}.

(** One entry: the bet joined with its user and its event, "Unknown"
    where the relationship is empty. *)
Definition bet_row (d : Database) (bet : Bet.t) : BetRow :=
  mkBetRow (Bet.id bet) (Bet.user_id bet)
    (match users d !! Bet.user_id bet with
     | Some user => User.username user
     | None => "Unknown"
     end)
    (Bet.event_id bet)
    (match events d !! Bet.event_id bet with
     | Some event => Event.name event
     | None => "Unknown"
     end)
    (Bet.amount bet) (Bet.odds bet) (Bet.predicted_outcome bet)
    (Bet.is_won bet) (Bet.payout bet) (Bet.resolved_at bet).

Definition get_all_bets (d : Database) : list BetRow := map (bet_row d) (bets d).

End Dashboard.

(** ** The outcomes of a sport ([src/utils/helpers.py]) *)

Section Outcomes.

(** [str.lower].  Python lowers the cased characters of all of Unicode;
    the two functions are modelled over the lowering, whatever it does
    outside ASCII, where it is [PyStr.lower]. *)
Variable lower : string -> string.

Definition outcomes_map : Py.dict (list string) :=
  [("football", ["team_a_won"; "team_b_won"; "draw"]);
   ("basketball", ["team_a_won"; "team_b_won"]);
   ("tennis", ["player1"; "player2"]);
   ("hockey", ["team_a_won"; "team_b_won"; "overtime"]);
   ("volleyball", ["team_a_won"; "team_b_won"])].

(** [outcomes_map.get(sport_type.lower(), [...])] *)
Definition get_sport_outcomes (sport_type : string) : list string :=
  match Py.get (lower sport_type) outcomes_map with
  | Some outcomes => outcomes
  | None => ["team_a_won"; "team_b_won"; "draw"]
  end.

(** [outcome.lower() in [o.lower() for o in valid_outcomes]] *)
Definition validate_outcome_prediction (outcome : string)
    (valid_outcomes : list string) : bool :=
  existsb (String.eqb (lower outcome)) (map lower valid_outcomes).

End Outcomes.

(** * Vocabulary of the properties *)

(** What is staked on outcome [k], as the engine adds it up: from [a0], the
    amounts of the bets on [k] in row order. *)
Definition staked_from (a0 : float) (bets : list Bet.t) (k : string) : float :=
  fold_left
    (fun a b => if String.eqb (Bet.predicted_outcome b) k
                then PrimFloat.add a (Bet.amount b) else a)
    bets a0.

Definition staked (bets : list Bet.t) (k : string) : float :=
  staked_from 0%float bets k.

Definition has_outcome (bets : list Bet.t) (k : string) : bool :=
  existsb (fun b => String.eqb (Bet.predicted_outcome b) k) bets.

(** The odds of the three standard outcomes when no bet names them. *)
Definition default_odd (k : string) : option float :=
  if String.eqb k "team_a_won" then Some 2.0%float
  else if String.eqb k "team_b_won" then Some 2.0%float
  else if String.eqb k "draw" then Some 3.0%float
  else None.

Definition amount_of (s : option Stat) : option float :=
  match s with Some s => Some (stat_amount s) | None => None end.

(** The total the engine divides by: the per-outcome amounts, summed in the
    order the outcomes first appear. *)
Definition total_staked (bets : list Bet.t) : float :=
  Py.sum (map (staked bets) (Py.keys (collect_stats bets))).

(** The floor: [max(adjusted_odd, 1.1)] is never less than 1.1, and neither
    are the constants 2.0 and 3.0. *)
Definition not_below_floor (v : float) : Prop := Py.lt v 1.1%float = false.

(** A bet on event [event_id] that names the actual result. *)
Definition wins (event_id : Z) (actual_result : string) (b : Bet.t) : bool :=
  (Bet.event_id b =? event_id)%Z
  && String.eqb (Bet.predicted_outcome b) actual_result.

Definition payout_of (b : Bet.t) : float := PrimFloat.mul (Bet.amount b) (Bet.odds b).

(** The balance [bal] of user [user_id] after the payouts of the user's
    winning bets were added to it one by one, in row order. *)
Definition credited (event_id : Z) (actual_result : string) (user_id : Z)
    (bets : list Bet.t) (bal : float) : float :=
  fold_left
    (fun x b => if wins event_id actual_result b && (Bet.user_id b =? user_id)%Z
                then PrimFloat.add x (payout_of b) else x)
    bets bal.

(** The deposit total [dep] after the payouts of all winning bets were
    subtracted from it. *)
Definition paid_out (event_id : Z) (actual_result : string)
    (bets : list Bet.t) (dep : float) : float :=
  fold_left
    (fun x b => if wins event_id actual_result b
                then PrimFloat.sub x (payout_of b) else x)
    bets dep.

(** A bet row before ([b]) and after ([b']) the resolution of event
    [event_id] with [actual_result]. *)
Definition settled (event_id : Z) (actual_result : string) (b b' : Bet.t) : Prop :=
  if (Bet.event_id b =? event_id)%Z then
    Bet.id b' = Bet.id b /\ Bet.user_id b' = Bet.user_id b
    /\ Bet.event_id b' = Bet.event_id b /\ Bet.amount b' = Bet.amount b
    /\ Bet.odds b' = Bet.odds b
    /\ Bet.predicted_outcome b' = Bet.predicted_outcome b
    /\ Bet.resolved_at b' <> None
    /\ if String.eqb (Bet.predicted_outcome b) actual_result
       then Bet.is_won b' = Some true /\ Bet.payout b' = payout_of b
       else Bet.is_won b' = Some false /\ Bet.payout b' = 0%float
  else b' = b.

(** Every winning bet of the event belongs to a stored user. *)
Definition winners_exist (event_id : Z) (actual_result : string)
    (bets : list Bet.t) (us : gmap Z User.t) : Prop :=
  forall b, In b bets -> wins event_id actual_result b = true ->
            exists u, us !! Bet.user_id b = Some u.

Definition credit_user (event_id : Z) (actual_result : string) (user_id : Z)
    (bets : list Bet.t) (u : option User.t) : option User.t :=
  match u with
  | Some u =>
      Some (User.set_balance u
              (credited event_id actual_result user_id bets (User.balance u)))
  | None => None
  end.

(** Readings of the clock, one second apart. *)
Definition sample_clock (i : nat) : time := 7200000000 + Z.of_nat i * 1000000.

(** The call is a [resolve_event] of event [event_id]. *)
Definition resolves (event_id : Z) (c : call) : bool :=
  match c with
  | ResolveEvent _ e _ => (e =? event_id)%Z
  | _ => false
  end.

(** The foreign key of [bets.user_id]: every stored bet belongs to a stored
    user. *)
Definition bets_have_users (d : Database) : Prop :=
  forall b, In b (bets d) -> exists u, users d !! Bet.user_id b = Some u.

(** * Vocabulary of the further properties *)

(** The foreign key of [bets.event_id]. *)
Definition bets_have_events (d : Database) : Prop :=
  forall b, In b (bets d) -> exists e, events d !! Bet.event_id b = Some e.

(** One of the three keys [calculate_odds_based_on_bets] always returns. *)
Definition standard_outcome (k : string) : bool :=
  String.eqb k "team_a_won" || String.eqb k "team_b_won" || String.eqb k "draw".

Definition bets_standard (d : Database) : Prop :=
  forall b, In b (bets d) -> standard_outcome (Bet.predicted_outcome b) = true.

Definition bets_floor (d : Database) : Prop :=
  forall b, In b (bets d) -> Py.lt (Bet.odds b) 1.1%float = false.

(** Two states of a bet row with the same placement: the fields
    [place_bet] fills in. *)
Definition placed_alike (b b' : Bet.t) : Prop :=
  Bet.id b' = Bet.id b /\ Bet.user_id b' = Bet.user_id b
  /\ Bet.event_id b' = Bet.event_id b /\ Bet.amount b' = Bet.amount b
  /\ Bet.odds b' = Bet.odds b
  /\ Bet.predicted_outcome b' = Bet.predicted_outcome b.

(** The primary keys of the bets count the rows from 1. *)
Definition ids_sequential (d : Database) : Prop :=
  forall (i : nat) b, bets d !! i = Some b -> Bet.id b = Z.of_nat i + 1.

(** The call is a [withdraw_money] of user [user_id]. *)
Definition withdraws (user_id : Z) (c : call) : bool :=
  match c with
  | WithdrawMoney _ _ u _ => (u =? user_id)%Z
  | _ => false
  end.




(** What a call can do to the tables: nothing, the commit of [place_bet],
    the commit of [resolve_event], or the commit of [deposit_funds]. *)
Inductive db_step (d : Database) : Database -> Prop :=
| step_none : db_step d d
| step_place (margin : float) (user_id event_id : Z) (amount : float)
    (outcome : string) (user : User.t) (event : Event.t) (odd : float) :
    users d !! user_id = Some user ->
    Py.lt (User.balance user) amount = false ->
    events d !! event_id = Some event ->
    Event.is_active event = true -> Event.is_finished event = false ->
    Py.get outcome (odds_of_bets margin (select_bets d event_id)) = Some odd ->
    db_step d
      (mkDatabase
         (<[user_id :=
              User.set_total_deposited
                (User.set_balance user (PrimFloat.sub (User.balance user) amount))
                (PrimFloat.add (User.total_deposited user) amount)]> (users d))
         (events d)
         (bets d ++ [new_bet d user_id event_id amount odd outcome])%list)
| step_resolve (event_id : Z) (actual_result : string) (event : Event.t)
    (bs' : list Bet.t) (us' : gmap Z User.t) :
    events d !! event_id = Some event ->
    Forall2 (settled event_id actual_result) (bets d) bs' ->
    (forall user_id,
        us' !! user_id
        = credit_user event_id actual_result user_id (bets d) (users d !! user_id)) ->
    db_step d
      (mkDatabase us'
         (<[event_id :=
              Event.mk (Event.name event) (Event.sport_type event)
                       (Event.description event) (Event.start_time event)
                       false true (Some actual_result)]> (events d))
         bs')
| step_deposit (user_id : Z) (amount : float) (user : User.t) :
    PrimFloat.leb amount 0%float = false ->
    users d !! user_id = Some user ->
    db_step d
      (mkDatabase
         (<[user_id :=
              User.set_total_deposited
                (User.set_balance user (PrimFloat.add (User.balance user) amount))
                (PrimFloat.add (User.total_deposited user) amount)]> (users d))
         (events d) (bets d)).

(** * Sample data *)

Definition sample_user (username : string) (balance total_deposited : float)
  : User.t :=
  User.mk username (String.append username "@example.com") "$2b$12$hash" "user"
          balance total_deposited true.

Definition sample_event : Event.t :=
  Event.mk "Football Match: Lions vs Tigers" "football"
           "Upcoming football match between Lions and Tigers" 3600000000
           true false None.

(** A pending bet, as [place_bet] stores it. *)
Definition pending_bet (id user_id event_id : Z) (amount odds : float)
    (predicted_outcome : string) : Bet.t :=
  Bet.mk id user_id event_id amount odds predicted_outcome None 0%float None.

(** Two users as [create_user] makes them and one open event. *)
Definition registered_db : Database :=
  mkDatabase
    {[ 1 := sample_user "ann" 100 0; 2 := sample_user "bob" 100 0 ]}
    {[ 1 := sample_event ]} [].

(** Event 1 with 100 staked on [team_a_won] and 300 on [team_b_won]: ann
    has bet her 100, bob has deposited 200 and bet 300. *)
Definition stakes_db : Database :=
  mkDatabase
    {[ 1 := sample_user "ann" 0 100; 2 := sample_user "bob" 0 500 ]}
    {[ 1 := sample_event ]}
    [ pending_bet 1 1 1 100 2.0 "team_a_won";
      pending_bet 2 2 1 300 2.0 "team_b_won" ].

(** User 1 with a balance of 100, the open event 1, no bet yet. *)
Definition fresh_db : Database :=
  mkDatabase {[ 1 := sample_user "ann" 100 0 ]} {[ 1 := sample_event ]} [].

(** [fresh_db] after a deposit of 1e20. *)
Definition large_db : Database :=
  mkDatabase {[ 1 := sample_user "ann" 1e20 1e20 ]} {[ 1 := sample_event ]} [].

(** [stakes_db] with the engine that took the two bets; the same after
    event 1 was resolved as [team_a_won]. *)
Definition stakes_world : World :=
  mkWorld stakes_db (mkBettingService ∅ 400 0.05).
Definition resolved_world : World :=
  run (ResolveEvent sample_clock 1 "team_a_won") stakes_world.
Definition resolved_event : Event.t :=
  Event.mk (Event.name sample_event) (Event.sport_type sample_event)
           (Event.description sample_event) (Event.start_time sample_event)
           false true (Some "team_a_won").

(** A token as [login] issues it for ann, expiring at second 1800; the same
    signed with another key. *)
Definition ann_claims : Py.dict Py.value :=
  [("sub", Py.VStr "ann"); ("role", Py.VStr "user"); ("exp", Py.VInt 1800)].
Definition ann_token : Jwt := Signed ALGORITHM SECRET_KEY ann_claims.

(** Tokens for bob and for an administrator, without expiry. *)
Definition bob_token : Jwt :=
  Signed ALGORITHM SECRET_KEY [("sub", Py.VStr "bob"); ("role", Py.VStr "user")].
Definition admin_token : Jwt :=
  Signed ALGORITHM SECRET_KEY [("sub", Py.VStr "root"); ("role", Py.VStr "admin")].

(** A stand-in for the password check: the sample users' password is
    [secret]. *)
Definition sample_verify (plain_password hashed_password : string) : bool :=
  String.eqb plain_password "secret" && String.eqb hashed_password "$2b$12$hash".

(** * Properties *)

(** ** The sample data are states of the program *)

Lemma stakes_world_reached :
  run_all [PlaceBet 0 1 1 100 "team_a_won"; DepositFunds 2 200;
           PlaceBet 1000000 2 1 300 "team_b_won"]
          (mkWorld registered_db init_service)
  = stakes_world.
Proof. reflexivity. Qed.

Lemma large_db_reached : snd (deposit_funds fresh_db 1 1e20) = large_db.
Proof. reflexivity. Qed.

(** ** Dictionaries *)

Section DictFacts.
Context {V : Type}.
Implicit Types (d : Py.dict V) (k : string) (v : V).

Lemma get_set_eq d k v : Py.get k (Py.set k v d) = Some v.
Proof.
  induction d as [|[k' v'] d IH]; simpl.
  - now rewrite String.eqb_refl.
  - destruct (String.eqb k k') eqn:E; simpl; rewrite E; [reflexivity | exact IH].
Qed.

Lemma get_set_ne d k k' v : k <> k' -> Py.get k' (Py.set k v d) = Py.get k' d.
Proof.
  intros Hne. induction d as [|[k0 v0] d IH]; simpl.
  - apply String.eqb_neq in Hne. rewrite String.eqb_sym in Hne. now rewrite Hne.
  - destruct (String.eqb k k0) eqn:E; simpl.
    + apply String.eqb_eq in E. subst k0.
      assert (String.eqb k' k = false) as ->; [|reflexivity].
      apply String.eqb_neq. congruence.
    + now rewrite IH.
Qed.

Lemma get_set d k k' v :
  Py.get k' (Py.set k v d) = if String.eqb k k' then Some v else Py.get k' d.
Proof.
  destruct (String.eqb k k') eqn:E.
  - apply String.eqb_eq in E. subst. apply get_set_eq.
  - apply String.eqb_neq in E. now apply get_set_ne.
Qed.

(** Storing a value that satisfies [P] keeps every stored value in [P]. *)
Lemma set_Forall (P : V -> Prop) d k v :
  P v -> Forall (fun kv => P (snd kv)) d ->
  Forall (fun kv => P (snd kv)) (Py.set k v d).
Proof.
  intros Hv. induction d as [|[k' v'] d IH]; simpl; intros Hd.
  - constructor; [exact Hv | constructor].
  - inversion Hd; subst. destruct (String.eqb k k'); constructor; auto.
Qed.

End DictFacts.

(** ** Dynamic odds *)

Lemma get_add_bet_stat (acc : Py.dict Stat) (b : Bet.t) (k : string) :
  amount_of (Py.get k (add_bet_stat acc b)) =
  if String.eqb (Bet.predicted_outcome b) k
  then Some (PrimFloat.add
               (match amount_of (Py.get k acc) with Some a => a | None => 0%float end)
               (Bet.amount b))
  else amount_of (Py.get k acc).
Proof.
  unfold add_bet_stat, Py.mem.
  destruct (Py.get (Bet.predicted_outcome b) acc) as [s|] eqn:G; simpl.
  - rewrite G, get_set.
    destruct (String.eqb (Bet.predicted_outcome b) k) eqn:E; [|reflexivity].
    apply String.eqb_eq in E. subst k. now rewrite G.
  - rewrite get_set_eq, !get_set.
    destruct (String.eqb (Bet.predicted_outcome b) k) eqn:E; [|reflexivity].
    apply String.eqb_eq in E. subst k. now rewrite G.
Qed.

Lemma get_fold_stats (bets : list Bet.t) (acc : Py.dict Stat) (k : string) :
  amount_of (Py.get k (fold_left add_bet_stat bets acc)) =
  match amount_of (Py.get k acc) with
  | Some a => Some (staked_from a bets k)
  | None => if has_outcome bets k then Some (staked bets k) else None
  end.
Proof.
  revert acc. induction bets as [|b bets IH]; intros acc; simpl.
  - now destruct (amount_of (Py.get k acc)).
  - rewrite IH, get_add_bet_stat. unfold staked. simpl.
    destruct (String.eqb (Bet.predicted_outcome b) k); simpl;
      destruct (amount_of (Py.get k acc)); reflexivity.
Qed.

Lemma get_collect_stats (bets : list Bet.t) (k : string) :
  amount_of (Py.get k (collect_stats bets)) =
  if has_outcome bets k then Some (staked bets k) else None.
Proof. unfold collect_stats. now rewrite get_fold_stats. Qed.

Section DictKeys.
Context {V : Type}.
Implicit Types (d : Py.dict V) (k : string) (v : V).

Lemma mem_keys d k : Py.mem k d = existsb (String.eqb k) (Py.keys d).
Proof.
  unfold Py.mem. induction d as [|[k' v'] d IH]; simpl; [reflexivity|].
  destruct (String.eqb k k'); [reflexivity | exact IH].
Qed.

Lemma keys_set d k v :
  Py.keys (Py.set k v d) = if Py.mem k d then Py.keys d else (Py.keys d ++ [k])%list.
Proof.
  unfold Py.mem. induction d as [|[k' v'] d IH]; simpl; [reflexivity|].
  destruct (String.eqb k k') eqn:E; simpl; [reflexivity|].
  rewrite IH. now destruct (Py.get k d).
Qed.

Lemma get_None_keys d k : Py.get k d = None -> ~ In k (Py.keys d).
Proof.
  induction d as [|[k' v'] d IH]; simpl; [tauto|].
  destruct (String.eqb k k') eqn:E; [discriminate|].
  apply String.eqb_neq in E. intros H [Hk|Hk]; [congruence | now apply IH].
Qed.

Lemma NoDup_keys_set d k v :
  List.NoDup (Py.keys d) -> List.NoDup (Py.keys (Py.set k v d)).
Proof.
  intros Hd. rewrite keys_set. unfold Py.mem.
  destruct (Py.get k d) eqn:G; [exact Hd|].
  apply get_None_keys in G. clear v.
  induction (Py.keys d) as [|k0 ks IH]; simpl.
  - constructor; [intros []|constructor].
  - inversion Hd as [|? ? Hk0 Hks]; subst. constructor.
    + rewrite in_app_iff. simpl. intros [H|[H|[]]]; [tauto|].
      apply G. now left.
    + apply IH; [exact Hks|]. intros H. apply G. now right.
Qed.

Lemma In_get d k v : List.NoDup (Py.keys d) -> In (k, v) d -> Py.get k d = Some v.
Proof.
  induction d as [|[k' v'] d IH]; simpl; [tauto|].
  intros Hd [H|H].
  - injection H as -> ->. now rewrite String.eqb_refl.
  - inversion Hd as [|? ? Hk Hks]; subst.
    destruct (String.eqb k k') eqn:E; [|auto].
    apply String.eqb_eq in E. subst k'. exfalso. apply Hk.
    change k with (fst (k, v)). now apply in_map.
Qed.

End DictKeys.

Lemma NoDup_keys_fold_stats (bets : list Bet.t) (acc : Py.dict Stat) :
  List.NoDup (Py.keys acc) -> List.NoDup (Py.keys (fold_left add_bet_stat bets acc)).
Proof.
  revert acc. induction bets as [|b bets IH]; intros acc Hacc; simpl; [exact Hacc|].
  apply IH. unfold add_bet_stat.
  set (acc1 := if negb _ then _ else _).
  assert (List.NoDup (Py.keys acc1)) as H1.
  { subst acc1. destruct (negb _); [now apply NoDup_keys_set | exact Hacc]. }
  destruct (Py.get _ acc1); [now apply NoDup_keys_set | exact H1].
Qed.

Lemma NoDup_keys_collect_stats (bets : list Bet.t) :
  List.NoDup (Py.keys (collect_stats bets)).
Proof. apply NoDup_keys_fold_stats. constructor. Qed.

(** A key of the statistics is the outcome of some bet, and its amount is
    what is staked on it. *)
Lemma collect_stats_entry (bets : list Bet.t) (k : string) (s : Stat) :
  In (k, s) (collect_stats bets) ->
  has_outcome bets k = true /\ stat_amount s = staked bets k.
Proof.
  intros Hin. apply In_get in Hin; [|apply NoDup_keys_collect_stats].
  pose proof (get_collect_stats bets k) as H. rewrite Hin in H. simpl in H.
  destruct (has_outcome bets k); [|discriminate].
  injection H as H. now split.
Qed.

Lemma total_amount_staked (bets : list Bet.t) :
  Py.sum (map (fun kv => stat_amount (snd kv)) (collect_stats bets)) =
  total_staked bets.
Proof.
  unfold total_staked, Py.keys. rewrite map_map. f_equal.
  apply map_ext_in. intros [k s] Hin. simpl.
  now apply collect_stats_entry in Hin.
Qed.

Lemma get_odds_loop (stats : Py.dict Stat) (f : float -> float)
    (ks : list string) (acc : Py.dict float) (k : string) :
  Py.get k
    (fold_left
       (fun odds outcome =>
          match Py.get outcome stats with
          | Some s => Py.set outcome (f (stat_amount s)) odds
          | None => odds
          end) ks acc) =
  if existsb (String.eqb k) ks
  then match Py.get k stats with
       | Some s => Some (f (stat_amount s))
       | None => Py.get k acc
       end
  else Py.get k acc.
Proof.
  revert acc. induction ks as [|o ks IH]; intros acc; simpl; [reflexivity|].
  rewrite IH. destruct (String.eqb k o) eqn:E; simpl.
  - apply String.eqb_eq in E. subst o.
    destruct (Py.get k stats) as [s|]; [|now destruct (existsb _ ks)].
    rewrite get_set_eq. now destruct (existsb _ ks).
  - destruct (Py.get o stats) as [s|]; [|reflexivity].
    rewrite get_set_ne; [reflexivity|].
    apply String.eqb_neq in E. congruence.
Qed.

Lemma get_backfill_one (d : Py.dict float) (k0 k : string) (v0 : float) :
  Py.get k (if negb (Py.mem k0 d) then Py.set k0 v0 d else d) =
  match Py.get k d with
  | Some v => Some v
  | None => if String.eqb k k0 then Some v0 else None
  end.
Proof.
  unfold Py.mem. destruct (Py.get k0 d) as [w|] eqn:G; simpl.
  - destruct (Py.get k d) eqn:Gk; [reflexivity|].
    destruct (String.eqb k k0) eqn:E; [|reflexivity].
    apply String.eqb_eq in E. congruence.
  - rewrite get_set, String.eqb_sym.
    destruct (String.eqb k k0) eqn:E.
    + apply String.eqb_eq in E. subst. now rewrite G.
    + now destruct (Py.get k d).
Qed.

Lemma get_backfill (d : Py.dict float) (k : string) :
  Py.get k (backfill d) =
  match Py.get k d with Some v => Some v | None => default_odd k end.
Proof.
  unfold backfill, default_odd. rewrite !get_backfill_one.
  destruct (Py.get k d); [reflexivity|].
  destruct (String.eqb k "team_a_won"); [reflexivity|].
  destruct (String.eqb k "team_b_won"); reflexivity.
Qed.

(** The odds dictionary, read key by key. *)
Lemma get_odds_of_bets (margin : float) (bets : list Bet.t) (k : string) :
  Py.get k (odds_of_bets margin bets) =
  if has_outcome bets k
  then Some (outcome_odd margin (total_staked bets) (staked bets k))
  else default_odd k.
Proof.
  destruct bets as [|b0 bets0] eqn:Hb; [reflexivity|]. rewrite <- Hb.
  assert (odds_of_bets margin bets =
          backfill
            (fold_left
               (fun odds outcome =>
                  match Py.get outcome (collect_stats bets) with
                  | Some s =>
                      Py.set outcome
                        (outcome_odd margin
                           (Py.sum (map (fun kv => stat_amount (snd kv))
                                        (collect_stats bets)))
                           (stat_amount s)) odds
                  | None => odds
                  end)
               (Py.keys (collect_stats bets)) [])) as ->.
  { rewrite Hb. reflexivity. }
  rewrite get_backfill, get_odds_loop, total_amount_staked, <- mem_keys.
  pose proof (get_collect_stats bets k) as H. unfold Py.mem.
  destruct (Py.get k (collect_stats bets)) as [s|]; simpl in H;
    destruct (has_outcome bets k); try discriminate; [|reflexivity].
  injection H as ->. reflexivity.
Qed.

Lemma max_floor (a : float) : not_below_floor (Py.max a 1.1%float).
Proof.
  unfold not_below_floor, Py.max, Py.lt.
  destruct (PrimFloat.ltb a 1.1%float) eqn:E; [reflexivity | exact E].
Qed.

Lemma outcome_odd_floor (margin total_amount bet_amount : float) :
  not_below_floor (outcome_odd margin total_amount bet_amount).
Proof.
  unfold outcome_odd. destruct (Py.lt 0 bet_amount); [apply max_floor | reflexivity].
Qed.

Lemma odds_loop_floor (stats : Py.dict Stat) (f : float -> float)
    (ks : list string) (acc : Py.dict float) :
  (forall a, not_below_floor (f a)) ->
  Forall (fun kv => not_below_floor (snd kv)) acc ->
  Forall (fun kv => not_below_floor (snd kv))
    (fold_left
       (fun odds outcome =>
          match Py.get outcome stats with
          | Some s => Py.set outcome (f (stat_amount s)) odds
          | None => odds
          end) ks acc).
Proof.
  intros Hf. revert acc. induction ks as [|o ks IH]; intros acc Hacc; simpl; [exact Hacc|].
  apply IH. destruct (Py.get o stats); [|exact Hacc].
  apply (set_Forall not_below_floor); [apply Hf | exact Hacc].
Qed.

Lemma backfill_floor (d : Py.dict float) :
  Forall (fun kv => not_below_floor (snd kv)) d ->
  Forall (fun kv => not_below_floor (snd kv)) (backfill d).
Proof.
  intros Hd. unfold backfill.
  repeat match goal with
         | |- Forall _ (if ?c then _ else _) => destruct c
         | |- Forall _ (Py.set _ _ _) =>
             apply (set_Forall not_below_floor); [reflexivity|]
         end; exact Hd.
Qed.

Lemma odds_of_bets_floor (margin : float) (bets : list Bet.t) :
  Forall (fun kv => not_below_floor (snd kv)) (odds_of_bets margin bets).
Proof.
  destruct bets as [|b0 bets0].
  - simpl. repeat constructor.
  - unfold odds_of_bets. apply backfill_floor, odds_loop_floor.
    + intros a. apply outcome_odd_floor.
    + constructor.
Qed.






(** ** The lock check *)

Lemma check_lock_Return (svc svc1 : BettingService) (now : time) (user_id : Z) :
  check_lock svc now user_id = Py.Return svc1 ->
  total_service_deposit svc1 = total_service_deposit svc
  /\ bookie_margin svc1 = bookie_margin svc
  /\ locked_users svc1 = delete user_id (locked_users svc)
  /\ (forall unlock_time,
        locked_users svc !! user_id = Some unlock_time -> unlock_time <= now).
Proof.
  unfold check_lock. destruct (locked_users svc !! user_id) as [t|] eqn:L.
  - destruct (now <? t) eqn:E; [discriminate|]. intros [= <-]. simpl.
    repeat split. intros t' [= <-]. lia.
  - intros [= <-]. repeat split; [|discriminate].
    symmetry. now apply delete_id.
Qed.

Lemma check_lock_Raise (svc : BettingService) (now : time) (user_id : Z) (e : Py.exn) :
  check_lock svc now user_id = Py.Raise e ->
  e = Py.Exception locked_msg
  /\ exists unlock_time,
       locked_users svc !! user_id = Some unlock_time /\ now < unlock_time.
Proof.
  unfold check_lock. destruct (locked_users svc !! user_id) as [t|] eqn:L; [|discriminate].
  destruct (now <? t) eqn:E; [|discriminate]. intros [= <-].
  split; [reflexivity|]. exists t. split; [reflexivity | lia].
Qed.

Lemma check_lock_locked (svc : BettingService) (now unlock_time : time) (user_id : Z) :
  locked_users svc !! user_id = Some unlock_time -> now < unlock_time ->
  check_lock svc now user_id = Py.Raise (Py.Exception locked_msg).
Proof.
  intros L Hlt. unfold check_lock. rewrite L.
  assert ((now <? unlock_time) = true) as -> by lia. reflexivity.
Qed.

Lemma check_lock_expired (svc : BettingService) (now unlock_time : time) (user_id : Z) :
  locked_users svc !! user_id = Some unlock_time -> unlock_time <= now ->
  check_lock svc now user_id =
  Py.Return (set_locked_users svc (delete user_id (locked_users svc))).
Proof.
  intros L Hle. unfold check_lock. rewrite L.
  assert ((now <? unlock_time) = false) as -> by lia. reflexivity.
Qed.

Lemma check_lock_free (svc : BettingService) (now : time) (user_id : Z) :
  locked_users svc !! user_id = None -> check_lock svc now user_id = Py.Return svc.
Proof. intros L. unfold check_lock. now rewrite L. Qed.

(** ** Placing a bet *)

(** The odds do not depend on the lock map or on the deposit total. *)
Lemma calculate_odds_margin (svc svc1 : BettingService) (db : Database) (event_id : Z) :
  bookie_margin svc1 = bookie_margin svc ->
  calculate_odds_based_on_bets svc1 db event_id =
  calculate_odds_based_on_bets svc db event_id.
Proof. unfold calculate_odds_based_on_bets. now intros ->. Qed.

(** When [place_bet] returns, every check has passed and the state is the
    one the last lines of the method build. *)
Lemma place_bet_Return (svc : BettingService) (db : Database) (now : time)
    (user_id event_id : Z) (amount : float) (outcome : string)
    (bet : Bet.t) (db' : Database) (svc' : BettingService) :
  place_bet svc db now user_id event_id amount outcome = (Py.Return bet, db', svc') ->
  exists svc1 user event odd,
    check_lock svc now user_id = Py.Return svc1
    /\ users db !! user_id = Some user
    /\ Py.lt (User.balance user) amount = false
    /\ events db !! event_id = Some event
    /\ Event.is_active event = true /\ Event.is_finished event = false
    /\ Py.get outcome (calculate_odds_based_on_bets svc db event_id) = Some odd
    /\ bet = new_bet db user_id event_id amount odd outcome
    /\ db' = mkDatabase
               (<[user_id :=
                    User.set_total_deposited
                      (User.set_balance user (PrimFloat.sub (User.balance user) amount))
                      (PrimFloat.add (User.total_deposited user) amount)]> (users db))
               (events db) (bets db ++ [bet])%list
    /\ svc' = set_total_service_deposit svc1
                (PrimFloat.add (total_service_deposit svc) amount).
Proof.
  unfold place_bet.
  destruct (check_lock svc now user_id) as [svc1|e] eqn:L; [|discriminate].
  destruct (check_lock_Return _ _ _ _ L) as (Ht & Hm & _).
  destruct (users db !! user_id) as [user|] eqn:U; [|discriminate].
  destruct (Py.lt (User.balance user) amount) eqn:B; [discriminate|].
  destruct (events db !! event_id) as [event|] eqn:Ev; [|discriminate].
  destruct (Event.is_active event) eqn:A; [|discriminate].
  destruct (Event.is_finished event) eqn:F; [discriminate|]. simpl.
  rewrite (calculate_odds_margin svc svc1 db event_id Hm).
  destruct (Py.get outcome _) as [odd|] eqn:O; [|discriminate].
  destruct (Sqlite.is_null amount); [discriminate|].
  destruct (Sqlite.is_null odd); [discriminate|].
  intros [= <- <- <-]. exists svc1, user, event, odd.
  rewrite Ht. repeat split; first [reflexivity | assumption].
Qed.

(** What [place_bet] has stored was a number. *)
Lemma place_bet_Return_numbers (svc : BettingService) (db : Database) (now : time)
    (user_id event_id : Z) (amount : float) (outcome : string)
    (bet : Bet.t) (db' : Database) (svc' : BettingService) :
  place_bet svc db now user_id event_id amount outcome = (Py.Return bet, db', svc') ->
  Sqlite.is_null amount = false /\ Sqlite.is_null (Bet.odds bet) = false.
Proof.
  unfold place_bet.
  destruct (check_lock svc now user_id) as [svc1|e]; [|discriminate].
  destruct (users db !! user_id) as [user|]; [|discriminate].
  destruct (Py.lt (User.balance user) amount); [discriminate|].
  destruct (events db !! event_id) as [event|]; [|discriminate].
  destruct (negb (Event.is_active event) || Event.is_finished event);
    [discriminate|].
  destruct (Py.get outcome _) as [odd|]; [|discriminate].
  destruct (Sqlite.is_null amount) eqn:Na; [discriminate|].
  destruct (Sqlite.is_null odd) eqn:No; [discriminate|].
  intros [= <- _ _]. split; [reflexivity | exact No].
Qed.

(** When every check passes, [place_bet] returns. *)
Lemma place_bet_succeeds (svc svc1 : BettingService) (db : Database) (now : time)
    (user_id event_id : Z) (amount : float) (outcome : string)
    (user : User.t) (event : Event.t) (odd : float) :
  check_lock svc now user_id = Py.Return svc1 ->
  users db !! user_id = Some user ->
  Py.lt (User.balance user) amount = false ->
  events db !! event_id = Some event ->
  Event.is_active event = true -> Event.is_finished event = false ->
  Py.get outcome (calculate_odds_based_on_bets svc db event_id) = Some odd ->
  Sqlite.is_null amount = false -> Sqlite.is_null odd = false ->
  place_bet svc db now user_id event_id amount outcome =
  (Py.Return (new_bet db user_id event_id amount odd outcome),
   mkDatabase
     (<[user_id :=
          User.set_total_deposited
            (User.set_balance user (PrimFloat.sub (User.balance user) amount))
            (PrimFloat.add (User.total_deposited user) amount)]> (users db))
     (events db)
     (bets db ++ [new_bet db user_id event_id amount odd outcome])%list,
   set_total_service_deposit svc1
     (PrimFloat.add (total_service_deposit svc) amount)).
Proof.
  intros L U B Ev A F O Na No. unfold place_bet. rewrite L, U, B, Ev, A, F. simpl.
  destruct (check_lock_Return _ _ _ _ L) as (Ht & Hm & _).
  rewrite (calculate_odds_margin svc svc1 db event_id Hm), O, Na, No, Ht.
  reflexivity.
Qed.

(** A raising [place_bet] leaves the tables alone, and the deposit total
    unless it is the [commit] that failed. *)
Lemma place_bet_Raise (svc : BettingService) (db : Database) (now : time)
    (user_id event_id : Z) (amount : float) (outcome : string)
    (e : Py.exn) (db' : Database) (svc' : BettingService) :
  place_bet svc db now user_id event_id amount outcome = (Py.Raise e, db', svc') ->
  db' = db
  /\ (total_service_deposit svc' = total_service_deposit svc
      \/ total_service_deposit svc'
         = PrimFloat.add (total_service_deposit svc) amount)
  /\ bookie_margin svc' = bookie_margin svc.
Proof.
  unfold place_bet.
  destruct (check_lock svc now user_id) as [svc1|e1] eqn:L.
  2:{ intros [= <- <- <-]. split; [|split]; auto. }
  destruct (check_lock_Return _ _ _ _ L) as (Ht & Hm & _).
  destruct (users db !! user_id) as [user|].
  2:{ intros [= <- <- <-]. split; [|split]; auto. }
  destruct (Py.lt (User.balance user) amount).
  { intros [= <- <- <-]. split; [|split]; auto. }
  destruct (events db !! event_id) as [event|].
  2:{ intros [= <- <- <-]. split; [|split]; auto. }
  destruct (negb (Event.is_active event) || Event.is_finished event).
  { intros [= <- <- <-]. split; [|split]; auto. }
  destruct (Py.get outcome _).
  2:{ intros [= <- <- <-]. split; [|split]; auto. }
  destruct (Sqlite.is_null amount).
  { intros [= <- <- <-]. split; [reflexivity|]. split; [|exact Hm].
    right. cbn. now rewrite Ht. }
  destruct (Sqlite.is_null f).
  { intros [= <- <- <-]. split; [reflexivity|]. split; [|exact Hm].
    right. cbn. now rewrite Ht. }
  discriminate.
Qed.

(** C1. A [place_bet] that returns has taken the amount off the user's
    balance and added it to the user's [total_deposited] and to the engine's
    deposit total (each by the one float operation of the code); when the
    amount exceeds the balance the call raises and the tables, hence the
    balance, [total_deposited] and the stored bets, and the deposit total
    are as before.  The exception is "Insufficient balance", unless the
    lock check, which runs first, has already raised. *)
Theorem place_bet_debit :
  forall (svc : BettingService) (db : Database) (now : time)
         (user_id event_id : Z) (amount : float) (outcome : string),
    (forall bet db' svc',
        place_bet svc db now user_id event_id amount outcome
        = (Py.Return bet, db', svc') ->
        exists user user',
          users db !! user_id = Some user
          /\ users db' !! user_id = Some user'
          /\ User.balance user' = PrimFloat.sub (User.balance user) amount
          /\ User.total_deposited user'
             = PrimFloat.add (User.total_deposited user) amount
          /\ total_service_deposit svc'
             = PrimFloat.add (total_service_deposit svc) amount)
    /\ (forall user,
          users db !! user_id = Some user ->
          Py.lt (User.balance user) amount = true ->
          exists e svc',
            place_bet svc db now user_id event_id amount outcome
            = (Py.Raise e, db, svc')
            /\ total_service_deposit svc' = total_service_deposit svc
            /\ e = match check_lock svc now user_id with
                   | Py.Return _ => Py.Exception "Insufficient balance"
                   | Py.Raise _ => Py.Exception locked_msg
                   end).
Proof.
  intros svc db now user_id event_id amount outcome. split.
  - intros bet db' svc' H.
    apply place_bet_Return in H
      as (svc1 & user & event & odd & L & U & B & Ev & A & F & O & -> & -> & ->).
    exists user. eexists. split; [exact U|]. simpl. rewrite lookup_insert_eq.
    repeat split.
  - intros user U B. unfold place_bet.
    destruct (check_lock svc now user_id) as [svc1|e1] eqn:L.
    + rewrite U, B. exists (Py.Exception "Insufficient balance"), svc1.
      repeat split. now apply check_lock_Return in L as (Ht & _).
    + apply check_lock_Raise in L as (-> & _).
      exists (Py.Exception locked_msg), svc. repeat split.
Qed.

(** From a balance of 100, a bet of 40 leaves 60 and 40 deposited; a bet of
    100.5 is refused and leaves the tables as they are. *)
Lemma place_bet_debit_witness :
  (exists user',
      users (snd (fst (place_bet init_service fresh_db 0 1 1 40 "draw"))) !! 1
      = Some user'
      /\ User.balance user' = 60%float
      /\ User.total_deposited user' = 40%float)
  /\ (exists e svc',
         place_bet init_service fresh_db 0 1 1 100.5 "draw"
         = (Py.Raise e, fresh_db, svc')
         /\ e = Py.Exception "Insufficient balance").
Proof.
  split.
  - destruct (proj1 (place_bet_debit init_service fresh_db 0 1 1 40 "draw")
                _ _ _ eq_refl)
      as (user & user' & U & U' & B & T & _).
    exists user'. split; [exact U'|].
    injection U as <-. split; [exact B | exact T].
  - destruct (proj2 (place_bet_debit init_service fresh_db 0 1 1 100.5 "draw")
                _ eq_refl eq_refl)
      as (e & svc' & H & _ & E).
    exists e, svc'. split; [exact H | exact E].
Defined.

(** C10, as the code has it.  [place_bet] compares the amount with the
    balance and with nothing else: whenever the other checks pass (no
    unexpired lock, an open event, an outcome among the odds keys) and the
    balance is not less than the amount, the bet is created with that
    amount, be it zero, negative or above any limit, provided the floats
    to store are numbers; it is stored as given (a negative zero as 0.0),
    the balance becomes [balance - amount] and [total_deposited] becomes
    [total_deposited + amount], in float arithmetic.  An amount that is
    not a number passes the balance check too (no comparison with a NaN
    is true) and fails only at the [commit]: no bet is created, the tables
    are as before, and the engine's deposit total has the NaN added. *)
Theorem place_bet_any_amount :
  forall (svc svc1 : BettingService) (db : Database) (now : time)
         (user_id event_id : Z) (amount : float) (outcome : string)
         (user : User.t) (event : Event.t) (odd : float),
    check_lock svc now user_id = Py.Return svc1 ->
    users db !! user_id = Some user ->
    events db !! event_id = Some event ->
    Event.is_active event = true -> Event.is_finished event = false ->
    Py.get outcome (calculate_odds_based_on_bets svc db event_id) = Some odd ->
    Py.lt (User.balance user) amount = false ->
    let balance' := PrimFloat.sub (User.balance user) amount in
    let deposited' := PrimFloat.add (User.total_deposited user) amount in
    (Sqlite.is_null amount = false -> Sqlite.is_null odd = false ->
     Sqlite.is_null balance' = false -> Sqlite.is_null deposited' = false ->
     exists bet db' svc' user',
       place_bet svc db now user_id event_id amount outcome = (Py.Return bet, db', svc')
       /\ Bet.amount bet = Sqlite.real amount /\ Bet.user_id bet = user_id
       /\ Bet.event_id bet = event_id
       /\ bets db' = (bets db ++ [bet])%list
       /\ users db' !! user_id = Some user'
       /\ User.balance user' = balance'
       /\ User.total_deposited user' = deposited')
    /\ (Sqlite.is_null amount = true ->
        place_bet svc db now user_id event_id amount outcome
        = (Py.Raise (Sqlite.not_null_failed "bets.amount"), db,
           set_total_service_deposit svc1
             (PrimFloat.add (total_service_deposit svc) amount))).
Proof.
  intros svc svc1 db now user_id event_id amount outcome user event odd
         L U Ev A F O B balance' deposited'.
  split.
  - intros Na No _ _.
    rewrite (place_bet_succeeds _ _ _ _ _ _ _ _ _ _ _ L U B Ev A F O Na No).
    do 3 eexists. eexists. split; [reflexivity|]. simpl.
    rewrite lookup_insert_eq. repeat split.
  - intros Na. unfold place_bet. rewrite L, U, B, Ev, A, F. simpl.
    destruct (check_lock_Return _ _ _ _ L) as (Ht & Hm & _).
    rewrite (calculate_odds_margin svc svc1 db event_id Hm), O, Na, Ht.
    reflexivity.
Qed.

(** From a balance of 100: a bet of -50 leaves 150, the bet is stored and
    -50 is added to [total_deposited]; a bet of -0.0 is stored as 0.0; a
    bet of NaN is refused by the [commit]. *)
Lemma place_bet_any_amount_witness :
  (exists bet db' svc' user',
      place_bet init_service fresh_db 0 1 1 (-50) "draw" = (Py.Return bet, db', svc')
      /\ Bet.amount bet = (-50)%float /\ Bet.user_id bet = 1
      /\ Bet.event_id bet = 1
      /\ bets db' = (bets fresh_db ++ [bet])%list
      /\ users db' !! 1 = Some user'
      /\ User.balance user' = 150%float
      /\ User.total_deposited user' = (-50)%float)
  /\ (exists bet db' svc',
         place_bet init_service fresh_db 0 1 1 PrimFloat.neg_zero "draw"
         = (Py.Return bet, db', svc')
         /\ Bet.amount bet = 0%float)
  /\ place_bet init_service fresh_db 0 1 1 PrimFloat.nan "draw"
     = (Py.Raise (Sqlite.not_null_failed "bets.amount"), fresh_db,
        set_total_service_deposit init_service PrimFloat.nan).
Proof.
  pose proof (fun amount =>
                place_bet_any_amount init_service init_service fresh_db 0 1 1
                  amount "draw" (sample_user "ann" 100 0) sample_event 3.0%float
                  eq_refl eq_refl eq_refl eq_refl eq_refl eq_refl) as H.
  split; [|split].
  - exact (proj1 (H (-50)%float eq_refl) eq_refl eq_refl eq_refl eq_refl).
  - destruct (proj1 (H PrimFloat.neg_zero eq_refl) eq_refl eq_refl eq_refl eq_refl)
      as (bet & db' & svc' & user' & P & Ha & _).
    exists bet, db', svc'. split; [exact P | exact Ha].
  - exact (proj2 (H PrimFloat.nan eq_refl) eq_refl).
Defined.

(** C10 as stated fails where the subtraction rounds: a bet of -1 from a
    balance of 1e20 is accepted and stored, and the balance is 1e20 again,
    not more. *)
Lemma negative_bet_absorbed :
  exists bet db' svc' user',
    place_bet init_service large_db 0 1 1 (-1) "draw" = (Py.Return bet, db', svc')
    /\ Py.lt (-1) 0 = true
    /\ In bet (bets db')
    /\ users db' !! 1 = Some user'
    /\ User.balance user' = 1e20%float
    /\ Py.lt 1e20 (User.balance user') = false.
Proof.
  do 3 eexists. eexists. split; [reflexivity|].
  split; [reflexivity|]. split; [now left|].
  split; [reflexivity|]. split; reflexivity.
Qed.

(** ** Withdrawals and the lock *)

Lemma withdraw_money_Return (svc svc' : BettingService) (t_check t_lock : time)
    (user_id : Z) (amount : float) (w : Withdrawal) :
  withdraw_money svc t_check t_lock user_id amount = (Py.Return w, svc') ->
  w = mkWithdrawal "withdrawal_initiated" 30
  /\ svc' = set_locked_users svc
              (<[user_id := t_lock + timedelta_seconds 30]> (locked_users svc)).
Proof.
  unfold withdraw_money.
  destruct (check_lock svc t_check user_id) as [svc1|e] eqn:L; [|discriminate].
  intros [= <- <-]. split; [reflexivity|].
  apply check_lock_Return in L as (Ht & Hm & Hl & _).
  destruct svc1 as [l1 d1 m1], svc as [l d m]. simpl in *. subst.
  unfold set_locked_users. simpl. now rewrite insert_delete_eq.
Qed.

(** C6. A [withdraw_money] that returns leaves the user locked until
    exactly 30 seconds after the clock reading of the call.  While a lock
    of the user is unexpired (the clock reads less than the unlock time), a
    [withdraw_money] and a [place_bet] of that user raise the lock error
    and change nothing.  From the unlock time on, [place_bet] deletes the
    entry and goes on as it does for a user without a lock, and
    [withdraw_money] returns and locks the user for 30 seconds again. *)
Theorem withdrawal_lock :
  (forall (svc svc' : BettingService) (t_check t_lock : time) (user_id : Z)
          (amount : float) (w : Withdrawal),
      withdraw_money svc t_check t_lock user_id amount = (Py.Return w, svc') ->
      locked_users svc' !! user_id = Some (t_lock + 30 * 1000000))
  /\ (forall (svc : BettingService) (user_id : Z) (unlock_time now : time),
        locked_users svc !! user_id = Some unlock_time ->
        now < unlock_time ->
        (forall t_lock amount,
            withdraw_money svc now t_lock user_id amount
            = (Py.Raise (Py.Exception locked_msg), svc))
        /\ (forall db event_id amount outcome,
              place_bet svc db now user_id event_id amount outcome
              = (Py.Raise (Py.Exception locked_msg), db, svc)))
  /\ (forall (svc : BettingService) (user_id : Z) (unlock_time now : time),
        locked_users svc !! user_id = Some unlock_time ->
        unlock_time <= now ->
        let unlocked := set_locked_users svc (delete user_id (locked_users svc)) in
        (forall db event_id amount outcome,
            place_bet svc db now user_id event_id amount outcome
            = place_bet unlocked db now user_id event_id amount outcome
            /\ locked_users
                 (snd (place_bet svc db now user_id event_id amount outcome))
               !! user_id = None)
        /\ (forall t_lock amount,
              exists svc',
                withdraw_money svc now t_lock user_id amount
                = (Py.Return (mkWithdrawal "withdrawal_initiated" 30), svc')
                /\ locked_users svc' !! user_id = Some (t_lock + 30 * 1000000))).
Proof.
  split; [|split].
  - intros svc svc' t_check t_lock user_id amount w H.
    apply withdraw_money_Return in H as (_ & ->). simpl.
    now rewrite lookup_insert_eq.
  - intros svc user_id unlock_time now L Hlt. split.
    + intros t_lock amount. unfold withdraw_money.
      now rewrite (check_lock_locked _ _ _ _ L Hlt).
    + intros db' event_id amount outcome. unfold place_bet.
      now rewrite (check_lock_locked _ _ _ _ L Hlt).
  - intros svc user_id unlock_time now L Hle unlocked. split.
    + intros db' event_id amount outcome.
      assert (check_lock unlocked now user_id = Py.Return unlocked) as Hfree.
      { apply check_lock_free. subst unlocked. simpl. apply lookup_delete_eq. }
      assert (place_bet svc db' now user_id event_id amount outcome
              = place_bet unlocked db' now user_id event_id amount outcome) as Heq.
      { unfold place_bet.
        now rewrite (check_lock_expired _ _ _ _ L Hle), Hfree. }
      split; [exact Heq|]. rewrite Heq. unfold place_bet. rewrite Hfree.
      assert (locked_users unlocked !! user_id = None) as Hn.
      { subst unlocked. simpl. apply lookup_delete_eq. }
      repeat match goal with
             | |- context [match ?x with _ => _ end] => destruct x
             end; simpl; exact Hn.
    + intros t_lock amount. eexists. unfold withdraw_money.
      rewrite (check_lock_expired _ _ _ _ L Hle). split; [reflexivity|].
      simpl. now rewrite lookup_insert_eq.
Qed.

(** A withdrawal at time 5 locks user 1 until 30000005; at 30000004 a bet
    and a second withdrawal are refused, at 30000005 both go through. *)
Lemma withdrawal_lock_witness :
  let svc' := snd (withdraw_money init_service 5 5 1 20) in
  locked_users svc' !! 1 = Some 30000005
  /\ place_bet svc' fresh_db 30000004 1 1 40 "draw"
     = (Py.Raise (Py.Exception locked_msg), fresh_db, svc')
  /\ withdraw_money svc' 30000004 30000004 1 20
     = (Py.Raise (Py.Exception locked_msg), svc')
  /\ Py.is_return (fst (fst (place_bet svc' fresh_db 30000005 1 1 40 "draw"))) = true
  /\ locked_users (snd (place_bet svc' fresh_db 30000005 1 1 40 "draw")) !! 1 = None
  /\ locked_users (snd (withdraw_money svc' 30000005 30000006 1 20)) !! 1
     = Some 60000006.
Proof.
  intros svc'.
  destruct withdrawal_lock as (Hset & Hlocked & Hexpired).
  assert (locked_users svc' !! 1 = Some 30000005) as L.
  { exact (Hset init_service svc' 5 5 1 20%float _ eq_refl). }
  destruct (Hlocked svc' 1 30000005 30000004 L ltac:(lia)) as (Hw & Hb).
  destruct (Hexpired svc' 1 30000005 30000005 L ltac:(lia)) as (Hb' & Hw').
  destruct (Hb' fresh_db 1 40%float "draw") as (Heq & Hnone).
  destruct (Hw' 30000006 20%float) as (svc2 & Hret & Hlock).
  split; [exact L|]. split; [apply Hb|]. split; [apply Hw|].
  split; [reflexivity|]. split; [exact Hnone|].
  rewrite Hret. exact Hlock.
Defined.

(** C7. [withdraw_money] writes to the lock map and to nothing else: the
    tables (balances, [total_deposited] and every other stored field), the
    deposit total and the margin are as before, the locks of the other
    users too, and a returned acknowledgment carries the lock duration 30. *)
Theorem withdraw_money_frame :
  forall (w : World) (t_check t_lock : time) (user_id : Z) (amount : float),
    let w' := run (WithdrawMoney t_check t_lock user_id amount) w in
    db w' = db w
    /\ total_service_deposit (service w') = total_service_deposit (service w)
    /\ bookie_margin (service w') = bookie_margin (service w)
    /\ (forall other, other <> user_id ->
          locked_users (service w') !! other = locked_users (service w) !! other)
    /\ (forall r,
          fst (withdraw_money (service w) t_check t_lock user_id amount)
          = Py.Return r ->
          r = mkWithdrawal "withdrawal_initiated" 30 /\ lock_duration r = 30).
Proof.
  intros w t_check t_lock user_id amount. simpl. unfold withdraw_money.
  destruct (check_lock (service w) t_check user_id) as [svc1|e] eqn:L; simpl.
  - apply check_lock_Return in L as (Ht & Hm & Hl & _).
    split; [reflexivity|]. split; [exact Ht|]. split; [exact Hm|]. split.
    + intros other Hne. rewrite lookup_insert_ne, Hl by congruence.
      now rewrite lookup_delete_ne by congruence.
    + intros r [= <-]. split; reflexivity.
  - split; [reflexivity|]. split; [reflexivity|]. split; [reflexivity|].
    split; [reflexivity | discriminate].
Qed.

(** A withdrawal of 20 by user 1 in [stakes_world]: the tables are those of
    [stakes_db], user 2 has no lock, the acknowledgment says 30. *)
Lemma withdraw_money_frame_witness :
  db (run (WithdrawMoney 5 5 1 20) stakes_world) = stakes_db
  /\ locked_users (service (run (WithdrawMoney 5 5 1 20) stakes_world)) !! 2 = None
  /\ lock_duration (mkWithdrawal "withdrawal_initiated" 30) = 30.
Proof.
  destruct (withdraw_money_frame stakes_world 5 5 1 20) as (Hdb & _ & _ & Hl & Hr).
  split; [exact Hdb|]. split.
  - rewrite (Hl 2) by lia. reflexivity.
  - exact (proj2 (Hr _ eq_refl)).
Defined.

(** ** Resolving an event *)

Lemma paid_out_cons (event_id : Z) (actual_result : string) (b : Bet.t)
    (bs : list Bet.t) (dep : float) :
  paid_out event_id actual_result (b :: bs) dep
  = paid_out event_id actual_result bs
      (if wins event_id actual_result b
       then PrimFloat.sub dep (payout_of b) else dep).
Proof. reflexivity. Qed.

Lemma credit_user_cons (event_id : Z) (actual_result : string) (user_id : Z)
    (b : Bet.t) (bs : list Bet.t) (u : User.t) :
  credit_user event_id actual_result user_id (b :: bs) (Some u)
  = credit_user event_id actual_result user_id bs
      (Some (if wins event_id actual_result b && (Bet.user_id b =? user_id)%Z
             then User.set_balance u (PrimFloat.add (User.balance u) (payout_of b))
             else u)).
Proof.
  unfold credit_user, credited. simpl.
  destruct (wins event_id actual_result b && (Bet.user_id b =? user_id)%Z);
    reflexivity.
Qed.

Lemma credit_user_nil (event_id : Z) (actual_result : string) (user_id : Z)
    (u : option User.t) :
  credit_user event_id actual_result user_id [] u = u.
Proof. destruct u as [[]|]; reflexivity. Qed.

Lemma resolve_bets_spec (clock : nat -> time) (event_id : Z) (actual_result : string)
    (bs : list Bet.t) :
  forall (i : nat) (us : gmap Z User.t) (deposit : float),
    winners_exist event_id actual_result bs us ->
    exists bs' us',
      resolve_bets clock event_id actual_result i bs us deposit
      = (Py.Return (bs', us'), paid_out event_id actual_result bs deposit)
      /\ Forall2 (settled event_id actual_result) bs bs'
      /\ forall user_id,
           us' !! user_id
           = credit_user event_id actual_result user_id bs (us !! user_id).
Proof.
  induction bs as [|b bs IH]; intros i us deposit Hw.
  - exists [], us. split; [reflexivity|]. split; [constructor|].
    intros user_id. now rewrite credit_user_nil.
  - assert (forall us1, (forall k, is_Some (us !! k) -> is_Some (us1 !! k)) ->
                        winners_exist event_id actual_result bs us1) as Hrest.
    { intros us1 Hdom b1 Hin Hwin.
      destruct (Hw b1 (or_intror Hin) Hwin) as [u Hu].
      destruct (Hdom (Bet.user_id b1) (ex_intro _ u Hu)) as [u1 Hu1]. eauto. }
    rewrite paid_out_cons. cbn [resolve_bets].
    pose proof (Hw b (or_introl eq_refl)) as Hb. unfold wins in Hb |- *.
    destruct (Bet.event_id b =? event_id)%Z eqn:Ee; cbn [negb andb] in *.
    + destruct (String.eqb (Bet.predicted_outcome b) actual_result) eqn:Eo.
      * destruct (Hb eq_refl) as [u Hu]. rewrite Hu.
        destruct (IH (S i) (<[Bet.user_id b :=
                                User.set_balance u
                                  (PrimFloat.add (User.balance u) (payout_of b))]> us)
                     (PrimFloat.sub deposit (payout_of b)))
          as (bs' & us' & Hrun & Hset & Hus).
        { apply Hrest. intros k Hk.
          destruct (decide (Bet.user_id b = k)) as [->|Hne].
          - rewrite lookup_insert_eq. eauto.
          - now rewrite lookup_insert_ne. }
        unfold payout_of in Hrun at 1 2. rewrite Hrun.
        eexists (_ :: bs'), us'. split; [reflexivity|]. split.
        -- constructor; [|exact Hset]. unfold settled. rewrite Ee, Eo. simpl.
           repeat split. discriminate.
        -- intros user_id. rewrite Hus.
           destruct (decide (Bet.user_id b = user_id)) as [<-|Hne].
           ++ rewrite lookup_insert_eq, Hu, credit_user_cons.
              unfold wins. now rewrite Ee, Eo, Z.eqb_refl.
           ++ rewrite lookup_insert_ne by exact Hne.
              destruct (us !! user_id) as [u1|]; [|reflexivity].
              rewrite credit_user_cons. unfold wins. rewrite Ee, Eo.
              assert ((Bet.user_id b =? user_id)%Z = false) as -> by lia.
              reflexivity.
      * destruct (IH (S i) us deposit) as (bs' & us' & Hrun & Hset & Hus).
        { apply Hrest. auto. }
        rewrite Hrun. eexists (_ :: bs'), us'. split; [reflexivity|]. split.
        -- constructor; [|exact Hset]. unfold settled. rewrite Ee, Eo. simpl.
           repeat split. discriminate.
        -- intros user_id. rewrite Hus.
           destruct (us !! user_id) as [u1|]; [|reflexivity].
           rewrite credit_user_cons. unfold wins. now rewrite Ee, Eo.
    + destruct (IH i us deposit) as (bs' & us' & Hrun & Hset & Hus).
      { apply Hrest. auto. }
      rewrite Hrun. eexists (_ :: bs'), us'. split; [reflexivity|]. split.
      -- constructor; [|exact Hset]. unfold settled. now rewrite Ee.
      -- intros user_id. rewrite Hus.
         destruct (us !! user_id) as [u1|]; [|reflexivity].
         rewrite credit_user_cons. unfold wins. now rewrite Ee.
Qed.

Lemma settled_lookup (event_id : Z) (actual_result : string)
    (bs bs' : list Bet.t) (i : nat) (b : Bet.t) :
  Forall2 (settled event_id actual_result) bs bs' ->
  bs !! i = Some b ->
  exists b', bs' !! i = Some b' /\ settled event_id actual_result b b'.
Proof.
  intros H. revert i. induction H as [|x y l l' Hxy Hl IH]; intros i Hi.
  - destruct i; discriminate.
  - destruct i as [|i]; simpl in *.
    + injection Hi as <-. eauto.
    + apply IH, Hi.
Qed.

(** The foreign key is kept by every call, so the winners of any event
    exist in every state the calls can reach from an empty database. *)
Lemma bets_have_users_winners (d : Database) (event_id : Z) (actual_result : string) :
  bets_have_users d -> winners_exist event_id actual_result (bets d) (users d).
Proof. intros H b Hin _. exact (H b Hin). Qed.

Lemma settled_In (event_id : Z) (actual_result : string) (bs bs' : list Bet.t)
    (b' : Bet.t) :
  Forall2 (settled event_id actual_result) bs bs' -> In b' bs' ->
  exists b, In b bs /\ Bet.user_id b' = Bet.user_id b.
Proof.
  intros H. induction H as [|x y l l' Hxy _ IH]; intros Hin; [destruct Hin|].
  destruct Hin as [<-|Hin].
  - exists x. split; [now left|]. unfold settled in Hxy.
    destruct (Bet.event_id x =? event_id)%Z; [tauto | now subst].
  - destruct (IH Hin) as (b & Hb & Hu). exists b. split; [now right | exact Hu].
Qed.

Lemma run_keeps_bets_have_users (c : call) (w : World) :
  bets_have_users (db w) -> bets_have_users (db (run c w)).
Proof.
  intros Hri.
  destruct c as [now user_id ev amount outcome | clock ev actual_result
                | t_check t_lock user_id amount | now user_id | user_id amount];
    cbn [run db]; try exact Hri.
  - destruct (place_bet (service w) (db w) now user_id ev amount outcome)
      as [[[bet|err] d'] svc'] eqn:P; cbn [db].
    + apply place_bet_Return in P
        as (svc1 & user & event & odd & _ & U & _ & _ & _ & _ & _ & Hbet & -> & _).
      intros b Hin. simpl in Hin |- *. apply in_app_iff in Hin as [Hin|[<-|[]]].
      * destruct (Hri b Hin) as [u Hu].
        destruct (decide (user_id = Bet.user_id b)) as [->|Hne].
        -- rewrite lookup_insert_eq. eauto.
        -- rewrite lookup_insert_ne by exact Hne. eauto.
      * subst bet. simpl. rewrite lookup_insert_eq. eauto.
    + now apply place_bet_Raise in P as (-> & _).
  - unfold resolve_event.
    destruct (events (db w) !! ev) as [event|]; [|exact Hri].
    destruct (resolve_bets_spec clock ev actual_result (bets (db w)) 0
                (users (db w)) (total_service_deposit (service w))
                (bets_have_users_winners _ _ _ Hri))
      as (bs' & us' & -> & Hset & Hus).
    cbn [db]. intros b' Hin. simpl in Hin |- *.
    destruct (settled_In _ _ _ _ _ Hset Hin) as (b & Hb & ->).
    destruct (Hri b Hb) as [u Hu]. rewrite Hus, Hu. simpl. eauto.
  - unfold deposit_funds. destruct (PrimFloat.leb amount 0); [exact Hri|].
    destruct (users (db w) !! user_id) as [user|] eqn:U; [|exact Hri].
    intros b Hin. simpl in Hin |- *.
    destruct (Hri b Hin) as [u Hu].
    destruct (decide (user_id = Bet.user_id b)) as [->|Hne].
    + rewrite lookup_insert_eq. eauto.
    + rewrite lookup_insert_ne by exact Hne. eauto.
Qed.

Lemma run_all_keeps_bets_have_users (cs : list call) (w : World) :
  bets_have_users (db w) -> bets_have_users (db (run_all cs w)).
Proof.
  revert w. induction cs as [|c cs IH]; intros w H; [exact H|].
  apply (IH (run c w)), run_keeps_bets_have_users, H.
Qed.

(** The margin is the 0.05 of [__init__] for ever. *)
Lemma run_keeps_margin (c : call) (w : World) :
  bookie_margin (service (run c w)) = bookie_margin (service w).
Proof.
  destruct c as [now user_id ev amount outcome | clock ev actual_result
                | t_check t_lock user_id amount | now user_id | user_id amount];
    cbn [run service].
  - destruct (place_bet (service w) (db w) now user_id ev amount outcome)
      as [[[bet|err] d'] svc'] eqn:P; cbn [service].
    + apply place_bet_Return in P
        as (svc1 & user & event & odd & L & _ & _ & _ & _ & _ & _ & _ & _ & ->).
      now apply check_lock_Return in L as (_ & Hm & _).
    + now apply place_bet_Raise in P as (_ & _ & Hm).
  - unfold resolve_event. destruct (events (db w) !! ev); [|reflexivity].
    now destruct (resolve_bets _ _ _ _ _ _ _) as [[[bs' us']|err] d'].
  - unfold withdraw_money.
    destruct (check_lock (service w) t_check user_id) as [svc1|e] eqn:L;
      [|reflexivity].
    now apply check_lock_Return in L as (_ & Hm & _).
  - unfold get_user_lock_status.
    destruct (locked_users (service w) !! user_id) as [t|]; [|reflexivity].
    now destruct (t <=? now).
  - reflexivity.
Qed.



(** ** The life of an event *)

(** Whatever [resolve_bets] returns, row by row. *)
Lemma resolve_bets_Return (clock : nat -> time) (event_id : Z) (actual_result : string)
    (bs : list Bet.t) :
  forall (i : nat) (us : gmap Z User.t) (deposit : float) bs' us' deposit',
    resolve_bets clock event_id actual_result i bs us deposit
    = (Py.Return (bs', us'), deposit') ->
    Forall2 (settled event_id actual_result) bs bs'.
Proof.
  induction bs as [|b bs IH]; intros i us deposit bs' us' deposit'; cbn [resolve_bets].
  - intros [= <- _ _]. constructor.
  - destruct (Bet.event_id b =? event_id)%Z eqn:Ee; cbn [negb].
    + destruct (String.eqb (Bet.predicted_outcome b) actual_result) eqn:Eo.
      * destruct (us !! Bet.user_id b) as [u|]; [|discriminate].
        destruct (resolve_bets _ _ _ _ bs _ _) as [[[rest' us1]|e] d1] eqn:R;
          [|discriminate].
        intros [= <- _ _]. constructor; [|exact (IH _ _ _ _ _ _ R)].
        unfold settled. rewrite Ee, Eo. simpl. repeat split. discriminate.
      * destruct (resolve_bets _ _ _ _ bs _ _) as [[[rest' us1]|e] d1] eqn:R;
          [|discriminate].
        intros [= <- _ _]. constructor; [|exact (IH _ _ _ _ _ _ R)].
        unfold settled. rewrite Ee, Eo. simpl. repeat split. discriminate.
    + destruct (resolve_bets _ _ _ _ bs _ _) as [[[rest' us1]|e] d1] eqn:R;
        [|discriminate].
      intros [= <- _ _]. constructor; [|exact (IH _ _ _ _ _ _ R)].
      unfold settled. now rewrite Ee.
Qed.

(** Resolving one event leaves the bets of another as they are. *)
Lemma settled_other_event (event_id other : Z) (actual_result : string)
    (bs bs' : list Bet.t) :
  other <> event_id ->
  Forall2 (settled event_id actual_result) bs bs' ->
  List.filter (fun b => Z.eqb (Bet.event_id b) other) bs'
  = List.filter (fun b => Z.eqb (Bet.event_id b) other) bs.
Proof.
  intros Hne H. induction H as [|b b' bs bs' Hs _ IH]; [reflexivity|].
  simpl. rewrite IH. unfold settled in Hs.
  destruct (Bet.event_id b =? event_id)%Z eqn:Ee.
  - destruct Hs as (_ & _ & He & _). rewrite He.
    apply Z.eqb_eq in Ee. rewrite Ee.
    assert ((event_id =? other)%Z = false) as -> by lia. reflexivity.
  - now subst b'.
Qed.

Lemma run_keeps_resolved (c : call) (w : World) (event_id : Z) (e : Event.t) :
  events (db w) !! event_id = Some e ->
  Event.is_active e = false -> Event.is_finished e = true ->
  exists e',
    events (db (run c w)) !! event_id = Some e'
    /\ Event.is_active e' = false /\ Event.is_finished e' = true
    /\ (resolves event_id c = false ->
        e' = e /\ select_bets (db (run c w)) event_id = select_bets (db w) event_id).
Proof.
  intros Ev Ha Hf.
  assert (forall db', db' = db w ->
            exists e', events db' !! event_id = Some e'
                       /\ Event.is_active e' = false /\ Event.is_finished e' = true
                       /\ (resolves event_id c = false ->
                           e' = e /\ select_bets db' event_id
                                     = select_bets (db w) event_id)) as Hsame.
  { intros db' ->. exists e. repeat split; assumption. }
  destruct c as [now user_id ev2 amount outcome | clock ev2 actual_result
                | t_check t_lock user_id amount | now user_id | user_id amount];
    cbn [run db].
  - destruct (place_bet (service w) (db w) now user_id ev2 amount outcome)
      as [[[bet|err] db'] svc'] eqn:P; cbn [db].
    + apply place_bet_Return in P
        as (svc1 & user & event & odd & _ & _ & _ & Ev2 & A2 & _ & _ & Hbet & -> & _).
      exists e. simpl. repeat split; try assumption.
      unfold select_bets. simpl. rewrite List.filter_app. simpl.
      assert (ev2 <> event_id) as Hne by (intros ->; congruence).
      subst bet. simpl.
      assert ((ev2 =? event_id)%Z = false) as -> by lia.
      apply app_nil_r.
    + apply place_bet_Raise in P as (-> & _). now apply Hsame.
  - unfold resolve_event.
    destruct (events (db w) !! ev2) as [event2|] eqn:Ev2; [|now apply Hsame].
    destruct (resolve_bets clock ev2 actual_result 0 (bets (db w)) (users (db w))
                (total_service_deposit (service w)))
      as [[[bs' us']|err] d'] eqn:R; cbn [db]; [|now apply Hsame].
    apply resolve_bets_Return in R. simpl.
    destruct (decide (ev2 = event_id)) as [->|Hne].
    + rewrite lookup_insert_eq. eexists. split; [reflexivity|]. simpl.
      split; [reflexivity|]. split; [reflexivity|].
      rewrite Z.eqb_refl. discriminate.
    + rewrite lookup_insert_ne by exact Hne. exists e.
      repeat split; try assumption.
      unfold select_bets. simpl.
      apply (settled_other_event ev2 event_id actual_result); [congruence | exact R].
  - now apply Hsame.
  - now apply Hsame.
  - unfold deposit_funds. destruct (PrimFloat.leb amount 0); [now apply Hsame|].
    destruct (users (db w) !! user_id); [|now apply Hsame].
    simpl. exists e. repeat split; assumption.
Qed.

Lemma place_bet_finished (svc : BettingService) (d : Database) (now : time)
    (user_id event_id : Z) (amount : float) (outcome : string) (e : Event.t) :
  events d !! event_id = Some e ->
  Event.is_finished e = true ->
  exists err svc',
    place_bet svc d now user_id event_id amount outcome = (Py.Raise err, d, svc').
Proof.
  intros Ev Hf.
  destruct (place_bet svc d now user_id event_id amount outcome)
    as [[[bet|err] d'] svc'] eqn:P.
  - apply place_bet_Return in P
      as (svc1 & user & event & odd & _ & _ & _ & Ev2 & _ & F2 & _).
    congruence.
  - pose proof P as P'. apply place_bet_Raise in P' as (-> & _). eauto.
Qed.

(** C3, as the code has it.  An event that is inactive and finished stays
    inactive and finished under every sequence of calls ([place_bet],
    [resolve_event], [withdraw_money], [get_user_lock_status], deposits);
    [place_bet] on it raises and changes no table; and as long as no
    [resolve_event] is applied to it again, its row (the result included)
    and the rows of its bets are unchanged. *)
Theorem resolved_event_stays :
  forall (cs : list call) (w : World) (event_id : Z) (e : Event.t),
    events (db w) !! event_id = Some e ->
    Event.is_active e = false ->
    Event.is_finished e = true ->
    (exists e',
        events (db (run_all cs w)) !! event_id = Some e'
        /\ Event.is_active e' = false /\ Event.is_finished e' = true)
    /\ (existsb (resolves event_id) cs = false ->
        events (db (run_all cs w)) !! event_id = Some e
        /\ select_bets (db (run_all cs w)) event_id = select_bets (db w) event_id)
    /\ (forall now user_id amount outcome,
          exists err svc',
            place_bet (service w) (db w) now user_id event_id amount outcome
            = (Py.Raise err, db w, svc')).
Proof.
  intros cs w event_id e Ev Ha Hf.
  split; [|split].
  - revert w e Ev Ha Hf. induction cs as [|c cs IH]; intros w e Ev Ha Hf.
    + exists e. repeat split; assumption.
    + destruct (run_keeps_resolved c w event_id e Ev Ha Hf)
        as (e1 & Ev1 & Ha1 & Hf1 & _).
      exact (IH (run c w) e1 Ev1 Ha1 Hf1).
  - revert w Ev. induction cs as [|c cs IH]; intros w Ev Hno.
    + split; [exact Ev | reflexivity].
    + simpl in Hno. apply orb_false_iff in Hno as (Hc & Hcs).
      destruct (run_keeps_resolved c w event_id e Ev Ha Hf)
        as (e1 & Ev1 & _ & _ & Hsame).
      destruct (Hsame Hc) as (-> & Hb).
      destruct (IH (run c w) Ev1 Hcs) as (He & Hbs).
      split; [exact He|].
      change (run_all (c :: cs) w) with (run_all cs (run c w)).
      rewrite Hbs. exact Hb.
  - intros now user_id amount outcome.
    exact (place_bet_finished _ _ _ _ _ _ _ _ Ev Hf).
Qed.

(** After the resolution of event 1: a bet on it, a deposit, a withdrawal
    and the resolution of an event that does not exist leave its row and its
    bets as they are. *)
Lemma resolved_event_stays_witness :
  let cs := [PlaceBet 7300000000 2 1 50 "draw"; DepositFunds 1 25;
             WithdrawMoney 7300000001 7300000001 1 10;
             ResolveEvent sample_clock 2 "draw"] in
  events (db (run_all cs resolved_world)) !! 1 = Some resolved_event
  /\ select_bets (db (run_all cs resolved_world)) 1
     = select_bets (db resolved_world) 1.
Proof.
  intros cs.
  exact (proj1 (proj2 (resolved_event_stays cs resolved_world 1 resolved_event
                         eq_refl eq_refl eq_refl)) eq_refl).
Defined.

(** C3 as stated fails: [resolve_event] has no check for a finished event.
    On the resolved event 1 a second [resolve_event] returns; with another
    result it replaces the stored result, and with the same result it pays
    ann's winning bet once more (her balance goes from 200 to 400). *)
Lemma resolve_event_twice :
  let again := run (ResolveEvent sample_clock 1 "team_a_won") resolved_world in
  let other := run (ResolveEvent sample_clock 1 "team_b_won") resolved_world in
  events (db resolved_world) !! 1 = Some resolved_event
  /\ fst (fst (resolve_event (service resolved_world) (db resolved_world)
                 sample_clock 1 "team_b_won")) = Py.Return tt
  /\ (exists e, events (db other) !! 1 = Some e
                /\ Event.result e = Some "team_b_won"
                /\ Event.result e <> Event.result resolved_event)
  /\ (exists u, users (db resolved_world) !! 1 = Some u
                /\ User.balance u = 200%float)
  /\ (exists u, users (db again) !! 1 = Some u /\ User.balance u = 400%float).
Proof.
  intros again other.
  split; [reflexivity|]. split; [reflexivity|]. split; [|split].
  - eexists. split; [reflexivity|]. split; [reflexivity | discriminate].
  - eexists. split; reflexivity.
  - eexists. split; reflexivity.
Qed.

(** ** The token check *)

Section AuthFacts.

Variable token : Type.
Variable jwt_decode :
  time -> token -> string -> list string -> Py.result (Py.dict Py.value).




End AuthFacts.







(** ** The admin dashboard *)

(** In a module that binds the name, the handler returns the summary: the
    numbers of users, events and bets, the sums of the balances and of the
    [total_deposited] values, and the engine's analytics. *)
Lemma dashboard_when_bound (globals : list string) (d : Database)
    (svc : BettingService) :
  In "sqlalchemy" globals ->
  get_admin_dashboard_in globals d svc = Py.Return (dashboard_summary d svc).
Proof.
  intros Hin. unfold get_admin_dashboard_in, load_global.
  assert (existsb (String.eqb "sqlalchemy") globals = true) as ->; [|reflexivity].
  apply existsb_exists. exists "sqlalchemy". split; [exact Hin | reflexivity].
Qed.

(** C9, on the code: the module never binds [sqlalchemy], so for every
    storage state and engine the handler raises [NameError] at its first
    statement and returns no summary. *)
Theorem get_admin_dashboard_raises :
  forall (d : Database) (svc : BettingService),
    get_admin_dashboard d svc
    = Py.Raise (Py.NameError "name 'sqlalchemy' is not defined").
Proof. intros d svc. reflexivity. Qed.

(** * Further properties *)

(** ** What the calls do to the tables *)

(** Whatever [resolve_bets] returns, user by user. *)
Lemma resolve_bets_Return_users (clock : nat -> time) (event_id : Z)
    (actual_result : string) (bs : list Bet.t) :
  forall (i : nat) (us : gmap Z User.t) (deposit : float) bs' us' deposit',
    resolve_bets clock event_id actual_result i bs us deposit
    = (Py.Return (bs', us'), deposit') ->
    forall user_id,
      us' !! user_id
      = credit_user event_id actual_result user_id bs (us !! user_id).
Proof.
  induction bs as [|b bs IH]; intros i us deposit bs' us' deposit'; cbn [resolve_bets].
  - intros [= _ <- _] user_id. now rewrite credit_user_nil.
  - destruct (Bet.event_id b =? event_id)%Z eqn:Ee; cbn [negb].
    + destruct (String.eqb (Bet.predicted_outcome b) actual_result) eqn:Eo.
      * destruct (us !! Bet.user_id b) as [u|] eqn:Hu; [|discriminate].
        destruct (resolve_bets _ _ _ _ bs _ _) as [[[rest' us1]|e] d1] eqn:R;
          [|discriminate].
        intros [= _ <- _] user_id. rewrite (IH _ _ _ _ _ _ R user_id).
        destruct (decide (Bet.user_id b = user_id)) as [<-|Hne].
        -- rewrite lookup_insert_eq, Hu, credit_user_cons.
           unfold wins, payout_of. now rewrite Ee, Eo, Z.eqb_refl.
        -- rewrite lookup_insert_ne by exact Hne.
           destruct (us !! user_id) as [u1|]; [|reflexivity].
           rewrite credit_user_cons. unfold wins. rewrite Ee, Eo.
           assert ((Bet.user_id b =? user_id)%Z = false) as -> by lia.
           reflexivity.
      * destruct (resolve_bets _ _ _ _ bs _ _) as [[[rest' us1]|e] d1] eqn:R;
          [|discriminate].
        intros [= _ <- _] user_id. rewrite (IH _ _ _ _ _ _ R user_id).
        destruct (us !! user_id) as [u1|]; [|reflexivity].
        rewrite credit_user_cons. unfold wins. now rewrite Ee, Eo.
    + destruct (resolve_bets _ _ _ _ bs _ _) as [[[rest' us1]|e] d1] eqn:R;
        [|discriminate].
      intros [= _ <- _] user_id. rewrite (IH _ _ _ _ _ _ R user_id).
      destruct (us !! user_id) as [u1|]; [|reflexivity].
      rewrite credit_user_cons. unfold wins. now rewrite Ee.
Qed.

Lemma run_db_step (c : call) (w : World) : db_step (db w) (db (run c w)).
Proof.
  destruct c as [now user_id ev amount outcome | clock ev actual_result
                | t_check t_lock user_id amount | now user_id | user_id amount];
    cbn [run db]; try apply step_none.
  - destruct (place_bet (service w) (db w) now user_id ev amount outcome)
      as [[[bet|err] d'] svc'] eqn:P; cbn [db].
    + apply place_bet_Return in P
        as (svc1 & user & event & odd & _ & U & B & Ev & A & F & O & -> & -> & _).
      exact (step_place _ _ _ _ _ _ _ _ _ U B Ev A F O).
    + apply place_bet_Raise in P as (-> & _). apply step_none.
  - unfold resolve_event.
    destruct (events (db w) !! ev) as [event|] eqn:Ev; [|apply step_none].
    destruct (resolve_bets clock ev actual_result 0 (bets (db w)) (users (db w))
                (total_service_deposit (service w)))
      as [[[bs' us']|err] d'] eqn:R; cbn [db]; [|apply step_none].
    apply (step_resolve _ _ _ _ _ _ Ev).
    + exact (resolve_bets_Return _ _ _ _ _ _ _ _ _ _ R).
    + exact (resolve_bets_Return_users _ _ _ _ _ _ _ _ _ _ R).
  - unfold deposit_funds.
    destruct (PrimFloat.leb amount 0) eqn:L; [apply step_none|].
    destruct (users (db w) !! user_id) as [user|] eqn:U; [|apply step_none].
    exact (step_deposit _ _ _ _ L U).
Qed.

(** A property of the tables that every commit keeps holds after every
    sequence of calls. *)
Lemma run_all_db_invariant (P : Database -> Prop) :
  (forall d d', db_step d d' -> P d -> P d') ->
  forall (cs : list call) (w : World), P (db w) -> P (db (run_all cs w)).
Proof.
  intros Hstep cs. induction cs as [|c cs IH]; intros w Hw; [exact Hw|].
  apply (IH (run c w)), (Hstep (db w)); [apply run_db_step | exact Hw].
Qed.

(** A settled row keeps its placement. *)
Lemma settled_placed_alike (event_id : Z) (actual_result : string) (b b' : Bet.t) :
  settled event_id actual_result b b' -> placed_alike b b'.
Proof.
  unfold settled, placed_alike.
  destruct (Bet.event_id b =? event_id)%Z.
  - intros (H1 & H2 & H3 & H4 & H5 & H6 & _). repeat split; assumption.
  - intros ->. repeat split.
Qed.

Lemma Forall2_In_r {A B : Type} (R : A -> B -> Prop) (l : list A) (l' : list B)
    (y : B) :
  Forall2 R l l' -> In y l' -> exists x, In x l /\ R x y.
Proof.
  intros H. induction H as [|x0 y0 l l' Hxy _ IH]; intros Hin; [destruct Hin|].
  destruct Hin as [<-|Hin].
  - exists x0. split; [now left | exact Hxy].
  - destruct (IH Hin) as (x & Hx & Hr). exists x. split; [now right | exact Hr].
Qed.

Lemma get_In_dict {V : Type} (d : Py.dict V) (k : string) (v : V) :
  Py.get k d = Some v -> In (k, v) d.
Proof.
  induction d as [|[k' v'] d IH]; simpl; [discriminate|].
  destruct (String.eqb k k') eqn:E.
  - apply String.eqb_eq in E. intros [= ->]. subst. now left.
  - intros H. right. auto.
Qed.

(** ** Invariants of the tables *)

Lemma db_step_foreign_keys (d d' : Database) :
  db_step d d' ->
  bets_have_users d /\ bets_have_events d ->
  bets_have_users d' /\ bets_have_events d'.
Proof.
  intros Hstep [Hu He].
  destruct Hstep as [| margin user_id event_id amount outcome user event odd U B Ev A F O
                     | event_id actual_result event bs' us' Ev Hset Hus
                     | user_id amount user L U].
  - split; assumption.
  - split; intros b Hin; simpl in Hin |- *;
      apply in_app_iff in Hin as [Hin|[<-|[]]].
    + destruct (Hu b Hin) as [u Hb].
      destruct (decide (user_id = Bet.user_id b)) as [->|Hne].
      * rewrite lookup_insert_eq. eauto.
      * rewrite lookup_insert_ne by exact Hne. eauto.
    + simpl. rewrite lookup_insert_eq. eauto.
    + exact (He b Hin).
    + simpl. eauto.
  - split; intros b' Hin; simpl in Hin |- *;
      destruct (Forall2_In_r _ _ _ _ Hset Hin) as (b & Hb & Hs);
      apply settled_placed_alike in Hs as (_ & Hbu & Hbe & _).
    + rewrite Hbu, Hus. destruct (Hu b Hb) as [u ->]. simpl. eauto.
    + rewrite Hbe. destruct (He b Hb) as [e Hbev].
      destruct (decide (event_id = Bet.event_id b)) as [->|Hne].
      * rewrite lookup_insert_eq. eauto.
      * rewrite lookup_insert_ne by exact Hne. eauto.
  - split; [|exact He]. intros b Hin. simpl in Hin |- *.
    destruct (Hu b Hin) as [u Hb].
    destruct (decide (user_id = Bet.user_id b)) as [->|Hne].
    + rewrite lookup_insert_eq. eauto.
    + rewrite lookup_insert_ne by exact Hne. eauto.
Qed.

(** X1. The two foreign keys of the bets table are invariants: when every
    stored bet belongs to a stored user and to a stored event, it is so
    after every sequence of calls; no call deletes a user or an event, and
    [place_bet] stores a bet only after it has found both. *)
Theorem foreign_keys_kept :
  forall (cs : list call) (w : World),
    bets_have_users (db w) -> bets_have_events (db w) ->
    bets_have_users (db (run_all cs w)) /\ bets_have_events (db (run_all cs w)).
Proof.
  intros cs w Hu He.
  apply (run_all_db_invariant (fun d => bets_have_users d /\ bets_have_events d)).
  - exact db_step_foreign_keys.
  - split; assumption.
Qed.

(** From the two registered users: bets, a deposit and a resolution. *)
Lemma foreign_keys_kept_witness :
  let cs := [PlaceBet 0 1 1 100 "team_a_won"; DepositFunds 2 200;
             PlaceBet 1000000 2 1 300 "team_b_won";
             ResolveEvent sample_clock 1 "team_a_won"] in
  let w := mkWorld registered_db init_service in
  bets_have_users (db (run_all cs w)) /\ bets_have_events (db (run_all cs w)).
Proof.
  intros cs w. apply foreign_keys_kept; intros b [].
Defined.

Lemma standard_outcome_default (k : string) (v : float) :
  default_odd k = Some v -> standard_outcome k = true.
Proof.
  unfold default_odd, standard_outcome.
  destruct (String.eqb k "team_a_won"); [reflexivity|].
  destruct (String.eqb k "team_b_won"); [reflexivity|].
  destruct (String.eqb k "draw"); [reflexivity | discriminate].
Qed.

Lemma has_outcome_In (bets : list Bet.t) (k : string) :
  has_outcome bets k = true ->
  exists b, In b bets /\ Bet.predicted_outcome b = k.
Proof.
  unfold has_outcome. intros H. apply existsb_exists in H as (b & Hin & E).
  apply String.eqb_eq in E. eauto.
Qed.

(** A key of the odds of an event is a standard outcome or the outcome of
    a bet already placed on the event. *)
Lemma odds_key (margin : float) (d : Database) (event_id : Z) (k : string) (v : float) :
  Py.get k (odds_of_bets margin (select_bets d event_id)) = Some v ->
  standard_outcome k = true
  \/ exists b, In b (bets d) /\ Bet.event_id b = event_id
               /\ Bet.predicted_outcome b = k.
Proof.
  rewrite get_odds_of_bets.
  destruct (has_outcome (select_bets d event_id) k) eqn:H.
  - intros _. right. apply has_outcome_In in H as (b & Hin & Hk).
    unfold select_bets in Hin. apply filter_In in Hin as (Hin & He).
    exists b. repeat split; [exact Hin | lia | exact Hk].
  - intros Hd. left. exact (standard_outcome_default k v Hd).
Qed.

Lemma db_step_standard (d d' : Database) :
  db_step d d' -> bets_standard d -> bets_standard d'.
Proof.
  intros Hstep Hs.
  destruct Hstep as [| margin user_id event_id amount outcome user event odd U B Ev A F O
                     | event_id actual_result event bs' us' Ev Hset Hus
                     | user_id amount user L U].
  - exact Hs.
  - intros b Hin. simpl in Hin. apply in_app_iff in Hin as [Hin|[<-|[]]].
    + exact (Hs b Hin).
    + simpl. destruct (odds_key _ _ _ _ _ O) as [H|(b & Hb & _ & <-)];
        [exact H | exact (Hs b Hb)].
  - intros b' Hin. simpl in Hin.
    destruct (Forall2_In_r _ _ _ _ Hset Hin) as (b & Hb & Hsb).
    apply settled_placed_alike in Hsb as (_ & _ & _ & _ & _ & ->).
    exact (Hs b Hb).
  - exact Hs.
Qed.

(** X2. Bets are only ever taken on [team_a_won], [team_b_won] and [draw]:
    when the stored bets name no other outcome, then after every sequence
    of calls they still name no other, and [place_bet] with any other
    outcome, on any event and for any user and amount, raises and leaves the
    tables as they are.  The outcome codes of tennis ([player1], [player2])
    and [overtime] can therefore never be bet on. *)
Theorem only_standard_outcomes :
  forall (cs : list call) (w : World),
    bets_standard (db w) ->
    let w' := run_all cs w in
    bets_standard (db w')
    /\ forall now user_id event_id amount outcome,
         standard_outcome outcome = false ->
         exists err svc',
           place_bet (service w') (db w') now user_id event_id amount outcome
           = (Py.Raise err, db w', svc').
Proof.
  intros cs w Hs w'.
  assert (bets_standard (db w')) as Hs'.
  { exact (run_all_db_invariant bets_standard db_step_standard cs w Hs). }
  split; [exact Hs'|].
  intros now user_id event_id amount outcome Hk.
  destruct (place_bet (service w') (db w') now user_id event_id amount outcome)
    as [[[bet|err] d'] svc'] eqn:P.
  - apply place_bet_Return in P
      as (svc1 & user & event & odd & _ & _ & _ & _ & _ & _ & O & _).
    unfold calculate_odds_based_on_bets in O.
    destruct (odds_key _ _ _ _ _ O) as [H|(b & Hb & _ & Hbk)].
    + congruence.
    + pose proof (Hs' b Hb) as H. rewrite Hbk in H. congruence.
  - pose proof P as P'. apply place_bet_Raise in P' as (-> & _). eauto.
Qed.

(** After the two bets of [stakes_world], a bet on [player1] is refused
    for its outcome (an amount of 0 passes the balance check of ann, who
    has nothing left). *)
Lemma only_standard_outcomes_witness :
  exists err svc',
    place_bet (service stakes_world) (db stakes_world) 2000000 1 1 0 "player1"
    = (Py.Raise err, db stakes_world, svc')
    /\ err = Py.Exception "Invalid outcome: player1".
Proof.
  assert (bets_standard (db (mkWorld registered_db init_service))) as H0.
  { intros b []. }
  destruct (only_standard_outcomes
              [PlaceBet 0 1 1 100 "team_a_won"; DepositFunds 2 200;
               PlaceBet 1000000 2 1 300 "team_b_won"]
              (mkWorld registered_db init_service) H0) as (_ & Hrefuse).
  destruct (Hrefuse 2000000 1 1 0%float "player1" eq_refl) as (err & svc' & H).
  exists err, svc'. split; [exact H|].
  vm_compute in H. injection H as <- _. reflexivity.
Defined.

Lemma db_step_floor (d d' : Database) :
  db_step d d' -> bets_floor d -> bets_floor d'.
Proof.
  intros Hstep Hf.
  destruct Hstep as [| margin user_id event_id amount outcome user event odd U B Ev A F O
                     | event_id actual_result event bs' us' Ev Hset Hus
                     | user_id amount user L U].
  - exact Hf.
  - intros b Hin. simpl in Hin. apply in_app_iff in Hin as [Hin|[<-|[]]].
    + exact (Hf b Hin).
    + simpl. apply get_In_dict in O.
      pose proof (odds_of_bets_floor margin (select_bets d event_id)) as H.
      rewrite List.Forall_forall in H. exact (H _ O).
  - intros b' Hin. simpl in Hin.
    destruct (Forall2_In_r _ _ _ _ Hset Hin) as (b & Hb & Hsb).
    apply settled_placed_alike in Hsb as (_ & _ & _ & _ & -> & _).
    exact (Hf b Hb).
  - exact Hf.
Qed.

(** X3. Every bet [place_bet] returns carries odds that are not below 1.1,
    whatever the stakes on the event and the amount; and when no stored bet
    has odds below 1.1, none has after any sequence of calls (a resolution
    pays with the odds the bet was placed at). *)
Theorem stored_odds_floor :
  (forall (svc : BettingService) (d : Database) (now : time)
          (user_id event_id : Z) (amount : float) (outcome : string)
          (bet : Bet.t) (d' : Database) (svc' : BettingService),
      place_bet svc d now user_id event_id amount outcome = (Py.Return bet, d', svc') ->
      Py.lt (Bet.odds bet) 1.1%float = false)
  /\ (forall (cs : list call) (w : World),
        bets_floor (db w) -> bets_floor (db (run_all cs w))).
Proof.
  split.
  - intros svc d now user_id event_id amount outcome bet d' svc' P.
    apply place_bet_Return in P
      as (svc1 & user & event & odd & _ & _ & _ & _ & _ & _ & O & -> & _).
    simpl. apply get_In_dict in O.
    pose proof (odds_of_bets_floor (bookie_margin svc) (select_bets d event_id)) as H.
    rewrite List.Forall_forall in H. exact (H _ O).
  - intros cs w. exact (run_all_db_invariant bets_floor db_step_floor cs w).
Qed.

(** A third bet on event 1 of [stakes_world], on the favourite. *)
Lemma stored_odds_floor_witness :
  exists bet d' svc',
    place_bet (service stakes_world) (db stakes_world) 2000000 2 1 0 "team_b_won"
    = (Py.Return bet, d', svc')
    /\ Py.lt (Bet.odds bet) 1.1%float = false.
Proof.
  destruct (place_bet (service stakes_world) (db stakes_world) 2000000 2 1 0
              "team_b_won") as [[[bet|err] d'] svc'] eqn:P;
    [|vm_compute in P; discriminate].
  exists bet, d', svc'. split; [reflexivity|].
  exact (proj1 stored_odds_floor _ _ _ _ _ _ _ _ _ _ P).
Defined.

(** One commit keeps the rows of the bets table in place, with their
    placement. *)
Lemma db_step_bets (d d' : Database) :
  db_step d d' ->
  forall (i : nat) b, bets d !! i = Some b ->
                      exists b', bets d' !! i = Some b' /\ placed_alike b b'.
Proof.
  assert (forall b, placed_alike b b) as Hrefl by (intros b; repeat split).
  intros Hstep i b Hi.
  destruct Hstep as [| margin user_id event_id amount outcome user event odd U B Ev A F O
                     | event_id actual_result event bs' us' Ev Hset Hus
                     | user_id amount user L U]; simpl.
  - eauto.
  - exists b. split; [|apply Hrefl]. rewrite lookup_app_l; [exact Hi|].
    now apply lookup_lt_Some in Hi.
  - destruct (settled_lookup _ _ _ _ _ _ Hset Hi) as (b' & Hi' & Hs).
    exists b'. split; [exact Hi' | exact (settled_placed_alike _ _ _ _ Hs)].
  - eauto.
Qed.

(** X4. The bets table is append-only and a placement is final: under every
    sequence of calls a stored bet stays at its row, with the same key,
    user, event, amount, odds and predicted outcome; only [is_won],
    [payout] and [resolved_at] of a row can change. *)
Theorem bets_append_only :
  forall (cs : list call) (w : World) (i : nat) (b : Bet.t),
    bets (db w) !! i = Some b ->
    exists b',
      bets (db (run_all cs w)) !! i = Some b'
      /\ Bet.id b' = Bet.id b /\ Bet.user_id b' = Bet.user_id b
      /\ Bet.event_id b' = Bet.event_id b /\ Bet.amount b' = Bet.amount b
      /\ Bet.odds b' = Bet.odds b
      /\ Bet.predicted_outcome b' = Bet.predicted_outcome b.
Proof.
  intros cs. induction cs as [|c cs IH]; intros w i b Hi.
  - exists b. repeat split. exact Hi.
  - destruct (db_step_bets _ _ (run_db_step c w) i b Hi)
      as (b1 & Hi1 & H1 & H2 & H3 & H4 & H5 & H6).
    destruct (IH (run c w) i b1 Hi1) as (b' & Hi' & G1 & G2 & G3 & G4 & G5 & G6).
    exists b'. split; [exact Hi'|].
    repeat split; congruence.
Qed.

(** ann's bet, row 0 of [stakes_world], after its event was resolved and a
    new bet was tried. *)
Lemma bets_append_only_witness :
  exists b',
    bets (db (run_all [ResolveEvent sample_clock 1 "team_a_won";
                       PlaceBet 7300000000 2 1 5 "draw"] stakes_world)) !! 0%nat
    = Some b'
    /\ Bet.amount b' = 100%float /\ Bet.odds b' = 2.0%float
    /\ Bet.predicted_outcome b' = "team_a_won".
Proof.
  destruct (bets_append_only
              [ResolveEvent sample_clock 1 "team_a_won";
               PlaceBet 7300000000 2 1 5 "draw"]
              stakes_world 0%nat (pending_bet 1 1 1 100 2.0 "team_a_won") eq_refl)
    as (b' & Hb' & _ & _ & _ & Ha & Ho & Hp).
  exists b'. repeat split; assumption.
Defined.

Lemma db_step_ids (d d' : Database) :
  db_step d d' -> ids_sequential d -> ids_sequential d'.
Proof.
  intros Hstep Hs.
  destruct Hstep as [| margin user_id event_id amount outcome user event odd U B Ev A F O
                     | event_id actual_result event bs' us' Ev Hset Hus
                     | user_id amount user L U]; simpl.
  - exact Hs.
  - intros i b Hi. simpl in Hi.
    destruct (decide (i < length (bets d))%nat) as [Hlt|Hge].
    + rewrite lookup_app_l in Hi by exact Hlt. exact (Hs i b Hi).
    + rewrite lookup_app_r in Hi by lia.
      destruct (i - length (bets d))%nat as [|n] eqn:E; [|destruct n; discriminate].
      injection Hi as <-. simpl. lia.
  - intros i b' Hi. simpl in Hi.
    assert (exists b, bets d !! i = Some b /\ settled event_id actual_result b b')
      as (b & Hb & Hsb).
    { clear -Hset Hi. revert i Hi.
      induction Hset as [|x y l l' Hxy _ IH]; intros i Hi; [destruct i; discriminate|].
      destruct i as [|i]; simpl in *.
      - injection Hi as <-. eauto.
      - exact (IH i Hi). }
    apply settled_placed_alike in Hsb as (-> & _). exact (Hs i b Hb).
  - exact Hs.
Qed.

(** X5. The keys of the bets count the rows: when the bet of row [i] has
    key [i + 1] (as in an empty table), it is so after every sequence of
    calls; two stored bets then never share a key, and the key [place_bet]
    returns is the new number of bets. *)
Theorem bet_ids_sequential :
  forall (cs : list call) (w : World),
    ids_sequential (db w) ->
    let d' := db (run_all cs w) in
    ids_sequential d'
    /\ (forall (i j : nat) b b',
          bets d' !! i = Some b -> bets d' !! j = Some b' ->
          Bet.id b = Bet.id b' -> i = j)
    /\ (forall svc now user_id event_id amount outcome bet d'' svc',
          place_bet svc d' now user_id event_id amount outcome
          = (Py.Return bet, d'', svc') ->
          Bet.id bet = Z.of_nat (length (bets d''))).
Proof.
  intros cs w Hs d'.
  assert (ids_sequential d') as Hs'.
  { exact (run_all_db_invariant ids_sequential db_step_ids cs w Hs). }
  split; [exact Hs'|]. split.
  - intros i j b b' Hi Hj E. apply Hs' in Hi, Hj. lia.
  - intros svc now user_id event_id amount outcome bet d'' svc' P.
    apply place_bet_Return in P
      as (svc1 & user & event & odd & _ & _ & _ & _ & _ & _ & _ & -> & -> & _).
    simpl. rewrite length_app. simpl. lia.
Qed.

Lemma bet_ids_sequential_witness :
  ids_sequential (db stakes_world).
Proof.
  assert (ids_sequential (db (mkWorld registered_db init_service))) as H0.
  { intros i b Hi. destruct i; discriminate. }
  exact (proj1 (bet_ids_sequential
                  [PlaceBet 0 1 1 100 "team_a_won"; DepositFunds 2 200;
                   PlaceBet 1000000 2 1 300 "team_b_won"]
                  (mkWorld registered_db init_service) H0)).
Defined.

(** ** The lock map *)

(** [place_bet] leaves the lock map alone or deletes the entry of its
    user. *)
Lemma place_bet_locks (svc : BettingService) (d : Database) (now : time)
    (user_id event_id : Z) (amount : float) (outcome : string) :
  let svc' := snd (place_bet svc d now user_id event_id amount outcome) in
  locked_users svc' = locked_users svc
  \/ locked_users svc' = delete user_id (locked_users svc).
Proof.
  unfold place_bet.
  destruct (check_lock svc now user_id) as [svc1|e] eqn:L; [|now left].
  apply check_lock_Return in L as (_ & _ & Hl & _). right.
  repeat match goal with
         | |- context [match ?x with _ => _ end] => destruct x
         end; exact Hl.
Qed.

Lemma run_keeps_unlocked (c : call) (w : World) (user_id : Z) :
  locked_users (service w) !! user_id = None ->
  withdraws user_id c = false ->
  locked_users (service (run c w)) !! user_id = None.
Proof.
  intros Hn Hc.
  destruct c as [now u ev amount outcome | clock ev actual_result
                | t_check t_lock u amount | now u | u amount];
    cbn [run service].
  - pose proof (place_bet_locks (service w) (db w) now u ev amount outcome) as H.
    destruct (place_bet (service w) (db w) now u ev amount outcome)
      as [[r d'] svc']. simpl in H |- *.
    destruct H as [-> | ->]; [exact Hn|].
    destruct (decide (u = user_id)) as [->|Hne];
      [apply lookup_delete_eq | now rewrite lookup_delete_ne].
  - unfold resolve_event. destruct (events (db w) !! ev); [|exact Hn].
    now destruct (resolve_bets _ _ _ _ _ _ _) as [[[bs' us']|err] d'].
  - simpl in Hc. unfold withdraw_money.
    destruct (check_lock (service w) t_check u) as [svc1|e] eqn:L; [|exact Hn].
    apply check_lock_Return in L as (_ & _ & Hl & _). simpl.
    rewrite lookup_insert_ne, Hl by lia. now rewrite lookup_delete_ne by lia.
  - unfold get_user_lock_status.
    destruct (locked_users (service w) !! u) as [t|]; [|exact Hn].
    destruct (t <=? now); [|exact Hn]. simpl.
    destruct (decide (u = user_id)) as [->|Hne];
      [apply lookup_delete_eq | now rewrite lookup_delete_ne].
  - exact Hn.
Qed.

(** X6. Only [withdraw_money] locks: a user without a lock entry has none
    after any sequence of calls that contains no withdrawal of this user,
    so that no [place_bet] of the user is then refused with the lock
    error. *)
Theorem lock_only_by_withdrawal :
  forall (cs : list call) (w : World) (user_id : Z),
    locked_users (service w) !! user_id = None ->
    existsb (withdraws user_id) cs = false ->
    let w' := run_all cs w in
    locked_users (service w') !! user_id = None
    /\ forall d now event_id amount outcome e d' svc',
         place_bet (service w') d now user_id event_id amount outcome
         = (Py.Raise e, d', svc') ->
         e <> Py.Exception locked_msg.
Proof.
  intros cs w user_id Hn Hcs w'.
  assert (locked_users (service w') !! user_id = None) as Hn'.
  { subst w'. revert w Hn. induction cs as [|c cs IH]; intros w Hn; [exact Hn|].
    simpl in Hcs. apply orb_false_iff in Hcs as (Hc & Hcs).
    exact (IH Hcs (run c w) (run_keeps_unlocked c w user_id Hn Hc)). }
  split; [exact Hn'|].
  intros d now event_id amount outcome e d' svc'.
  unfold place_bet, Sqlite.no_row, Sqlite.overflow, Sqlite.not_null_failed.
  rewrite (check_lock_free _ now _ Hn').
  repeat match goal with
         | |- context [match ?x with _ => _ end] => destruct x
         end; intros [= <- _ _]; discriminate.
Qed.

(** bob's withdrawal does not lock ann. *)
Lemma lock_only_by_withdrawal_witness :
  locked_users
    (service (run_all [WithdrawMoney 5 5 2 10; PlaceBet 6 1 1 10 "draw";
                       GetUserLockStatus 7 2]
                      (mkWorld registered_db init_service))) !! 1 = None.
Proof.
  exact (proj1 (lock_only_by_withdrawal
                  [WithdrawMoney 5 5 2 10; PlaceBet 6 1 1 10 "draw";
                   GetUserLockStatus 7 2]
                  (mkWorld registered_db init_service) 1 eq_refl eq_refl)).
Defined.

(** X10. [get_user_lock_status] answers what the lock check of [place_bet]
    and [withdraw_money] would decide at the same instant, and asking does
    not change what these calls do afterwards: from the moment of the
    question on, they return the same result and leave the same state as
    if the status had never been asked. *)
Theorem lock_status_neutral :
  forall (svc : BettingService) (now : time) (user_id : Z),
    let locked := fst (get_user_lock_status svc now user_id) in
    let svc1 := snd (get_user_lock_status svc now user_id) in
    (locked = true <-> check_lock svc now user_id = Py.Raise (Py.Exception locked_msg))
    /\ (locked = false -> locked_users svc1 !! user_id = None)
    /\ (forall later d event_id amount outcome,
          now <= later ->
          place_bet svc1 d later user_id event_id amount outcome
          = place_bet svc d later user_id event_id amount outcome)
    /\ (forall later t_lock amount,
          now <= later ->
          withdraw_money svc1 later t_lock user_id amount
          = withdraw_money svc later t_lock user_id amount).
Proof.
  intros svc now user_id. unfold get_user_lock_status, check_lock.
  destruct (locked_users svc !! user_id) as [t|] eqn:L; cbn [fst snd].
  - destruct (t <=? now) eqn:E; cbn [fst snd].
    + assert ((now <? t) = false) as -> by lia.
      assert (forall later,
                check_lock (set_locked_users svc (delete user_id (locked_users svc)))
                           later user_id
                = Py.Return (set_locked_users svc (delete user_id (locked_users svc))))
        as Hfree.
      { intros later. apply check_lock_free. simpl. apply lookup_delete_eq. }
      split; [split; discriminate|]. split; [intros _; simpl; apply lookup_delete_eq|].
      split.
      * intros later d event_id amount outcome Hl. unfold place_bet.
        rewrite Hfree, (check_lock_expired svc later t user_id L) by lia.
        reflexivity.
      * intros later t_lock amount Hl. unfold withdraw_money.
        rewrite Hfree, (check_lock_expired svc later t user_id L) by lia.
        reflexivity.
    + assert ((now <? t) = true) as -> by lia.
      split; [split; reflexivity|]. split; [discriminate|].
      split; reflexivity.
  - split; [split; discriminate|]. split; [intros _; exact L|].
    split; reflexivity.
Qed.

(** A withdrawal at 5 locks user 1 until 30000005; asked at 30000006 the
    status is unlocked, and the bet at 30000007 goes the same way with or
    without the question. *)
Lemma lock_status_neutral_witness :
  let svc := snd (withdraw_money init_service 5 5 1 20) in
  fst (get_user_lock_status svc 30000006 1) = false
  /\ place_bet (snd (get_user_lock_status svc 30000006 1)) fresh_db 30000007 1 1 40 "draw"
     = place_bet svc fresh_db 30000007 1 1 40 "draw".
Proof.
  intros svc.
  destruct (lock_status_neutral svc 30000006 1) as (_ & _ & Hbet & _).
  split; [reflexivity|]. apply Hbet. lia.
Defined.

(** ** Bets and their events *)






(** ** What a resolution leaves alone *)

Lemma credited_no_win (event_id : Z) (actual_result : string) (user_id : Z)
    (bs : list Bet.t) (bal : float) :
  (forall b, In b bs -> Bet.user_id b = user_id ->
             wins event_id actual_result b = false) ->
  credited event_id actual_result user_id bs bal = bal.
Proof.
  unfold credited. revert bal. induction bs as [|b bs IH]; intros bal H; [reflexivity|].
  simpl. assert (wins event_id actual_result b && (Bet.user_id b =? user_id)%Z = false)
    as ->.
  { destruct (Bet.user_id b =? user_id)%Z eqn:E; [|apply andb_false_r].
    rewrite (H b (or_introl eq_refl)) by lia. reflexivity. }
  apply IH. intros b' Hin. apply H. now right.
Qed.

(** X9. [resolve_event] pays the winners and touches nothing else: it
    creates and deletes no user; a user without a winning bet on the event
    keeps the whole row; of a winner's row only the balance changes (never
    [total_deposited]); the rows of the other events, the lock map and the
    margin are as before; and when it raises, the tables are as before. *)
Theorem resolve_event_frame :
  forall (svc : BettingService) (d : Database) (clock : nat -> time)
         (event_id : Z) (actual_result : string)
         (res : Py.result unit) (d' : Database) (svc' : BettingService),
    resolve_event svc d clock event_id actual_result = (res, d', svc') ->
    (forall e, res = Py.Raise e -> d' = d)
    /\ (forall user_id, users d' !! user_id = None <-> users d !! user_id = None)
    /\ (forall user_id u,
          users d !! user_id = Some u ->
          (forall b, In b (bets d) -> Bet.user_id b = user_id ->
                     wins event_id actual_result b = false) ->
          users d' !! user_id = Some u)
    /\ (forall user_id u u',
          users d !! user_id = Some u -> users d' !! user_id = Some u' ->
          User.username u' = User.username u /\ User.email u' = User.email u
          /\ User.hashed_password u' = User.hashed_password u
          /\ User.role u' = User.role u
          /\ User.total_deposited u' = User.total_deposited u
          /\ User.is_active u' = User.is_active u)
    /\ (forall other, other <> event_id -> events d' !! other = events d !! other)
    /\ locked_users svc' = locked_users svc
    /\ bookie_margin svc' = bookie_margin svc.
Proof.
  intros svc d clock event_id actual_result res d' svc' H.
  assert ((d' = d /\ locked_users svc' = locked_users svc
           /\ bookie_margin svc' = bookie_margin svc)
          \/ (res = Py.Return tt
              /\ (forall user_id,
                     users d' !! user_id
                     = credit_user event_id actual_result user_id (bets d)
                         (users d !! user_id))
              /\ (forall other, other <> event_id ->
                                events d' !! other = events d !! other)
              /\ locked_users svc' = locked_users svc
              /\ bookie_margin svc' = bookie_margin svc)) as [(-> & Hl & Hm)|Hret].
  { unfold resolve_event in H.
    destruct (events d !! event_id) as [event|] eqn:Ev.
    2:{ injection H as <- <- <-. left. repeat split. }
    destruct (resolve_bets clock event_id actual_result 0 (bets d) (users d)
                (total_service_deposit svc)) as [[[bs' us']|err] dep'] eqn:R.
    2:{ injection H as <- <- <-. left. repeat split. }
    injection H as <- <- <-. right. split; [reflexivity|]. split.
    - exact (resolve_bets_Return_users _ _ _ _ _ _ _ _ _ _ R).
    - split; [|split; reflexivity].
      intros other Hne. simpl. now rewrite lookup_insert_ne by congruence. }
  - split; [reflexivity|]. split; [reflexivity|]. split; [auto|].
    split; [|split; [reflexivity | split; assumption]].
    intros user_id u u' Hu Hu'. rewrite Hu in Hu'. injection Hu' as <-.
    repeat split.
  - destruct Hret as (-> & Hus & Hev & Hl & Hm).
    split; [discriminate|]. split; [|split; [|split; [|split; [exact Hev | split; assumption]]]].
    + intros user_id. rewrite Hus. destruct (users d !! user_id); simpl; split;
        first [discriminate | reflexivity].
    + intros user_id u Hu Hno. rewrite Hus, Hu. simpl.
      rewrite (credited_no_win _ _ _ _ _ Hno). now destruct u.
    + intros user_id u u' Hu Hu'. rewrite Hus, Hu in Hu'. simpl in Hu'.
      injection Hu' as <-. repeat split.
Qed.

(** bob, who bet on [team_b_won], keeps his row when event 1 is resolved as
    [team_a_won]. *)
Lemma resolve_event_frame_witness :
  users (db resolved_world) !! 2 = Some (sample_user "bob" 0 500).
Proof.
  destruct (resolve_event (service stakes_world) (db stakes_world) sample_clock 1
              "team_a_won") as [[res d'] svc'] eqn:R.
  destruct (resolve_event_frame _ _ _ _ _ _ _ _ R) as (_ & _ & Hkeep & _).
  assert (db resolved_world = d') as ->.
  { unfold resolved_world. cbn [run]. now rewrite R. }
  apply Hkeep; [reflexivity|].
  intros b [<-|[<-|[]]]; [discriminate | reflexivity].
Defined.

(** ** The profile endpoints *)

(** X11. [withdraw_funds] of the profile module has three outcomes: 400
    for an amount that is not positive, 423 when the user's lock is
    unexpired at the status check, and otherwise the acknowledgment, with
    the user locked until 30 seconds after the last clock reading.  It
    never raises the engine's own lock error, whatever the later clock
    readings are, because the status check has removed an expired entry;
    and when it raises, the engine is as before. *)
Theorem withdraw_funds_outcomes :
  forall (svc : BettingService) (t_status t_check t_lock : time)
         (user_id : Z) (amount : float),
    let out := Profile.withdraw_funds svc t_status t_check t_lock user_id amount in
    (PrimFloat.leb amount 0%float = true ->
     out = (Py.Raise (Py.HTTPException 400 "Amount must be positive" []), svc))
    /\ (PrimFloat.leb amount 0%float = false ->
        forall unlock_time,
          locked_users svc !! user_id = Some unlock_time ->
          t_status < unlock_time ->
          out = (Py.Raise (Py.HTTPException 423
                             "Account temporarily locked due to recent withdrawal" []),
                 svc))
    /\ (PrimFloat.leb amount 0%float = false ->
        (forall unlock_time,
            locked_users svc !! user_id = Some unlock_time ->
            unlock_time <= t_status) ->
        out = (Py.Return (mkWithdrawal "withdrawal_initiated" 30),
               set_locked_users svc
                 (<[user_id := t_lock + 30 * 1000000]> (locked_users svc))))
    /\ (forall e svc', out = (Py.Raise e, svc') ->
          svc' = svc /\ exists code detail, e = Py.HTTPException code detail []).
Proof.
  intros svc t_status t_check t_lock user_id amount out. subst out.
  unfold Profile.withdraw_funds, get_user_lock_status.
  destruct (PrimFloat.leb amount 0) eqn:A.
  { split; [reflexivity|]. split; [discriminate|]. split; [discriminate|].
    intros e svc' [= <- <-]. split; [reflexivity | eauto]. }
  split; [discriminate|].
  destruct (locked_users svc !! user_id) as [t|] eqn:L.
  - destruct (t <=? t_status) eqn:E.
    + assert (Profile.withdraw_funds svc t_status t_check t_lock user_id amount
              = (Py.Return (mkWithdrawal "withdrawal_initiated" 30),
                 set_locked_users svc
                   (<[user_id := t_lock + 30 * 1000000]> (locked_users svc)))) as H.
      { unfold Profile.withdraw_funds, get_user_lock_status. rewrite A, L, E.
        unfold withdraw_money. rewrite check_lock_free by (simpl; apply lookup_delete_eq).
        unfold set_locked_users. simpl. now rewrite insert_delete_eq. }
      unfold Profile.withdraw_funds, get_user_lock_status in H.
      rewrite A, L, E in H. rewrite H.
      split; [intros _ t' [= <-] Hlt; lia|]. split; [reflexivity|]. discriminate.
    + split; [reflexivity|]. split.
      * intros _ H. specialize (H t eq_refl). lia.
      * intros e svc' [= <- <-]. split; [reflexivity | eauto].
  - unfold withdraw_money. rewrite (check_lock_free _ _ _ L).
    split; [discriminate|]. split; [reflexivity|]. discriminate.
Qed.

(** User 1, locked by a withdrawal at 5: a second one is refused with 423
    at 6 and goes through at 30000005, although the engine's own check
    would then read an earlier clock. *)
Lemma withdraw_funds_outcomes_witness :
  let svc := snd (withdraw_money init_service 5 5 1 20) in
  fst (Profile.withdraw_funds svc 6 6 6 1 20)
  = Py.Raise (Py.HTTPException 423
                "Account temporarily locked due to recent withdrawal" [])
  /\ fst (Profile.withdraw_funds svc 30000005 0 30000005 1 20)
     = Py.Return (mkWithdrawal "withdrawal_initiated" 30).
Proof.
  intros svc. split.
  - destruct (withdraw_funds_outcomes svc 6 6 6 1 20) as (_ & H & _).
    rewrite (H eq_refl 30000005 eq_refl ltac:(lia)). reflexivity.
  - destruct (withdraw_funds_outcomes svc 30000005 0 30000005 1 20) as (_ & _ & H & _).
    rewrite (H eq_refl); [reflexivity|].
    intros t Ht. assert (t = 30000005) as -> by (vm_compute in Ht; congruence).
    lia.
Defined.

(** X12. [deposit_funds] never returns.  An amount that is not positive
    gives 400 even for an unknown user, an unknown user otherwise 404 (the
    driver's [OverflowError] for a key beyond 64 bits), and the tables are
    then as before.  A positive amount for a stored user is credited and
    committed, and only then does the call raise, on reading the balance off
    the expired row: where the two new floats are numbers,
    [get_user_balance] and [get_user_profile] of that user report the
    balance raised by the amount, with [total_deposited] raised by the
    amount and the other fields unchanged; the profiles of the other users
    and everybody's bets are as before. *)
Theorem deposit_commits_then_raises :
  forall (d : Database) (user_id : Z) (amount : float),
    let result := fst (deposit_funds d user_id amount) in
    let d' := snd (deposit_funds d user_id amount) in
    (forall new_balance, result <> Py.Return new_balance)
    /\ (PrimFloat.leb amount 0%float = true ->
        result = Py.Raise (Py.HTTPException 400 "Amount must be positive" [])
        /\ d' = d)
    /\ (PrimFloat.leb amount 0%float = false -> users d !! user_id = None ->
        result = Py.Raise (if Sqlite.in_int64 user_id then Profile.not_found
                           else Sqlite.overflow)
        /\ d' = d)
    /\ (forall user,
          PrimFloat.leb amount 0%float = false -> users d !! user_id = Some user ->
          let balance' := PrimFloat.add (User.balance user) amount in
          let deposited' := PrimFloat.add (User.total_deposited user) amount in
          Sqlite.is_null balance' = false -> Sqlite.is_null deposited' = false ->
          result = Py.Raise expired_attribute
          /\ Profile.get_user_balance d' user_id = Py.Return balance'
          /\ (exists p p',
                Profile.get_user_profile d user_id = Py.Return p
                /\ Profile.get_user_profile d' user_id = Py.Return p'
                /\ Profile.balance p' = balance'
                /\ Profile.total_deposited p' = deposited'
                /\ Profile.username p' = Profile.username p
                /\ Profile.email p' = Profile.email p
                /\ Profile.role p' = Profile.role p
                /\ Profile.is_active p' = Profile.is_active p)
          /\ (forall other, other <> user_id ->
                Profile.get_user_profile d' other = Profile.get_user_profile d other)
          /\ (forall anyone,
                Profile.get_user_bets d' anyone = Profile.get_user_bets d anyone)).
Proof.
  intros d user_id amount result d'. subst result d'. unfold deposit_funds.
  destruct (PrimFloat.leb amount 0).
  { split; [discriminate|]. split; [now split|]. split; [discriminate|].
    intros user [=]. }
  destruct (users d !! user_id) as [user|] eqn:U.
  2:{ split; [unfold Sqlite.no_row; destruct (Sqlite.in_int64 user_id); discriminate|].
      split; [discriminate|]. split; [|discriminate].
      intros _ _. now split. }
  split; [discriminate|]. split; [discriminate|]. split; [discriminate|].
  intros user0 _ [= <-]. cbv zeta. intros _ _.
  unfold Profile.get_user_balance, Profile.get_user_profile. simpl.
  rewrite lookup_insert_eq, U. simpl. split; [reflexivity|].
  split; [reflexivity|]. split.
  - do 2 eexists. split; [reflexivity|]. split; [reflexivity|]. simpl.
    repeat split.
  - split; [|reflexivity]. intros other Hne.
    now rewrite lookup_insert_ne by congruence.
Qed.

(** ann deposits 25 into her 100: the call raises, and her balance is
    125. *)
Lemma deposit_commits_then_raises_witness :
  fst (deposit_funds fresh_db 1 25) = Py.Raise expired_attribute
  /\ Profile.get_user_balance (snd (deposit_funds fresh_db 1 25)) 1
     = Py.Return 125%float.
Proof.
  destruct (proj2 (proj2 (proj2 (deposit_commits_then_raises fresh_db 1 25)))
              (sample_user "ann" 100 0) eq_refl eq_refl eq_refl eq_refl)
    as (H1 & H2 & _).
  split; [exact H1 | exact H2].
Defined.

(** ** The routes of the public API *)

(** X13. The bet route and the withdrawal route of the public API act on
    user 1, whoever holds the token.  With any two tokens that the
    dependency accepts with role [user] or [admin] the routes do the same;
    a bet that the route reports was taken by the engine for user 1, whose
    row is the only user row that changes; every failure of the engine
    comes back as a 400 with the engine's message; and a route that raises
    leaves the tables as they were. *)
Theorem routes_act_on_user_one :
  forall (token : Type)
         (jwt_decode : time -> token -> string -> list string
                       -> Py.result (Py.dict Py.value))
         (svc : BettingService) (d : Database) (now : time) (tok : token)
         (t_engine t_lock : time) (event_id : Z) (amount : float)
         (outcome : string) (current_user : Py.dict Py.value),
    get_current_user token jwt_decode now tok = Py.Return current_user ->
    Router.role_in ["user"; "admin"] current_user = true ->
    let bet_route :=
      Router.place_bet token jwt_decode svc d now tok t_engine event_id amount outcome in
    (forall now2 tok2 current_user2,
        get_current_user token jwt_decode now2 tok2 = Py.Return current_user2 ->
        Router.role_in ["user"; "admin"] current_user2 = true ->
        Router.place_bet token jwt_decode svc d now2 tok2 t_engine event_id amount outcome
        = bet_route
        /\ Router.withdraw_money token jwt_decode svc now2 tok2 t_engine t_lock amount
           = Router.withdraw_money token jwt_decode svc now tok t_engine t_lock amount)
    /\ (forall resp d' svc',
          bet_route = (Py.Return resp, d', svc') ->
          exists bet,
            place_bet svc d t_engine 1 event_id amount outcome = (Py.Return bet, d', svc')
            /\ Bet.user_id bet = 1
            /\ Router.bet_id resp = Bet.id bet /\ Router.odds resp = Bet.odds bet
            /\ forall other, other <> 1 -> users d' !! other = users d !! other)
    /\ (forall e d' svc',
          bet_route = (Py.Raise e, d', svc') ->
          d' = d
          /\ exists e0, place_bet svc d t_engine 1 event_id amount outcome
                        = (Py.Raise e0, d, svc')
                        /\ e = Py.HTTPException 400 (Router.str e0) [])
    /\ (forall e svc',
          Router.withdraw_money token jwt_decode svc now tok t_engine t_lock amount
          = (Py.Raise e, svc') ->
          svc' = svc /\ e = Py.HTTPException 400 locked_msg []
          /\ exists unlock_time,
               locked_users svc !! 1 = Some unlock_time /\ t_engine < unlock_time).
Proof.
  intros token jwt_decode svc d now tok t_engine t_lock event_id amount outcome
         current_user Hcu Hrole bet_route. subst bet_route.
  unfold Router.place_bet, Router.withdraw_money. rewrite Hcu, Hrole. cbn [negb].
  split; [|split; [|split]].
  - intros now2 tok2 cu2 Hcu2 Hrole2. rewrite Hcu2, Hrole2. split; reflexivity.
  - intros resp d' svc'.
    destruct (place_bet svc d t_engine 1 event_id amount outcome)
      as [[[bet|e0] d1] svc1] eqn:P; [|discriminate].
    intros [= <- <- <-]. exists bet. split; [reflexivity|].
    apply place_bet_Return in P
      as (s1 & user & event & odd & _ & _ & _ & _ & _ & _ & _ & -> & -> & _).
    simpl. repeat split. intros other Hne. now rewrite lookup_insert_ne by congruence.
  - intros e d' svc'.
    destruct (place_bet svc d t_engine 1 event_id amount outcome)
      as [[[bet|e0] d1] svc1] eqn:P; [discriminate|].
    intros [= <- <- <-].
    apply place_bet_Raise in P as (-> & _). split; [reflexivity|]. eauto.
  - intros e svc'. unfold withdraw_money.
    destruct (check_lock svc t_engine 1) as [svc1|e0] eqn:L; [discriminate|].
    intros [= <- <-]. apply check_lock_Raise in L as (-> & H).
    split; [reflexivity|]. split; [reflexivity | exact H].
Qed.

(** With ann's token and with bob's, a bet of 40 is taken from user 1. *)
Lemma routes_act_on_user_one_witness :
  Router.place_bet Jwt jose_decode init_service registered_db 0 bob_token 0 1 40 "draw"
  = Router.place_bet Jwt jose_decode init_service registered_db 0 ann_token 0 1 40 "draw"
  /\ exists resp d' svc' u,
       Router.place_bet Jwt jose_decode init_service registered_db 0 bob_token 0 1 40 "draw"
       = (Py.Return resp, d', svc')
       /\ users d' !! 2 = Some (sample_user "bob" 100 0)
       /\ users d' !! 1 = Some u /\ User.balance u = 60%float.
Proof.
  destruct (routes_act_on_user_one Jwt jose_decode init_service registered_db 0
              ann_token 0 0 1 40 "draw" [("role", Py.VStr "user")] eq_refl eq_refl)
    as (Hsame & Hok & _).
  split.
  - exact (proj1 (Hsame 0 bob_token [("role", Py.VStr "user")] eq_refl eq_refl)).
  - destruct (Router.place_bet Jwt jose_decode init_service registered_db 0 ann_token
                0 1 40 "draw") as [[[resp|e] d'] svc'] eqn:R;
      [|vm_compute in R; discriminate].
    destruct (Hok resp d' svc' eq_refl) as (bet & P & _ & _ & _ & Hother).
    rewrite (proj1 (Hsame 0 bob_token [("role", Py.VStr "user")] eq_refl eq_refl)).
    exists resp, d', svc'. eexists. split; [reflexivity|].
    split; [rewrite Hother by lia; reflexivity|].
    assert (d' = snd (fst (place_bet init_service registered_db 0 1 1 40 "draw")))
      as -> by now rewrite P.
    split; reflexivity.
Defined.

(** X14. Who may call what, for the profile, balance, withdrawal, bet and
    analytics routes.  Once the role of a token is decoded: without a role
    ([None]) each of the five raises the 401 of the dependency and
    nothing is touched; with a role other than [user] and [admin] (a
    string or not) the user routes raise 403 "Not authorized" and the
    analytics route 403 "Admin access required"; [user] passes the user
    routes and is refused by the analytics route; [admin] passes both.  The
    balance route answers 100.0 without reading the database. *)
Theorem authorization_matrix :
  forall (token : Type)
         (jwt_decode : time -> token -> string -> list string
                       -> Py.result (Py.dict Py.value))
         (now : time) (tok : token) (svc : BettingService) (d : Database)
         (t_engine t_lock : time) (event_id : Z) (amount : float)
         (outcome : string) (v : Py.value),
    get_current_user_role token jwt_decode now tok = Py.Return v ->
    let profile := Router.get_user_profile token jwt_decode now tok in
    let balance := Router.get_user_balance token jwt_decode now tok in
    let analytics := Router.get_admin_analytics token jwt_decode svc now tok in
    let bet :=
      Router.place_bet token jwt_decode svc d now tok t_engine event_id amount outcome in
    let withdrawal :=
      Router.withdraw_money token jwt_decode svc now tok t_engine t_lock amount in
    (v = Py.VNone ->
     profile = Py.Raise unauthorized /\ balance = Py.Raise unauthorized
     /\ analytics = Py.Raise unauthorized
     /\ bet = (Py.Raise unauthorized, d, svc)
     /\ withdrawal = (Py.Raise unauthorized, svc))
    /\ (v <> Py.VNone -> v <> Py.VStr "user" -> v <> Py.VStr "admin" ->
        profile = Py.Raise Router.not_authorized
        /\ balance = Py.Raise Router.not_authorized
        /\ analytics = Py.Raise Router.admin_required
        /\ bet = (Py.Raise Router.not_authorized, d, svc)
        /\ withdrawal = (Py.Raise Router.not_authorized, svc))
    /\ (v = Py.VStr "user" ->
        profile = Py.Return ("User profile retrieved", [("role", v)])
        /\ balance = Py.Return 100.0%float
        /\ analytics = Py.Raise Router.admin_required)
    /\ (v = Py.VStr "admin" ->
        profile = Py.Return ("User profile retrieved", [("role", v)])
        /\ balance = Py.Return 100.0%float
        /\ analytics = Py.Return (get_admin_analytics svc)).
Proof.
  intros token jwt_decode now tok svc d t_engine t_lock event_id amount outcome v Hv
         profile balance analytics bet withdrawal.
  subst profile balance analytics bet withdrawal.
  unfold Router.get_user_profile, Router.get_user_balance, Router.get_admin_analytics,
    Router.place_bet, Router.withdraw_money, get_current_user.
  rewrite Hv. split; [|split; [|split]].
  - intros ->. simpl. repeat split.
  - intros Hn Hu Ha.
    assert (Router.role_in ["user"; "admin"] [("role", v)] = false
            /\ Router.role_in ["admin"] [("role", v)] = false) as [H1 H2].
    { unfold Router.role_in, Py.get_or_none. simpl.
      destruct v as [| b | n | r]; try (split; reflexivity).
      assert (String.eqb r "user" = false) as -> by (apply String.eqb_neq; congruence).
      assert (String.eqb r "admin" = false) as -> by (apply String.eqb_neq; congruence).
      split; reflexivity. }
    destruct v; [congruence | | | ]; simpl Py.is_none; cbv iota;
      rewrite H1, H2; simpl; repeat split.
  - intros ->. simpl. repeat split.
  - intros ->. simpl. repeat split.
Qed.

(** ann's token while it is good and once it has expired, and the
    administrator's. *)
Lemma authorization_matrix_witness :
  Router.get_admin_analytics Jwt jose_decode init_service 1700000000 ann_token
  = Py.Raise Router.admin_required
  /\ Router.get_user_balance Jwt jose_decode 1801000000 ann_token
     = Py.Raise unauthorized
  /\ Router.get_admin_analytics Jwt jose_decode init_service 0 admin_token
     = Py.Return (get_admin_analytics init_service).
Proof.
  split; [|split].
  - destruct (authorization_matrix Jwt jose_decode 1700000000 ann_token init_service
                fresh_db 0 0 1 1 "draw" (Py.VStr "user") eq_refl)
      as (_ & _ & H & _).
    exact (proj2 (proj2 (H eq_refl))).
  - destruct (authorization_matrix Jwt jose_decode 1801000000 ann_token init_service
                fresh_db 0 0 1 1 "draw" Py.VNone eq_refl)
      as (H & _).
    exact (proj1 (proj2 (H eq_refl))).
  - destruct (authorization_matrix Jwt jose_decode 0 admin_token init_service
                fresh_db 0 0 1 1 "draw" (Py.VStr "admin") eq_refl)
      as (_ & _ & _ & H).
    exact (proj2 (proj2 (H eq_refl))).
Defined.

(** ** Tokens and login *)

(** The role read from a token that [create_access_token] made of a
    subject and a role, under the reference coder and decoder. *)
Lemma issued_token_role (now : time) (username role : string)
    (expires_delta : option Z) (t : time) :
  get_current_user_role Jwt jose_decode t
    (create_access_token Jwt jose_encode now
       [("sub", Py.VStr username); ("role", Py.VStr role)] expires_delta)
  = Py.Return
      (if (now + match expires_delta with
                 | Some delta => if delta =? 0 then 900000000 else delta
                 | None => 900000000
                 end) / 1000000 <? t / 1000000
       then Py.VNone else Py.VStr role).
Proof.
  unfold create_access_token, jose_encode, get_current_user_role, jose_decode,
    validate_claims, int_claim, str_claim.
  cbn [map fst snd Py.set String.eqb Ascii.eqb Bool.eqb existsb negb orb
       SECRET_KEY ALGORITHM].
  cbn [Py.get String.eqb Ascii.eqb Bool.eqb py_int].
  set (expire := match expires_delta with
                 | Some delta => if negb (delta =? 0) then now + delta
                                 else now + timedelta_minutes 15
                 | None => now + timedelta_minutes 15
                 end).
  assert (expire = now + match expires_delta with
                         | Some delta => if delta =? 0 then 900000000 else delta
                         | None => 900000000
                         end) as ->.
  { subst expire. destruct expires_delta as [delta|]; [|reflexivity].
    destruct (delta =? 0); reflexivity. }
  destruct (_ <? _); reflexivity.
Qed.

(** X15. A token made by [create_access_token] from a subject and a role
    is good for the lifetime asked for, and for 15 minutes when no lifetime
    or a zero lifetime is given (a zero [timedelta] counts as none): under
    the reference model of python-jose, [get_current_user_role] returns the
    role as long as the clock, in whole seconds, has not passed the expiry,
    and [None] afterwards. *)
Theorem token_lifetime :
  forall (now : time) (username role : string) (expires_delta : option Z) (t : time),
    let tok := create_access_token Jwt jose_encode now
                 [("sub", Py.VStr username); ("role", Py.VStr role)] expires_delta in
    let lifetime := match expires_delta with
                    | Some delta => if delta =? 0 then 15 * 60 * 1000000 else delta
                    | None => 15 * 60 * 1000000
                    end in
    (t / 1000000 <= (now + lifetime) / 1000000 ->
     get_current_user_role Jwt jose_decode t tok = Py.Return (Py.VStr role))
    /\ ((now + lifetime) / 1000000 < t / 1000000 ->
        get_current_user_role Jwt jose_decode t tok = Py.Return Py.VNone).
Proof.
  intros now username role expires_delta t tok lifetime. subst tok.
  rewrite issued_token_role. fold lifetime.
  change (15 * 60 * 1000000) with 900000000 in lifetime.
  split; intros H.
  - assert (((now + lifetime) / 1000000 <? t / 1000000) = false) as E by lia.
    subst lifetime. now rewrite E.
  - assert (((now + lifetime) / 1000000 <? t / 1000000) = true) as E by lia.
    subst lifetime. now rewrite E.
Qed.

(** A token made at second 100 with a zero lifetime is still good at
    second 1000 and expired at second 1001. *)
Lemma token_lifetime_witness :
  let tok := create_access_token Jwt jose_encode 100000000
               [("sub", Py.VStr "ann"); ("role", Py.VStr "user")] (Some 0) in
  get_current_user_role Jwt jose_decode 1000000000 tok = Py.Return (Py.VStr "user")
  /\ get_current_user_role Jwt jose_decode 1001000000 tok = Py.Return Py.VNone.
Proof.
  intros tok. split.
  - apply (proj1 (token_lifetime 100000000 "ann" "user" (Some 0) 1000000000)).
    vm_compute. discriminate.
  - apply (proj2 (token_lifetime 100000000 "ann" "user" (Some 0) 1001000000)).
    reflexivity.
Defined.

Lemma select_by_username_In (d : Database) (username : string) (id : Z) (user : User.t) :
  In (id, user) (select_by_username d username) ->
  users d !! id = Some user /\ User.username user = username.
Proof.
  unfold select_by_username. intros H. apply filter_In in H as (Hin & E).
  apply String.eqb_eq in E. split; [|exact E].
  apply list_elem_of_In in Hin. now apply elem_of_map_to_list in Hin.
Qed.

(** X16. [login] returns only for a stored user with that username whose
    password verifies and who is active, and then reports that user's key
    and role; the token it returns makes [get_current_user] answer that
    role for 15 minutes and raise the 401 afterwards (reference model of
    python-jose).  Without a row for the username, and with a row whose
    password does not verify, it raises the same 401; with the right
    password of an inactive user it raises 400. *)
Theorem login_round_trip :
  forall (pwd_verify : string -> string -> bool) (d : Database) (now : time)
         (username password : string),
    let result := login Jwt jose_encode pwd_verify d now username password in
    (forall resp,
        result = Py.Return resp ->
        exists user,
          users d !! login_user_id resp = Some user
          /\ User.username user = username
          /\ pwd_verify password (User.hashed_password user) = true
          /\ User.is_active user = true
          /\ login_role resp = User.role user
          /\ token_type resp = "bearer"
          /\ forall t,
               get_current_user Jwt jose_decode t (access_token resp)
               = if (now + 900000000) / 1000000 <? t / 1000000
                 then Py.Raise unauthorized
                 else Py.Return [("role", Py.VStr (User.role user))])
    /\ (select_by_username d username = [] ->
        result = Py.Raise (Py.HTTPException 401 "Incorrect username or password" []))
    /\ (forall id user,
          select_by_username d username = [(id, user)] ->
          result
          = if pwd_verify password (User.hashed_password user)
            then if User.is_active user
                 then Py.Return
                        (mkLoginResponse
                           (create_access_token Jwt jose_encode now
                              [("sub", Py.VStr (User.username user));
                               ("role", Py.VStr (User.role user))] None)
                           "bearer" id (User.username user) (User.role user))
                 else Py.Raise (Py.HTTPException 400 "Inactive user" [])
            else Py.Raise (Py.HTTPException 401 "Incorrect username or password" [])).
Proof.
  intros pwd_verify d now username password result. subst result.
  unfold login, authenticate_user, verify_password.
  split; [|split].
  - intros resp.
    destruct (select_by_username d username) as [|[id user] [|row rows]] eqn:S;
      cbn [scalar_one_or_none]; try discriminate.
    destruct (pwd_verify password (User.hashed_password user)) eqn:V;
      cbn [negb]; [|discriminate].
    destruct (User.is_active user) eqn:A; cbn [negb]; [|discriminate].
    intros [= <-]. exists user. cbn.
    destruct (select_by_username_In d username id user) as (U & Hn).
    { rewrite S. now left. }
    repeat split; try assumption.
    intros t. unfold get_current_user. rewrite issued_token_role.
    now destruct (_ <? _).
  - intros ->. reflexivity.
  - intros id user ->. cbn [scalar_one_or_none].
    destruct (pwd_verify password (User.hashed_password user)); cbn [negb];
      [|reflexivity].
    destruct (User.is_active user); reflexivity.
Qed.

(** ann logs in with her password at second 100: the token answers [user]
    at second 1000. *)
Lemma login_round_trip_witness :
  exists resp,
    login Jwt jose_encode sample_verify registered_db 100000000 "ann" "secret"
    = Py.Return resp
    /\ login_user_id resp = 1
    /\ get_current_user Jwt jose_decode 1000000000 (access_token resp)
       = Py.Return [("role", Py.VStr "user")].
Proof.
  destruct (login Jwt jose_encode sample_verify registered_db 100000000 "ann" "secret")
    as [resp|e] eqn:L; [|vm_compute in L; discriminate].
  exists resp. split; [reflexivity|].
  destruct (proj1 (login_round_trip sample_verify registered_db 100000000 "ann"
                     "secret") resp L)
    as (user & U & _ & _ & _ & Hr & _ & Htok).
  assert (login_user_id resp = 1) as Hid.
  { vm_compute in L. injection L as <-. reflexivity. }
  split; [exact Hid|].
  rewrite Htok. rewrite Hid in U. vm_compute in U. injection U as <-. reflexivity.
Defined.

(** ** Random events *)

Lemma choice_In {A : Type} (r : nat) (xs : list A) (default : A) :
  xs <> [] -> In (choice r xs default) xs.
Proof.
  intros Hne. unfold choice. apply nth_In. apply Nat.mod_upper_bound.
  destruct xs; [congruence | discriminate].
Qed.

Lemma randint_from_bounds (a : Z) (n r : nat) :
  n <> 0%nat -> a <= randint_from a n r <= a + Z.of_nat n - 1.
Proof.
  intros Hn. unfold randint_from.
  pose proof (Nat.mod_upper_bound r n Hn). lia.
Qed.

(** The second team is drawn among the others: it is in the roster and is
    not the first.  [roster] is a list with at least two different
    entries. *)
Lemma second_team (roster : list string) (a b team1 : string) (r : nat) :
  In a roster -> In b roster -> a <> b ->
  let team2 :=
    choice r (List.filter (fun t => negb (String.eqb t team1)) roster) "" in
  In team2 roster /\ team2 <> team1.
Proof.
  intros Ha Hb Hab team2.
  assert (In team2 (List.filter (fun t => negb (String.eqb t team1)) roster)) as H.
  { apply choice_In. intros Hnil.
    assert (forall t, In t roster -> t = team1) as Hall.
    { intros t Ht. destruct (String.eqb t team1) eqn:E; [now apply String.eqb_eq|].
      assert (In t (List.filter (fun t => negb (String.eqb t team1)) roster)) as Hin.
      { apply filter_In. split; [exact Ht | now rewrite E]. }
      rewrite Hnil in Hin. destruct Hin. }
    rewrite (Hall a Ha), (Hall b Hb) in Hab. congruence. }
  apply filter_In in H as (Hin & E). split; [exact Hin|].
  apply negb_true_iff, String.eqb_neq in E. exact E.
Qed.

Lemma next_id_above {A : Type} (m : gmap Z A) (k : Z) (v : A) :
  m !! k = Some v -> k < next_id m.
Proof.
  intros H. apply elem_of_map_to_list, list_elem_of_In in H.
  unfold next_id. induction (map_to_list m) as [|[k' v'] l IH]; [destruct H|].
  simpl. destruct H as [[= -> ->]|H]; [lia|]. specialize (IH H). lia.
Qed.

Lemma next_id_fresh {A : Type} (m : gmap Z A) : m !! next_id m = None.
Proof.
  destruct (m !! next_id m) as [v|] eqn:H; [|reflexivity].
  apply next_id_above in H. lia.
Qed.

(** The rows [add_events] inserts: [n] of them, each built by
    [random_event], beside the rows already there. *)
Lemma add_events_spec (clock : nat -> time) (draws : nat -> Draws) (n : nat) :
  forall (i : nat) (evs : gmap Z Event.t),
    let evs' := add_events clock draws n i evs in
    (forall k e, evs !! k = Some e -> evs' !! k = Some e)
    /\ size evs' = (size evs + n)%nat
    /\ (forall k e, evs' !! k = Some e -> evs !! k = None ->
                    exists j, e = random_event (clock j) (draws j)).
Proof.
  induction n as [|n IH]; intros i evs; cbn [add_events].
  - split; [auto|]. split; [lia|]. intros k e H H'. congruence.
  - destruct (IH (S i) (<[next_id evs := random_event (clock i) (draws i)]> evs))
      as (Hkeep & Hsize & Hnew).
    split; [|split].
    + intros k e H. apply Hkeep. rewrite lookup_insert_ne; [exact H|].
      intros <-. rewrite next_id_fresh in H. discriminate.
    + rewrite Hsize, map_size_insert_None by apply next_id_fresh. lia.
    + intros k e H Hnone.
      destruct (decide (next_id evs = k)) as [<-|Hne].
      * exists i. pose proof (Hkeep (next_id evs) _ (lookup_insert_eq _ _ _)) as H'.
        congruence.
      * apply (Hnew k e H). now rewrite lookup_insert_ne.
Qed.

(** X17. [create_random_events] adds [count] events (none for a count
    that is not positive) and changes nothing else: users, bets and the
    events already stored are as before.  Whatever the random generator
    draws, a new event is active and unfinished without a result, its sport
    is one of the five, its two teams are different entries of the roster,
    its name is "<Sport> Match: <team1> vs <team2>" with the sport
    title-cased, and it starts 1 to 24 hours after a reading of the
    clock. *)
Theorem random_events_added :
  forall (d : Database) (clock : nat -> time) (draws : nat -> Draws) (count : Z),
    let d' := create_random_events d clock draws count in
    users d' = users d /\ bets d' = bets d
    /\ (forall k e, events d !! k = Some e -> events d' !! k = Some e)
    /\ size (events d') = (size (events d) + Z.to_nat count)%nat
    /\ (forall k e,
          events d' !! k = Some e -> events d !! k = None ->
          Event.is_active e = true /\ Event.is_finished e = false
          /\ Event.result e = None
          /\ In (Event.sport_type e) sports_types
          /\ exists team1 team2 j,
               In team1 teams /\ In team2 teams /\ team1 <> team2
               /\ Event.name e
                  = String.append (PyStr.title (Event.sport_type e))
                      (String.append " Match: "
                         (String.append team1 (String.append " vs " team2)))
               /\ clock j + 1 * 3600 * 1000000 <= Event.start_time e
                  <= clock j + 24 * 3600 * 1000000).
Proof.
  intros d clock draws count d'. subst d'. unfold create_random_events.
  cbn [users bets events].
  destruct (add_events_spec clock draws (Z.to_nat count) 0 (events d))
    as (Hkeep & Hsize & Hnew).
  split; [reflexivity|]. split; [reflexivity|]. split; [exact Hkeep|].
  split; [exact Hsize|].
  intros k e H Hnone. destruct (Hnew k e H Hnone) as (j & ->).
  unfold random_event.
  cbn [Event.is_active Event.is_finished Event.result Event.sport_type
       Event.name Event.start_time].
  split; [reflexivity|]. split; [reflexivity|]. split; [reflexivity|].
  split; [apply choice_In; discriminate|].
  destruct (second_team teams "Team A" "Team B"
              (choice (team1_draw (draws j)) teams "") (team2_draw (draws j)))
    as (H2 & Hne); [now left | now right; left | discriminate |].
  eexists _, _, j. split; [apply choice_In; discriminate|].
  split; [exact H2|]. split; [exact (not_eq_sym Hne)|]. split; [reflexivity|].
  pose proof (randint_from_bounds 1 24 (hours_draw (draws j)) ltac:(discriminate)).
  unfold timedelta_hours. lia.
Qed.

(** X18. [helpers.generate_random_event] returns an active, unfinished
    event of the sport it is given, or of a member of [SportType] when it is
    given none; its two teams are different entries of the roster of 24,
    its name is "<Sport> Match: <team1> vs <team2>", and it starts 1 to 48
    hours after the clock is read. *)
Theorem generated_event_shape :
  forall (now : time) (r : Draws) (sport_type : option SportType),
    let e := generate_random_event now r sport_type in
    ep_is_active e = true /\ ep_is_finished e = false
    /\ (exists member,
          ep_sport_type e = SportType_value member
          /\ match sport_type with Some s => member = s | None => True end)
    /\ (exists team1 team2,
          In team1 helper_teams /\ In team2 helper_teams /\ team1 <> team2
          /\ ep_name e
             = String.append (PyStr.title (ep_sport_type e))
                 (String.append " Match: "
                    (String.append team1 (String.append " vs " team2)))
          /\ ep_description e
             = String.append "Upcoming "
                 (String.append (ep_sport_type e)
                    (String.append " match between "
                       (String.append team1 (String.append " and " team2)))))
    /\ now + 1 * 3600 * 1000000 <= ep_start_time e <= now + 48 * 3600 * 1000000.
Proof.
  intros now r sport_type. unfold generate_random_event.
  cbn [ep_is_active ep_is_finished ep_sport_type ep_name ep_description
       ep_start_time].
  split; [reflexivity|]. split; [reflexivity|]. split.
  { eexists. split; [reflexivity|]. now destruct sport_type. }
  split.
  - destruct (second_team helper_teams "Team A" "Team B"
                (choice (team1_draw r) helper_teams "") (team2_draw r))
      as (H2 & Hne); [now left | now right; left | discriminate |].
    eexists _, _. split; [apply choice_In; discriminate|].
    split; [exact H2|]. split; [exact (not_eq_sym Hne)|]. split; reflexivity.
  - pose proof (randint_from_bounds 1 48 (hours_draw r) ltac:(discriminate)).
    unfold timedelta_hours. lia.
Qed.

(** ** The listings of bets *)

(** X19. A bet that [place_bet] accepts shows up in the listings: the
    bettor's own list ([get_user_bets]) gains one pending entry at its end,
    with the event, amount and outcome of the call (the amount as the
    table keeps it: a negative zero as 0.0), the lists of the other users
    are as before, and the admin list ([get_all_bets]) gains one row at its
    end that carries the bettor's username and the event's name; the rows
    already listed are unchanged. *)
Theorem placed_bet_listed :
  forall (svc : BettingService) (d : Database) (now : time)
         (user_id event_id : Z) (amount : float) (outcome : string)
         (bet : Bet.t) (d' : Database) (svc' : BettingService),
    place_bet svc d now user_id event_id amount outcome = (Py.Return bet, d', svc') ->
    Profile.get_user_bets d' user_id
    = (Profile.get_user_bets d user_id
       ++ [Profile.mkBetView (Bet.id bet) event_id (Sqlite.real amount)
             (Bet.odds bet) outcome None 0%float None])%list
    /\ (forall other, other <> user_id ->
                      Profile.get_user_bets d' other = Profile.get_user_bets d other)
    /\ exists user event,
         users d !! user_id = Some user /\ events d !! event_id = Some event
         /\ Dashboard.get_all_bets d'
            = (Dashboard.get_all_bets d
               ++ [Dashboard.mkBetRow (Bet.id bet) user_id (User.username user)
                     event_id (Event.name event) (Sqlite.real amount)
                     (Bet.odds bet) outcome None 0%float None])%list.
Proof.
  intros svc d now user_id event_id amount outcome bet d' svc' P.
  apply place_bet_Return in P
    as (svc1 & user & event & odd & _ & U & _ & Ev & _ & _ & _ & -> & -> & _).
  unfold Profile.get_user_bets, Dashboard.get_all_bets. cbn [bets].
  split; [|split].
  - rewrite List.filter_app, map_app. cbn. rewrite Z.eqb_refl. reflexivity.
  - intros other Hne. rewrite List.filter_app, map_app. cbn.
    destruct (Z.eqb_spec user_id other) as [->|_]; [congruence|].
    cbn. now rewrite app_nil_r.
  - exists user, event. split; [exact U|]. split; [exact Ev|].
    rewrite map_app. f_equal.
    + apply map_ext. intros b. unfold Dashboard.bet_row. cbn [users events].
      destruct (decide (user_id = Bet.user_id b)) as [<-|Hne].
      * rewrite lookup_insert_eq, U. now destruct user.
      * now rewrite lookup_insert_ne.
    + cbn. unfold Dashboard.bet_row. cbn.
      rewrite lookup_insert_eq, Ev. now destruct user.
Qed.

(** Ann's first bet, of 100 on the home team of event 1. *)
Lemma placed_bet_listed_witness :
  exists (bet : Bet.t) (d' : Database),
    Profile.get_user_bets d' 1
    = [Profile.mkBetView (Bet.id bet) 1 100%float (Bet.odds bet) "team_a_won"
         None 0%float None]
    /\ Dashboard.get_all_bets d'
       = [Dashboard.mkBetRow (Bet.id bet) 1 "ann" 1 (Event.name sample_event)
            100%float (Bet.odds bet) "team_a_won" None 0%float None].
Proof.
  destruct (place_bet init_service registered_db 0 1 1 100%float "team_a_won")
    as [[[bet|err] d'] svc'] eqn:P; [|vm_compute in P; discriminate].
  exists bet, d'.
  destruct (placed_bet_listed _ _ _ _ _ _ _ _ _ _ P)
    as (H1 & _ & user & event & U & Ev & H2).
  split; [exact H1|].
  assert (user = sample_user "ann" 100 0) as ->
      by (vm_compute in U; injection U as <-; reflexivity).
  assert (event = sample_event) as ->
      by (vm_compute in Ev; injection Ev as <-; reflexivity).
  exact H2.
Defined.

(** X20. In every state the calls lead to from tables whose bets belong to
    stored users and events, the admin list of bets has one row per bet and
    no row falls back to "Unknown": each row carries the username of the
    stored user and the name of the stored event its keys point to. *)
Theorem bet_rows_named :
  forall (cs : list call) (w : World),
    bets_have_users (db w) -> bets_have_events (db w) ->
    let d := db (run_all cs w) in
    length (Dashboard.get_all_bets d) = length (bets d)
    /\ forall row,
         In row (Dashboard.get_all_bets d) ->
         exists user event,
           users d !! Dashboard.user_id row = Some user
           /\ Dashboard.username row = User.username user
           /\ events d !! Dashboard.event_id row = Some event
           /\ Dashboard.event_name row = Event.name event.
Proof.
  intros cs w Hu He d.
  assert (bets_have_users d /\ bets_have_events d) as [Hu' He'].
  { apply (run_all_db_invariant (fun d => bets_have_users d /\ bets_have_events d));
      [exact db_step_foreign_keys | split; assumption]. }
  unfold Dashboard.get_all_bets. split; [apply length_map|].
  intros row Hin. apply in_map_iff in Hin as (b & <- & Hb).
  destruct (Hu' b Hb) as [user U]. destruct (He' b Hb) as [event Ev].
  exists user, event. unfold Dashboard.bet_row. cbn. rewrite U, Ev. auto.
Qed.

(** Two bets from the registered users, then the resolution of the event:
    two rows, Ann's and Bob's. *)
Lemma bet_rows_named_witness :
  let cs := [PlaceBet 0 1 1 100 "team_a_won"; DepositFunds 2 200;
             PlaceBet 1000000 2 1 300 "team_b_won";
             ResolveEvent sample_clock 1 "team_a_won"] in
  let d := db (run_all cs (mkWorld registered_db init_service)) in
  length (Dashboard.get_all_bets d) = 2%nat
  /\ forall row,
       In row (Dashboard.get_all_bets d) ->
       exists user event,
         users d !! Dashboard.user_id row = Some user
         /\ Dashboard.username row = User.username user
         /\ events d !! Dashboard.event_id row = Some event
         /\ Dashboard.event_name row = Event.name event.
Proof.
  intros cs d. subst d.
  destruct (bet_rows_named cs (mkWorld registered_db init_service)) as [Hlen Hrows];
    [intros b [] | intros b [] |].
  split; [rewrite Hlen; reflexivity | exact Hrows].
Defined.

(** ** The outcomes of a sport *)

Lemma get_sport_outcomes_cases (lower : string -> string) (sport_type : string) :
  let offered := get_sport_outcomes lower sport_type in
  (lower sport_type = "basketball" /\ offered = ["team_a_won"; "team_b_won"])
  \/ (lower sport_type = "tennis" /\ offered = ["player1"; "player2"])
  \/ (lower sport_type = "hockey" /\ offered = ["team_a_won"; "team_b_won"; "overtime"])
  \/ (lower sport_type = "volleyball" /\ offered = ["team_a_won"; "team_b_won"])
  \/ (~ In (lower sport_type) ["basketball"; "tennis"; "hockey"; "volleyball"]
      /\ offered = ["team_a_won"; "team_b_won"; "draw"]).
Proof.
  unfold get_sport_outcomes, outcomes_map. cbn [Py.get].
  destruct (String.eqb_spec (lower sport_type) "football") as [E|_].
  { do 4 right. split; [rewrite E; cbn; intuition discriminate | reflexivity]. }
  destruct (String.eqb_spec (lower sport_type) "basketball") as [E|N1].
  { left. split; [exact E | reflexivity]. }
  destruct (String.eqb_spec (lower sport_type) "tennis") as [E|N2].
  { right; left. split; [exact E | reflexivity]. }
  destruct (String.eqb_spec (lower sport_type) "hockey") as [E|N3].
  { do 2 right; left. split; [exact E | reflexivity]. }
  destruct (String.eqb_spec (lower sport_type) "volleyball") as [E|N4].
  { do 3 right; left. split; [exact E | reflexivity]. }
  do 4 right. split; [|reflexivity]. cbn. intuition congruence.
Qed.

Lemma standard_outcome_cases (k : string) :
  standard_outcome k = true -> k = "team_a_won" \/ k = "team_b_won" \/ k = "draw".
Proof.
  unfold standard_outcome. intros H.
  apply orb_true_iff in H as [H|H]; [apply orb_true_iff in H as [H|H]|];
    apply String.eqb_eq in H; tauto.
Qed.

(** With standard bets in the table, an accepted bet is on a standard
    outcome. *)
Lemma place_bet_standard (svc : BettingService) (d : Database) (now : time)
    (user_id event_id : Z) (amount : float) (outcome : string)
    (bet : Bet.t) (d' : Database) (svc' : BettingService) :
  bets_standard d ->
  place_bet svc d now user_id event_id amount outcome = (Py.Return bet, d', svc') ->
  standard_outcome outcome = true.
Proof.
  intros Hs P.
  apply place_bet_Return in P
    as (svc1 & user & event & odd & _ & _ & _ & _ & _ & _ & O & _).
  unfold calculate_odds_based_on_bets in O.
  destruct (odds_key _ _ _ _ _ O) as [H|(b & Hb & _ & Hbk)]; [exact H|].
  rewrite <- Hbk. exact (Hs b Hb).
Qed.

(** X21. The outcomes [get_sport_outcomes] offers, against the engine,
    in a state whose bets are on the three standard outcomes (every state
    the calls lead to from an empty table).  Of the offered outcomes,
    those of tennis ([player1], [player2]) and the [overtime] of hockey
    cannot be bet on: [place_bet] raises and changes no table.  For every
    other offered outcome the engine quotes odds.  And an outcome the
    engine accepts is valid ([validate_outcome_prediction]) for the
    offer of every sport except basketball, tennis, hockey and
    volleyball. *)
Theorem offered_outcomes_and_engine :
  forall (lower : string -> string) (sport_type : string)
         (svc : BettingService) (d : Database) (now : time)
         (user_id event_id : Z) (amount : float) (outcome : string),
    bets_standard d ->
    let offered := get_sport_outcomes lower sport_type in
    let attempt := place_bet svc d now user_id event_id amount outcome in
    (In outcome offered ->
     lower sport_type = "tennis" \/ outcome = "overtime" ->
     exists err svc', attempt = (Py.Raise err, d, svc'))
    /\ (In outcome offered ->
        lower sport_type <> "tennis" -> outcome <> "overtime" ->
        exists odd,
          Py.get outcome (calculate_odds_based_on_bets svc d event_id) = Some odd)
    /\ (forall bet d' svc',
          attempt = (Py.Return bet, d', svc') ->
          ~ In (lower sport_type) ["basketball"; "tennis"; "hockey"; "volleyball"] ->
          validate_outcome_prediction lower outcome offered = true).
Proof.
  intros lower sport_type svc d now user_id event_id amount outcome Hs offered attempt.
  pose proof (get_sport_outcomes_cases lower sport_type) as Hc.
  cbv zeta in Hc. fold offered in Hc.
  split; [|split].
  - intros Hin Hbad.
    assert (standard_outcome outcome = false) as Hk.
    { destruct Hbad as [Ht| ->]; [|reflexivity].
      destruct Hc as [[E _]|[[_ Ho]|[[E _]|[[E _]|[N _]]]]];
        try (rewrite Ht in E; discriminate).
      - rewrite Ho in Hin. destruct Hin as [<-|[<-|[]]]; reflexivity.
      - exfalso. apply N. rewrite Ht. cbn. tauto. }
    subst attempt.
    destruct (place_bet svc d now user_id event_id amount outcome)
      as [[[bet|err] d'] svc'] eqn:P.
    + apply (place_bet_standard _ _ _ _ _ _ _ _ _ _ Hs) in P. congruence.
    + pose proof P as P'. apply place_bet_Raise in P' as (-> & _). eauto.
  - intros Hin Ht Ho.
    assert (standard_outcome outcome = true) as Hk.
    { destruct Hc as [[_ E]|[[E _]|[[_ E]|[[_ E]|[_ E]]]]]; [| congruence | | |];
        rewrite E in Hin; cbn in Hin;
        repeat (destruct Hin as [<-|Hin]; [first [reflexivity | congruence]|]);
        destruct Hin. }
    unfold calculate_odds_based_on_bets. rewrite get_odds_of_bets.
    destruct (has_outcome _ outcome); [eauto|].
    apply standard_outcome_cases in Hk as [-> | [-> | ->]]; cbn; eauto.
  - intros bet d' svc' P N. subst attempt.
    apply (place_bet_standard _ _ _ _ _ _ _ _ _ _ Hs) in P.
    assert (In outcome offered) as Hin.
    { destruct Hc as [[E _]|[[E _]|[[E _]|[[E _]|[_ E]]]]];
        try (exfalso; apply N; rewrite E; cbn; tauto).
      rewrite E. apply standard_outcome_cases in P as [-> | [-> | ->]]; cbn; auto. }
    unfold validate_outcome_prediction. apply existsb_exists.
    exists (lower outcome). split; [now apply in_map | apply String.eqb_refl].
Qed.

(** With the bets of [stakes_db]: a bet on [player1], which is offered
    for "Tennis", is refused for its outcome (an amount of 0 passes the
    balance check). *)
Lemma offered_outcomes_and_engine_witness :
  In "player1" (get_sport_outcomes PyStr.lower "Tennis")
  /\ exists err svc',
       place_bet init_service stakes_db 2000000 1 1 0 "player1"
       = (Py.Raise err, stakes_db, svc')
       /\ err = Py.Exception "Invalid outcome: player1".
Proof.
  assert (bets_standard stakes_db) as Hs.
  { intros b [<-|[<-|[]]]; reflexivity. }
  assert (In "player1" (get_sport_outcomes PyStr.lower "Tennis")) as Hin.
  { vm_compute. tauto. }
  split; [exact Hin|].
  destruct (proj1 (offered_outcomes_and_engine PyStr.lower "Tennis" init_service
                     stakes_db 2000000 1 1 0%float "player1" Hs)
              Hin (or_introl eq_refl)) as (err & svc' & H).
  exists err, svc'. split; [exact H|].
  vm_compute in H. injection H as <- _. reflexivity.
Defined.
